(** * FileCleaner: escalating deletion, tree sweeps and manifest sanitizing

    A shallow embedding of [augment_tools_core/file_cleaner.py].

    The Python class talks to the operating system at every step (pathlib,
    shutil, subprocess, time, json, and the repository's own helper modules).
    The embedding keeps the control flow of every method as it is written and
    threads an explicit world through it: each method is a computation in a
    small monad that carries the world, the Python exception that may be in
    flight, and the chronological list of everything the method asked the
    outside for (system calls and console lines).  The outside itself is an
    interface ([Env]); every theorem of the first part holds for every
    implementation of it.  A simulated file system ([Sim]) implements the
    interface and is used to run the methods on concrete inputs. *)

From Stdlib Require Import ZArith Ascii String.
From stdpp Require Import gmap strings list pretty.

Set Warnings "-register-all".

Open Scope string_scope.
Open Scope Z_scope.

(** ** Data *)

(** [pathlib.Path], as the list of its components below the root. *)
Definition path := list string.

(** [p / name] *)
Definition joinpath (p : path) (name : string) : path := (p ++ [name])%list.
(** [p.parent]; the parent of the root is the root. *)
Definition parent (p : path) : path := removelast p.
(** [p.name]; empty for the root. *)
Definition name (p : path) : string := List.last p EmptyString.

Infix "//" := joinpath (at level 40, left associativity).

(** The exceptions the module distinguishes: [OSError] (of which
    [PermissionError] is a subclass) with its [errno], which Python leaves
    [None] when the error was not built from a system call;
    [json.JSONDecodeError]; any other [Exception]. *)
Inductive exn :=
| OSError (errno : option Z)
| JSONDecodeError
| OtherException.

(** What a call gives back: a value, or an exception in flight. *)
Inductive outcome (A : Type) :=
| Returned (a : A)
| Raised (e : exn).
Arguments Returned {A} a.
Arguments Raised {A} e.

(** Values of [json.load].  A float is carried as its printed form. *)
Inductive json :=
| JNull
| JBool (b : bool)
| JInt (z : Z)
| JFloat (text : string)
| JStr (s : string)
| JList (items : list json)
| JDict (members : list (string * json)).

(** [isinstance(x, list)] and [isinstance(x, dict)] *)
Definition is_list (x : json) : bool :=
  match x with JList _ => true | _ => false end.
Definition is_dict (x : json) : bool :=
  match x with JDict _ => true | _ => false end.

(** A process reported by [ProcessManager.find_processes_using_file]. *)
Record process := Process { pid : Z; exe : option string }.

(** Modelled from the spec: the enumeration [IDEType] of [common_utils] is
    not part of the sources at hand.  The cleaner compares against the two
    members [VSCODE] and [VSCODE_INSIDERS]; every other variant is [OTHER]. *)
Inductive IDEType :=
| VSCODE
| VSCODE_INSIDERS
| OTHER (value : string).

Definition is_VSCODE (i : IDEType) : bool :=
  match i with VSCODE => true | _ => false end.
Definition is_VSCODE_INSIDERS (i : IDEType) : bool :=
  match i with VSCODE_INSIDERS => true | _ => false end.

(** The command lines handed to [subprocess.run].
    - [Taskkill pid]      : [taskkill /F /PID {pid}]
    - [KillKILL pid]      : [['kill', '-KILL', pid]]
    - [DelFQ p]           : [del /F /Q "{p}"]
    - [PSRemoveItem p]    : [powershell -Command "Remove-Item -Path '{p}' -Force -ErrorAction SilentlyContinue"]
    - [AttribDel p]       : [attrib -R -S -H "{p}" && del /F /Q "{p}"] *)
Inductive command :=
| Taskkill (pid : Z)
| KillKILL (pid : Z)
| DelFQ (p : path)
| PSRemoveItem (p : path)
| AttribDel (p : path).

(** ** Console lines *)

Inductive level := Info | Success | Warning | Error.

(** What an f-string interpolates. *)
Inductive arg :=
| APath (p : path)
| AStr (s : string)
| AExn (e : exn)
| ANum (n : Z)
| AItem (j : json)
| AProc (pr : process)
| AIde (i : IDEType)
| ANone.

(** A console line: the text of the f-string with [{}] for every
    interpolated value, and the values. *)
Record message := Msg { template : string; args : list arg }.

(** ** What a method asks of the outside *)

Inductive call :=
| CExists (p : path)
| CIsDir (p : path)
| CUnlink (p : path)
| CChmod (p : path) (mode : Z)
| CIterdir (p : path)
| CRmtree (p : path) (ignore_errors : bool)
| CSleep (seconds : Z)
| CRun (c : command)
| CFindProcesses (p : path)
| CCreateBackup (p : path)
| CJsonLoad (p : path)
| CJsonDump (p : path) (data : list json)
| CGetIdePaths (i : IDEType).

Inductive event :=
| Called (c : call)
| Printed (lv : level) (m : message).

(** ** The interface to the outside

    [W] is the state of the machine: files, locks, processes, time.  Every
    operation that can change it returns the new state; the queries
    ([exists], [is_dir], listing a directory, reading a file) do not.
    An operation that Python lets raise returns an [outcome].

    - [fs_exists], [fs_is_dir], [fs_unlink], [fs_chmod], [fs_iterdir]:
      [Path.exists], [Path.is_dir], [Path.unlink], [os.chmod],
      [Path.iterdir].  [Path.exists] and [Path.is_dir] answer [False] for a
      path that is not there and let the other errors of the underlying
      [stat] through -- a [PermissionError] for a path inside a directory
      that may not be searched -- so both give an [outcome].  [fs_iterdir]
      gives the entries the iteration yields before it ends, and the
      exception it ends with if it does not end normally.
    - [shutil_rmtree p ignore_errors], [time_sleep], [subprocess_run]: the
      library calls of the same names.  With [ignore_errors] the walk of
      [shutil.rmtree] passes over the errors of the entries; what the call
      itself raises is in its [outcome] like any other exception.
    - [json_load], [json_dump]: opening the file and [json.load],
      [json.dump].
    - [find_processes_using_file] is the method of [ProcessManager], and
      [create_backup] and [get_ide_paths] are the helpers of [common_utils];
      these two modules of the repository are not among the sources at hand,
      so the three are taken as they are used: holder discovery returns a
      list and does not raise (spec, 4.2), the backup helper returns a path,
      or [None], or raises, and the path provider returns a dictionary of
      paths, or nothing.  The four console helpers [print_info],
      [print_success], [print_warning] and [print_error] of [common_utils]
      only print. *)
Class Env (W : Type) := {
  os_name : string;
  fs_exists : path -> W -> outcome bool;
  fs_is_dir : path -> W -> outcome bool;
  fs_unlink : path -> W -> outcome unit * W;
  fs_chmod : path -> Z -> W -> outcome unit * W;
  fs_iterdir : path -> W -> list path * option exn;
  shutil_rmtree : path -> bool -> W -> outcome unit * W;
  time_sleep : Z -> W -> W;
  subprocess_run : command -> W -> outcome unit * W;
  find_processes_using_file : path -> W -> list process * W;
  create_backup : path -> W -> outcome (option path) * W;
  json_load : path -> W -> outcome json;
  json_dump : path -> list json -> W -> outcome unit * W;
  get_ide_paths : IDEType -> W -> option (gmap string path)
}.

(** The two text renderings of a JSON value used by the marker test:
    [json.dumps(x, ensure_ascii=False)] and [str(x)]. *)
Class Render := {
  json_dumps : json -> string;
  py_str : json -> string
}.

(** ** Strings *)

(** [str.lower()] on the bytes of the text: the letters A to Z. *)
Definition lower_ascii (c : ascii) : ascii :=
  let n := N_of_ascii c in
  if ((65 <=? n) && (n <=? 90))%N then ascii_of_N (n + 32) else c.

Fixpoint lower (s : string) : string :=
  match s with
  | EmptyString => EmptyString
  | String c rest => String (lower_ascii c) (lower rest)
  end.

(** [needle in hay] *)
Fixpoint contains (needle hay : string) : bool :=
  String.prefix needle hay ||
  match hay with
  | EmptyString => false
  | String _ rest => contains needle rest
  end.

(** ** The monad of methods *)

Record run (W A : Type) := Run {
  result : outcome A;
  final : W;
  events : list event
}.
Arguments Run {W A} result final events.
Arguments result {W A} r.
Arguments final {W A} r.
Arguments events {W A} r.

Definition M (W A : Type) : Type := W -> run W A.

Definition ret {W A} (a : A) : M W A := fun w => Run (Returned a) w [].

Definition raise {W A} (e : exn) : M W A := fun w => Run (Raised e) w [].

Definition bind {W A B} (m : M W A) (k : A -> M W B) : M W B :=
  fun w =>
    match m w with
    | Run (Returned a) w1 ev1 =>
        match k a w1 with
        | Run r w2 ev2 => Run r w2 (ev1 ++ ev2)%list
        end
    | Run (Raised e) w1 ev1 => Run (Raised e) w1 ev1
    end.

(** [try: m  except Exception as e: h e] *)
Definition try_except {W A} (m : M W A) (h : exn -> M W A) : M W A :=
  fun w =>
    match m w with
    | Run (Returned a) w1 ev1 => Run (Returned a) w1 ev1
    | Run (Raised e) w1 ev1 =>
        match h e w1 with
        | Run r w2 ev2 => Run r w2 (ev1 ++ ev2)%list
        end
    end.

Notation "'let*' x := m 'in' k" := (bind m (fun x => k))
  (at level 10, x name, m at level 100, k at level 200).
Notation "m ;; k" := (bind m (fun _ => k))
  (at level 100, k at level 200, right associativity).

(** A [for] loop whose body updates local variables [acc]. *)
Fixpoint for_in {W A S} (xs : list A) (body : A -> S -> M W S) (acc : S)
  : M W S :=
  match xs with
  | [] => ret acc
  | x :: rest => let* acc' := body x acc in for_in rest body acc'
  end.

(** The same loop inside a [try] block: when an exception leaves the loop
    the local variables keep the values they had, and the exception is handed
    to the [except] clause. *)
Fixpoint try_for_in {W A S} (xs : list A) (body : A -> S -> M W S) (acc : S)
  : M W (S * option exn) :=
  match xs with
  | [] => ret (acc, None)
  | x :: rest =>
      fun w =>
        match body x acc w with
        | Run (Returned acc') w1 ev1 =>
            match try_for_in rest body acc' w1 with
            | Run r w2 ev2 => Run r w2 (ev1 ++ ev2)%list
            end
        | Run (Raised e) w1 ev1 => Run (Returned (acc, Some e)) w1 ev1
        end
  end.

Section FileCleaner.

Context {W : Type} {env : Env W} {render : Render}.

(** *** The outside, as monadic operations *)

Definition print (lv : level) (t : string) (a : list arg) : M W unit :=
  fun w => Run (Returned tt) w [Printed lv (Msg t a)].
Definition print_info := print Info.
Definition print_success := print Success.
Definition print_warning := print Warning.
Definition print_error := print Error.

Definition called (c : call) : M W unit :=
  fun w => Run (Returned tt) w [Called c].

(** [p.exists()] *)
Definition path_exists (p : path) : M W bool :=
  fun w => Run (fs_exists p w) w [Called (CExists p)].

(** [p.is_dir()] *)
Definition is_dir (p : path) : M W bool :=
  fun w => Run (fs_is_dir p w) w [Called (CIsDir p)].

Definition unlink (p : path) : M W unit :=
  fun w => let '(r, w') := fs_unlink p w in Run r w' [Called (CUnlink p)].

Definition chmod (p : path) (mode : Z) : M W unit :=
  fun w => let '(r, w') := fs_chmod p mode w in Run r w' [Called (CChmod p mode)].

Definition sleep (seconds : Z) : M W unit :=
  fun w => Run (Returned tt) (time_sleep seconds w) [Called (CSleep seconds)].

(** [subprocess.run(..., check=False)]: the exit status is not looked at. *)
Definition run_command (c : command) : M W unit :=
  fun w => let '(r, w') := subprocess_run c w in Run r w' [Called (CRun c)].

(** [shutil.rmtree(p, ignore_errors=...)] *)
Definition rmtree (p : path) (ignore_errors : bool) : M W unit :=
  fun w =>
    let '(r, w') := shutil_rmtree p ignore_errors w in
    Run r w' [Called (CRmtree p ignore_errors)].

Definition find_processes (p : path) : M W (list process) :=
  fun w =>
    let '(l, w') := find_processes_using_file p w in
    Run (Returned l) w' [Called (CFindProcesses p)].

Definition backup (p : path) : M W (option path) :=
  fun w => let '(r, w') := create_backup p w in Run r w' [Called (CCreateBackup p)].

(** [with open(p, 'r') as f: json.load(f)] *)
Definition load (p : path) : M W json :=
  fun w => Run (json_load p w) w [Called (CJsonLoad p)].

(** [with open(p, 'w') as f: json.dump(data, f, indent=2, ensure_ascii=False)] *)
Definition dump (p : path) (data : list json) : M W unit :=
  fun w => let '(r, w') := json_dump p data w in Run r w' [Called (CJsonDump p data)].

Definition ide_paths (i : IDEType) : M W (option (gmap string path)) :=
  fun w => Run (Returned (get_ide_paths i w)) w [Called (CGetIdePaths i)].

(** [for x in p.iterdir(): body] inside a [try] block. *)
Definition try_for_iterdir {S} (p : path) (body : path -> S -> M W S) (acc : S)
  : M W (S * option exn) :=
  fun w =>
    let '(entries, err) := fs_iterdir p w in
    (called (CIterdir p) ;;
     let* r := try_for_in entries body acc in
     match r with
     | (acc', None) => ret (acc', err)
     | (acc', Some e) => ret (acc', Some e)
     end) w.

(** [os.name == 'nt'] *)
Definition on_windows : bool := String.eqb os_name "nt".

(** *** Escalating deleter *)

(** [TARGET_FILES] *)
Definition TARGET_FILES : list string := ["state.vscdb"; "state.vscdb.backup"].

(** [e.errno in [13, 32]] *)
Definition errno_in_13_32 (errno : option Z) : bool :=
  match errno with
  | Some n => (n =? 13) || (n =? 32)
  | None => false
  end.

(** The last console line of a failed Windows ladder. *)
Definition restart_hint : string := "文件可能被系统进程锁定，建议重启后再试".

(** The console line of a failed delete when force mode is off. *)
Definition force_mode_hint : string := "可以尝试使用强制模式".

Record method := Method { method_name : string; method_command : command }.

(** The list [methods] of [_windows_force_delete]. *)
Definition windows_methods (file_path : path) : list method :=
  [ Method "del命令" (DelFQ file_path);
    Method "PowerShell Remove-Item" (PSRemoveItem file_path);
    Method "attrib + del" (AttribDel file_path) ].

(** The [for method in methods] loop of [_windows_force_delete]; [true] when
    the loop left the function through [return True]. *)
Fixpoint try_methods (file_path : path) (methods : list method) : M W bool :=
  match methods with
  | [] => ret false
  | method :: rest =>
      let* deleted :=
        try_except
          (print_info "尝试使用 {} 删除文件..." [AStr (method_name method)] ;;
           run_command (method_command method) ;;
           let* present := path_exists file_path in
           if negb present then
             print_success "使用 {} 强制删除成功: {}"
               [AStr (method_name method); APath file_path] ;;
             ret true
           else ret false)
          (fun e =>
             print_warning "{} 失败: {}" [AStr (method_name method); AExn e] ;;
             ret false) in
      if deleted then ret true else try_methods file_path rest
  end.

(** The tail of [_windows_force_delete], after the loop. *)
Definition final_retry (file_path : path) : M W bool :=
  print_info "等待5秒后最后一次尝试..." [] ;;
  sleep 5 ;;
  try_except
    (unlink file_path ;;
     print_success "最终删除成功: {}" [APath file_path] ;;
     ret true)
    (fun e =>
       print_error "最终删除失败: {}" [APath file_path] ;;
       print_error "最终错误: {}" [AExn e] ;;
       print_info restart_hint [] ;;
       ret false).

Definition _windows_force_delete (file_path : path) : M W bool :=
  let* deleted := try_methods file_path (windows_methods file_path) in
  if deleted then ret true else final_retry file_path.

Definition _unix_force_delete (file_path : path) : M W bool :=
  try_except
    (chmod file_path 511 ;;
     unlink file_path ;;
     print_success "强制删除成功: {}" [APath file_path] ;;
     ret true)
    (fun e =>
       print_error "强制删除失败: {} - {}" [APath file_path; AExn e] ;;
       ret false).

Definition _kill_occupying_processes (processes : list process) : M W unit :=
  for_in processes
    (fun proc _ =>
       try_except
         ((if on_windows then run_command (Taskkill (pid proc))
           else run_command (KillKILL (pid proc))) ;;
          print_info "已终止占用进程 PID: {}" [ANum (pid proc)])
         (fun e =>
            print_warning "无法终止进程 {}: {}" [ANum (pid proc); AExn e]))
    tt.

(** [try: file_path.unlink(); print_success(...); return True
     except Exception: pass] -- [true] when the function returned. *)
Definition unlink_or_pass (file_path : path) (t : string) : M W bool :=
  try_except
    (unlink file_path ;;
     print_success t [APath file_path] ;;
     ret true)
    (fun _ => ret false).

(** The third step of [_force_delete_file]: holders are looked for on
    Windows only. *)
Definition kill_holders_and_retry (file_path : path) : M W bool :=
  if on_windows then
    let* occupying_processes := find_processes file_path in
    match occupying_processes with
    | [] => ret false
    | _ :: _ =>
        print_info "找到 {} 个占用文件的进程"
          [ANum (Z.of_nat (length occupying_processes))] ;;
        for_in occupying_processes
          (fun proc _ => print_info "  {}" [AProc proc]) tt ;;
        _kill_occupying_processes occupying_processes ;;
        sleep 2 ;;
        unlink_or_pass file_path "终止占用进程后删除成功: {}"
    end
  else ret false.

Definition _force_delete_file (file_path : path) : M W bool :=
  sleep 1 ;;
  let* deleted := unlink_or_pass file_path "延迟删除成功: {}" in
  if deleted then ret true else
  print_info "正常删除仍然失败，尝试查找并终止占用进程..." [] ;;
  let* deleted := kill_holders_and_retry file_path in
  if deleted then ret true else
  if on_windows then _windows_force_delete file_path
  else _unix_force_delete file_path.

(** The [except] clauses of [safe_delete_file].  An exception raised while
    a clause runs is not caught by its sibling clause. *)
Definition on_delete_error (file_path : path) (force_mode : bool) (e : exn)
  : M W bool :=
  match e with
  | OSError errno =>
      if errno_in_13_32 errno then
        print_warning "删除失败: {}" [APath file_path] ;;
        print_warning "错误: {}" [AExn e] ;;
        if force_mode then
          print_info "启用强制模式，等待后重试..." [] ;;
          _force_delete_file file_path
        else
          print_info force_mode_hint [] ;;
          ret false
      else
        print_error "删除失败: {} - {}" [APath file_path; AExn e] ;;
        ret false
  | _ =>
      print_error "删除失败: {} - {}" [APath file_path; AExn e] ;;
      ret false
  end.

Definition safe_delete_file (file_path : path) (force_mode : bool) : M W bool :=
  let* present := path_exists file_path in
  if negb present then ret false else
  print_info "尝试删除: {}" [APath file_path] ;;
  try_except
    (unlink file_path ;;
     print_success "已删除: {}" [APath file_path] ;;
     ret true)
    (on_delete_error file_path force_mode).

(** *** Tree cleaner *)

Definition _clean_global_storage (global_storage_path : path) (force_mode : bool)
  : M W Z :=
  print_info "清理 globalStorage..." [] ;;
  let* present := path_exists global_storage_path in
  if negb present then
    print_error "globalStorage 目录不存在: {}" [APath global_storage_path] ;;
    ret 0
  else
    let* deleted_count :=
      for_in TARGET_FILES
        (fun file_name deleted_count =>
           let file_path := global_storage_path // file_name in
           let* deleted := safe_delete_file file_path force_mode in
           ret (if deleted then deleted_count + 1 else deleted_count))
        0 in
    print_success "globalStorage 清理完成，删除了 {} 个文件" [ANum deleted_count] ;;
    ret deleted_count.

(** The local variables of the sweep over the workspaces. *)
Record sweep := Sweep { total_deleted : Z; workspaces_processed : Z }.

(** The body of [for workspace_dir in workspace_storage_path.iterdir()]. *)
Definition sweep_workspace (force_mode : bool) (workspace_dir : path) (acc : sweep)
  : M W sweep :=
  let* d := is_dir workspace_dir in
  if d then
    print_info "检查工作区: {}" [AStr (name workspace_dir)] ;;
    let* counts :=
      for_in TARGET_FILES
        (fun file_name (counts : Z * Z) =>
           let file_path := workspace_dir // file_name in
           let* deleted := safe_delete_file file_path force_mode in
           ret (if deleted then (fst counts + 1, snd counts + 1) else counts))
        (0, total_deleted acc) in
    let deleted_in_workspace := fst counts in
    ret (Sweep (snd counts)
           (if 0 <? deleted_in_workspace then workspaces_processed acc + 1
            else workspaces_processed acc))
  else ret acc.

Definition _clean_workspace_storage (workspace_storage_path : path)
  (force_mode : bool) : M W Z :=
  print_info "清理 workspaceStorage..." [] ;;
  let* present := path_exists workspace_storage_path in
  if negb present then
    print_error "workspaceStorage 目录不存在: {}" [APath workspace_storage_path] ;;
    ret 0
  else
    let* r := try_for_iterdir workspace_storage_path
                (sweep_workspace force_mode) (Sweep 0 0) in
    match r with
    | (_, Some e) =>
        print_error "读取 workspaceStorage 目录失败: {}" [AExn e] ;;
        ret 0
    | (acc, None) =>
        print_success "workspaceStorage 清理完成:" [] ;;
        print_info "  - 处理了 {} 个工作区" [ANum (workspaces_processed acc)] ;;
        print_info "  - 删除了 {} 个文件" [ANum (total_deleted acc)] ;;
        ret (total_deleted acc)
    end.

Definition _clean_history_folder (history_path : path) (force_mode : bool)
  : M W Z :=
  print_info "清理History文件夹: {}" [APath history_path] ;;
  let* present := path_exists history_path in
  if negb present then
    print_warning "History文件夹不存在: {}" [APath history_path] ;;
    ret 0
  else
    try_except
      (if force_mode then
         rmtree history_path true ;;
         print_success "已强制删除History文件夹: {}" [APath history_path] ;;
         ret 1
       else
         try_except
           (rmtree history_path false ;;
            print_success "已删除History文件夹: {}" [APath history_path] ;;
            ret 1)
           (fun e =>
              print_warning "删除History文件夹失败: {}" [AExn e] ;;
              print_info force_mode_hint [] ;;
              ret 0))
      (fun e =>
         print_error "清理History文件夹时发生错误: {}" [AExn e] ;;
         ret 0).

(** *** Manifest sanitizer *)

(** The marker. *)
Definition marker : string := "augment".

(** The [for item in data] loop of [_clean_extensions_json], with its two
    lists. *)
Fixpoint partition_items (data : list json) (filtered_data removed_items : list json)
  : list json * list json :=
  match data with
  | [] => (filtered_data, removed_items)
  | item :: rest =>
      if is_dict item then
        let item_str := lower (json_dumps item) in
        if contains marker item_str then
          partition_items rest filtered_data (removed_items ++ [item])%list
        else
          partition_items rest (filtered_data ++ [item])%list removed_items
      else
        if negb (contains marker (lower (py_str item))) then
          partition_items rest (filtered_data ++ [item])%list removed_items
        else
          partition_items rest filtered_data (removed_items ++ [item])%list
  end.

Definition _clean_extensions_json (extensions_json_path : path) (force_mode : bool)
  : M W Z :=
  print_info "处理extensions.json: {}" [APath extensions_json_path] ;;
  try_except
    (let* backup_path := backup extensions_json_path in
     match backup_path with
     | None =>
         print_error "无法创建extensions.json备份，跳过清理" [] ;;
         ret 0
     | Some backup_path =>
         let* data := load extensions_json_path in
         match data with
         | JList items =>
             let parts := partition_items items [] [] in
             let filtered_data := fst parts in
             let removed_items := snd parts in
             match removed_items with
             | _ :: _ =>
                 print_info "从extensions.json中移除了 {} 个augment相关条目:"
                   [ANum (Z.of_nat (length removed_items))] ;;
                 for_in removed_items
                   (fun item _ => print_info "  - {}" [AItem item]) tt ;;
                 dump extensions_json_path filtered_data ;;
                 print_success "extensions.json清理完成，备份位于: {}"
                   [APath backup_path] ;;
                 ret 1
             | [] =>
                 print_info "extensions.json中未找到augment相关条目" [] ;;
                 unlink backup_path ;;
                 ret 0
             end
         | _ =>
             print_warning "extensions.json格式不是预期的数组格式" [] ;;
             ret 0
         end
     end)
    (fun e =>
       match e with
       | JSONDecodeError =>
           print_error "extensions.json格式错误: {}" [AExn e] ;;
           ret 0
       | _ =>
           print_error "处理extensions.json时发生错误: {}" [AExn e] ;;
           ret 0
       end).

(** The body of [for item in extensions_dir.iterdir()]. *)
Definition remove_extension (force_mode : bool) (item : path) (deleted_count : Z)
  : M W Z :=
  let* d := is_dir item in
  if d && contains marker (lower (name item)) then
    print_info "找到augment扩展: {}" [AStr (name item)] ;;
    try_except
      (if force_mode then
         rmtree item true ;;
         print_success "已强制删除扩展: {}" [AStr (name item)] ;;
         ret (deleted_count + 1)
       else
         rmtree item false ;;
         print_success "已删除扩展: {}" [AStr (name item)] ;;
         ret (deleted_count + 1))
      (fun e =>
         print_warning "删除扩展失败 {}: {}" [AStr (name item); AExn e] ;;
         (if negb force_mode then print_info force_mode_hint [] else ret tt) ;;
         ret deleted_count)
  else ret deleted_count.

Definition _clean_profile_extensions (extensions_dir : path) (force_mode : bool)
  : M W Z :=
  print_info "清理扩展目录: {}" [APath extensions_dir] ;;
  let* present := path_exists extensions_dir in
  if negb present then
    print_warning "扩展目录不存在: {}" [APath extensions_dir] ;;
    ret 0
  else
    let* r := try_for_iterdir extensions_dir (remove_extension force_mode) 0 in
    let deleted_count := fst r in
    match snd r with
    | Some e => print_error "遍历扩展目录时发生错误: {}" [AExn e]
    | None => ret tt
    end ;;
    (if 0 <? deleted_count then
       print_success "从profile扩展目录删除了 {} 个augment扩展" [ANum deleted_count]
     else
       print_info "profile扩展目录中未找到augment相关扩展" []) ;;
    ret deleted_count.

(** [if p and p.exists(): n += f(p)] for an entry [p] of the dictionary that
    may be missing. *)
Definition add_if_present (entry : option path) (f : path -> M W Z) (n : Z)
  : M W Z :=
  match entry with
  | None => ret n
  | Some p =>
      let* present := path_exists p in
      if present then let* k := f p in ret (n + k) else ret n
  end.

Definition _clean_profile_directory (paths : gmap string path) (force_mode : bool)
  : M W Z :=
  let profile_dir := paths !! "profile_dir" in
  let extensions_dir := paths !! "profile_extensions" in
  let extensions_json := paths !! "profile_extensions_json" in
  let missing :=
    print_warning "Profile目录不存在: {}"
      [match profile_dir with Some p => APath p | None => ANone end] ;;
    ret 0 in
  match profile_dir with
  | None => missing
  | Some dir =>
      let* present := path_exists dir in
      if negb present then missing else
      print_info "清理Profile目录: {}" [APath dir] ;;
      let* deleted_count :=
        add_if_present extensions_json
          (fun p => _clean_extensions_json p force_mode) 0 in
      add_if_present extensions_dir
        (fun p => _clean_profile_extensions p force_mode) deleted_count
  end.

(** *** Cleanup orchestrator *)

(** The dictionary every run starts from. *)
Definition zero_results : gmap string Z :=
  <["globalStorage" := 0]> (<["workspaceStorage" := 0]>
    (<["history" := 0]> (<["profile" := 0]> ∅))).

(** The block that follows [if ide_type == IDEType.VSCODE_INSIDERS:] and,
    word for word, [if ide_type == IDEType.VSCODE:]. *)
Definition clean_history_and_profile (paths : gmap string path) (force_mode : bool)
  (results : gmap string Z) : M W (gmap string Z) :=
  let* results :=
    match paths !! "history" with
    | Some history =>
        let* present := path_exists history in
        if present then
          let* n := _clean_history_folder history force_mode in
          ret (<["history" := n]> results)
        else ret results
    | None => ret results
    end in
  match paths !! "profile_dir" with
  | Some _ =>
      let* n := _clean_profile_directory paths force_mode in
      ret (<["profile" := n]> results)
  | None => ret results
  end.

Definition clean_ide_files (ide_type : IDEType) (force_mode : bool)
  : M W (gmap string Z) :=
  print_info "开始清理 {} 状态文件..." [AIde ide_type] ;;
  let* paths := ide_paths ide_type in
  match paths with
  | None =>
      print_error "无法获取 {} 路径" [AIde ide_type] ;;
      ret zero_results
  | Some paths =>
      if decide (paths = ∅) then
        print_error "无法获取 {} 路径" [AIde ide_type] ;;
        ret zero_results
      else
        let results := zero_results in
        let* r :=
          match paths !! "state_db" with
          | Some state_db =>
              let global_storage_path := parent state_db in
              let* n := _clean_global_storage global_storage_path force_mode in
              ret (Some global_storage_path, <["globalStorage" := n]> results)
          | None => ret (None, results)
          end in
        let global_storage_path := fst r in
        let results := snd r in
        let* results :=
          match global_storage_path with
          | Some global_storage_path =>
              let workspace_storage_path :=
                parent global_storage_path // "workspaceStorage" in
              let* present := path_exists workspace_storage_path in
              if present then
                let* n := _clean_workspace_storage workspace_storage_path force_mode in
                ret (<["workspaceStorage" := n]> results)
              else ret results
          | None => ret results
          end in
        let* results :=
          if is_VSCODE_INSIDERS ide_type
          then clean_history_and_profile paths force_mode results
          else ret results in
        let* results :=
          if is_VSCODE ide_type
          then clean_history_and_profile paths force_mode results
          else ret results in
        ret results
  end.

End FileCleaner.

(** ** A simulated machine

    An implementation of [Env] on which the methods can be run: files with
    the reasons a delete can be refused (a read-only attribute, a handle held
    by other processes, an error of the device), directories, a directory
    listing that can break off, a backup helper that can fail, and the table
    of the path provider. *)

Inductive lock :=
| Unlocked
| ReadOnly
| HeldBy (pids : list Z)
| Refused (errno : Z).

Inductive node :=
| File (lk : lock) (content : outcome json)
| Dir.

Record sim := Sim {
  nodes : list (path * node);
  listing_faults : list (path * (nat * exn));
  backups_fail : bool;
  provider : IDEType -> option (gmap string path)
}.

Fixpoint path_eqb (p q : path) : bool :=
  match p, q with
  | [], [] => true
  | a :: p', b :: q' => String.eqb a b && path_eqb p' q'
  | _, _ => false
  end.

Fixpoint is_prefix (p q : path) : bool :=
  match p, q with
  | [], _ => true
  | a :: p', b :: q' => String.eqb a b && is_prefix p' q'
  | _ :: _, [] => false
  end.

Fixpoint assoc {A} (p : path) (l : list (path * A)) : option A :=
  match l with
  | [] => None
  | (q, a) :: rest => if path_eqb p q then Some a else assoc p rest
  end.

Definition remove_node (p : path) (l : list (path * node)) : list (path * node) :=
  List.filter (fun e => negb (path_eqb p (fst e))) l.

Definition set_nodes (w : sim) (l : list (path * node)) : sim :=
  Sim l (listing_faults w) (backups_fail w) (provider w).

Definition sim_exists (p : path) (w : sim) : bool :=
  match assoc p (nodes w) with Some _ => true | None => false end.

Definition sim_is_dir (p : path) (w : sim) : bool :=
  match assoc p (nodes w) with Some Dir => true | _ => false end.

Definition sim_unlink (p : path) (w : sim) : outcome unit * sim :=
  match assoc p (nodes w) with
  | None => (Raised (OSError (Some 2)), w)
  | Some Dir => (Raised (OSError (Some 21)), w)
  | Some (File Unlocked _) | Some (File (HeldBy []) _) =>
      (Returned tt, set_nodes w (remove_node p (nodes w)))
  | Some (File ReadOnly _) | Some (File (HeldBy (_ :: _)) _) =>
      (Raised (OSError (Some 13)), w)
  | Some (File (Refused n) _) => (Raised (OSError (Some n)), w)
  end.

Definition sim_chmod (p : path) (mode : Z) (w : sim) : outcome unit * sim :=
  if sim_exists p w then (Returned tt, w) else (Raised (OSError (Some 2)), w).

(** A killed process lets go of every file it held. *)
Definition release (victim : Z) (e : path * node) : path * node :=
  match e with
  | (p, File (HeldBy pids) c) =>
      (p, File (HeldBy (List.filter (fun q => negb (q =? victim)) pids)) c)
  | _ => e
  end.

(** The forced commands remove a file that is free or merely read-only. *)
Definition force_remove (p : path) (w : sim) : sim :=
  match assoc p (nodes w) with
  | Some (File Unlocked _) | Some (File ReadOnly _) | Some (File (HeldBy []) _) =>
      set_nodes w (remove_node p (nodes w))
  | _ => w
  end.

Definition sim_run (c : command) (w : sim) : outcome unit * sim :=
  match c with
  | Taskkill victim => (Returned tt, set_nodes w (List.map (release victim) (nodes w)))
  | KillKILL _ => (Raised OtherException, w)
  | DelFQ p | PSRemoveItem p | AttribDel p => (Returned tt, force_remove p w)
  end.

Definition sim_find_processes (p : path) (w : sim) : list process * sim :=
  match assoc p (nodes w) with
  | Some (File (HeldBy pids) _) => (List.map (fun n => Process n None) pids, w)
  | _ => ([], w)
  end.

Definition removable (n : node) : bool :=
  match n with
  | File Unlocked _ | File (HeldBy []) _ | Dir => true
  | _ => false
  end.

Definition sim_rmtree (p : path) (ignore_errors : bool) (w : sim)
  : outcome unit * sim :=
  let inside := List.filter (fun e => is_prefix p (fst e)) (nodes w) in
  let outside := List.filter (fun e => negb (is_prefix p (fst e))) (nodes w) in
  if negb (sim_exists p w) then
    ((if ignore_errors then Returned tt else Raised (OSError (Some 2))), w)
  else if List.forallb (fun e => removable (snd e)) inside then
    (Returned tt, set_nodes w outside)
  else if ignore_errors then
    (Returned tt,
     set_nodes w
       (List.filter
          (fun e => negb (is_prefix p (fst e)) ||
                    match snd e with Dir => true | n => negb (removable n) end)
          (nodes w)))
  else (Raised (OSError (Some 13)), w).

Definition sim_iterdir (p : path) (w : sim) : list path * option exn :=
  let children :=
    List.map fst
      (List.filter
         (fun e => match fst e with
                   | [] => false
                   | _ :: _ => path_eqb (parent (fst e)) p
                   end)
         (nodes w)) in
  if negb (sim_exists p w) then ([], Some (OSError (Some 2)))
  else match assoc p (listing_faults w) with
       | Some (n, e) => (take n children, Some e)
       | None => (children, None)
       end.

Definition backup_name (p : path) : path := parent p // (name p ++ ".bak").

Definition sim_create_backup (p : path) (w : sim) : outcome (option path) * sim :=
  if backups_fail w then (Returned None, w)
  else match assoc p (nodes w) with
       | Some (File _ c) =>
           (Returned (Some (backup_name p)),
            set_nodes w ((backup_name p, File Unlocked c) :: nodes w))
       | _ => (Returned None, w)
       end.

Definition sim_json_load (p : path) (w : sim) : outcome json :=
  match assoc p (nodes w) with
  | Some (File _ c) => c
  | Some Dir => Raised (OSError (Some 21))
  | None => Raised (OSError (Some 2))
  end.

Definition sim_json_dump (p : path) (data : list json) (w : sim)
  : outcome unit * sim :=
  match assoc p (nodes w) with
  | Some Dir => (Raised (OSError (Some 21)), w)
  | Some (File lk _) =>
      (Returned tt,
       set_nodes w ((p, File lk (Returned (JList data))) :: remove_node p (nodes w)))
  | None =>
      (Returned tt, set_nodes w ((p, File Unlocked (Returned (JList data))) :: nodes w))
  end.

Definition sim_env (os : string) : Env sim := {|
  os_name := os;
  fs_exists := fun p w => Returned (sim_exists p w);
  fs_is_dir := fun p w => Returned (sim_is_dir p w);
  fs_unlink := sim_unlink;
  fs_chmod := sim_chmod;
  fs_iterdir := sim_iterdir;
  shutil_rmtree := sim_rmtree;
  time_sleep := fun _ w => w;
  subprocess_run := sim_run;
  find_processes_using_file := sim_find_processes;
  create_backup := sim_create_backup;
  json_load := sim_json_load;
  json_dump := sim_json_dump;
  get_ide_paths := fun i w => provider w i
|}.

(** The renderings, for manifests of printable text: strings are quoted
    with their quote and backslash escaped. *)
Fixpoint escape (q : ascii) (s : string) : string :=
  match s with
  | EmptyString => EmptyString
  | String c rest =>
      if Ascii.eqb c q || Ascii.eqb c "\"%char
      then String "\"%char (String c (escape q rest))
      else String c (escape q rest)
  end.

Definition dquote : ascii := ascii_of_N 34.

Definition quoted (q : ascii) (s : string) : string :=
  String q (escape q s ++ String q EmptyString).

Fixpoint join (sep : string) (l : list string) : string :=
  match l with
  | [] => EmptyString
  | [x] => x
  | x :: rest => x ++ sep ++ join sep rest
  end.

Fixpoint dumps (x : json) : string :=
  match x with
  | JNull => "null"
  | JBool b => if b then "true" else "false"
  | JInt z => pretty z
  | JFloat t => t
  | JStr s => quoted dquote s
  | JList items => "[" ++ join ", " (List.map dumps items) ++ "]"
  | JDict members =>
      "{" ++ join ", "
               (List.map (fun kv => quoted dquote (fst kv) ++ ": " ++ dumps (snd kv))
                  members) ++ "}"
  end.

Fixpoint repr (x : json) : string :=
  match x with
  | JNull => "None"
  | JBool b => if b then "True" else "False"
  | JInt z => pretty z
  | JFloat t => t
  | JStr s => quoted "'"%char s
  | JList items => "[" ++ join ", " (List.map repr items) ++ "]"
  | JDict members =>
      "{" ++ join ", "
               (List.map (fun kv => quoted "'"%char (fst kv) ++ ": " ++ repr (snd kv))
                  members) ++ "}"
  end.

Definition sim_render : Render := {|
  json_dumps := dumps;
  py_str := fun x => match x with JStr s => s | _ => repr x end
|}.

(** *** Machines to run the cleaner on *)

Definition windows : Env sim := sim_env "nt".
Definition posix : Env sim := sim_env "posix".

(** The content of a file that is not JSON. *)
Definition not_json : outcome json := Raised JSONDecodeError.

Definition machine (l : list (path * node)) : sim :=
  Sim l [] false (fun _ => None).

Definition user_dir : path := ["home"; "Code"; "User"].
Definition global_storage : path := user_dir // "globalStorage".
Definition workspace_storage : path := user_dir // "workspaceStorage".
Definition history_dir : path := user_dir // "History".
Definition state_db : path := global_storage // "state.vscdb".
Definition state_db_backup : path := global_storage // "state.vscdb.backup".

(** The state database is held open by process 4242; there is no backup of
    it. *)
Definition w_held : sim :=
  machine [ (user_dir, Dir); (global_storage, Dir);
            (state_db, File (HeldBy [4242]) not_json) ].

(** The state database cannot be deleted by anything: every attempt ends
    with errno 13. *)
Definition w_stuck : sim :=
  machine [ (user_dir, Dir); (global_storage, Dir);
            (state_db, File (Refused 13) not_json) ].

(** The delete of the state database ends with errno 5, an error of the
    device. *)
Definition w_broken : sim :=
  machine [ (user_dir, Dir); (global_storage, Dir);
            (state_db, File (Refused 5) not_json) ].

(** Two workspaces with a state database each; the listing of the
    workspace-storage root breaks off after its first entry. *)
Definition workspace_a : path := workspace_storage // "a1".
Definition workspace_b : path := workspace_storage // "b2".
Definition w_sweep : sim :=
  Sim [ (user_dir, Dir); (workspace_storage, Dir);
        (workspace_a, Dir); (workspace_a // "state.vscdb", File Unlocked not_json);
        (workspace_b, Dir); (workspace_b // "state.vscdb", File Unlocked not_json) ]
      [ (workspace_storage, (1%nat, OSError (Some 5))) ]
      false (fun _ => None).

(** A profile with its manifest. *)
Definition profile_dir : path := ["home"; "profile"].
Definition manifest : path := profile_dir // "extensions.json".
Definition extensions_dir : path := profile_dir // "extensions".
Definition augment_extension : path := extensions_dir // "Augment.vscode-augment-0.1".

Definition extension_record (id : string) : json :=
  JDict [ ("identifier", JDict [("id", JStr id)]); ("version", JStr "1.0.0") ].

Definition record_A : json := extension_record "ms-python.python".
Definition record_B : json := extension_record "Augment.vscode-augment".
Definition record_C : json := JStr "a plain entry".
Definition record_D : json := JStr "AUGMENT nightly".
Definition record_E : json := extension_record "rust-lang.rust-analyzer".

Definition w_profile (content : outcome json) (no_backup : bool) : sim :=
  Sim [ (profile_dir, Dir); (manifest, File Unlocked content) ] []
      no_backup (fun _ => None).

(** A History folder and an extension directory, each with a file that a
    process holds open. *)
Definition w_trees : sim :=
  machine [ (user_dir, Dir); (history_dir, Dir);
            (history_dir // "entries.json", File (HeldBy [7]) not_json);
            (profile_dir, Dir); (extensions_dir, Dir); (augment_extension, Dir);
            (augment_extension // "extension.js", File (HeldBy [7]) not_json) ].

(** The table of a path provider for VS Code. *)
Definition vscode_paths : gmap string path :=
  <["state_db" := state_db]> (<["history" := history_dir]>
    (<["profile_dir" := profile_dir]>
       (<["profile_extensions" := extensions_dir]>
          (<["profile_extensions_json" := manifest]> ∅)))).

(** A machine with everything a cleanup of VS Code looks at. *)
Definition w_full : sim :=
  Sim [ (user_dir, Dir); (global_storage, Dir);
        (state_db, File Unlocked not_json);
        (state_db_backup, File ReadOnly not_json);
        (workspace_storage, Dir); (workspace_a, Dir);
        (workspace_a // "state.vscdb", File Unlocked not_json);
        (history_dir, Dir); (history_dir // "entries.json", File Unlocked not_json);
        (profile_dir, Dir);
        (manifest, File Unlocked (Returned (JList [record_A; record_B])));
        (extensions_dir, Dir); (augment_extension, Dir) ]
      [] false
      (fun i => match i with VSCODE => Some vscode_paths | _ => None end).

(** A machine on which the manifest cannot be written: as [windows], but
    every [json.dump] ends with errno 13. *)
Definition sealed : Env sim := {|
  os_name := "nt";
  fs_exists := fun p w => Returned (sim_exists p w);
  fs_is_dir := fun p w => Returned (sim_is_dir p w);
  fs_unlink := sim_unlink;
  fs_chmod := sim_chmod;
  fs_iterdir := sim_iterdir;
  shutil_rmtree := sim_rmtree;
  time_sleep := fun _ w => w;
  subprocess_run := sim_run;
  find_processes_using_file := sim_find_processes;
  create_backup := sim_create_backup;
  json_load := sim_json_load;
  json_dump := fun _ _ w => (Raised (OSError (Some 13)), w);
  get_ide_paths := fun i w => provider w i
|}.

(** A profile whose extensions directory holds a marked extension, an
    unmarked one and a marked plain file; its listing breaks off after the
    three. *)
Definition w_extensions : sim :=
  Sim [ (profile_dir, Dir); (extensions_dir, Dir);
        (augment_extension, Dir);
        (augment_extension // "extension.js", File (HeldBy [7]) not_json);
        (extensions_dir // "ms-python.python-1.0", Dir);
        (extensions_dir // "augment-notes.txt", File Unlocked not_json) ]
      [ (extensions_dir, (3%nat, OSError (Some 5))) ]
      false (fun _ => None).

(** The machine [w_full] with a provider that gives the table of VS Code
    for every IDE type. *)
Definition w_any_ide : sim :=
  Sim (nodes w_full) [] false (fun _ => Some vscode_paths).

(** The machine [w_full] with a provider that knows the profile but not the
    state database. *)
Definition profile_only_paths : gmap string path :=
  <["history" := history_dir]> (<["profile_dir" := profile_dir]>
    (<["profile_extensions" := extensions_dir]>
       (<["profile_extensions_json" := manifest]> ∅))).
Definition w_profile_only : sim :=
  Sim (nodes w_full) [] false (fun _ => Some profile_only_paths).

(** A machine on which the directory [d] may not be searched: as [posix],
    but [exists()] and [is_dir()] of every path inside [d] end with errno 13,
    a [PermissionError]. *)
Definition inside (d p : path) : bool := is_prefix d p && negb (path_eqb d p).

Definition guarded (d : path) : Env sim := {|
  os_name := "posix";
  fs_exists := fun p w =>
    if inside d p then Raised (OSError (Some 13)) else Returned (sim_exists p w);
  fs_is_dir := fun p w =>
    if inside d p then Raised (OSError (Some 13)) else Returned (sim_is_dir p w);
  fs_unlink := sim_unlink;
  fs_chmod := sim_chmod;
  fs_iterdir := sim_iterdir;
  shutil_rmtree := sim_rmtree;
  time_sleep := fun _ w => w;
  subprocess_run := sim_run;
  find_processes_using_file := sim_find_processes;
  create_backup := sim_create_backup;
  json_load := sim_json_load;
  json_dump := sim_json_dump;
  get_ide_paths := fun i w => provider w i
|}.

(** A machine whose trees are nested deeper than the interpreter recurses:
    as [windows], but the walk of [shutil.rmtree] ends with a
    [RecursionError], which is no [OSError] and is raised whatever
    [ignore_errors] says. *)
Definition deep : Env sim := {|
  os_name := "nt";
  fs_exists := fun p w => Returned (sim_exists p w);
  fs_is_dir := fun p w => Returned (sim_is_dir p w);
  fs_unlink := sim_unlink;
  fs_chmod := sim_chmod;
  fs_iterdir := sim_iterdir;
  shutil_rmtree := fun _ _ w => (Raised OtherException, w);
  time_sleep := fun _ w => w;
  subprocess_run := sim_run;
  find_processes_using_file := sim_find_processes;
  create_backup := sim_create_backup;
  json_load := sim_json_load;
  json_dump := sim_json_dump;
  get_ide_paths := fun i w => provider w i
|}.

(** A backup helper that copies a file together with its attributes, as
    [shutil.copy2] does: the backup of a read-only file is read-only. *)
Definition sim_copy2 (p : path) (w : sim) : outcome (option path) * sim :=
  if backups_fail w then (Returned None, w)
  else match assoc p (nodes w) with
       | Some (File lk c) =>
           (Returned (Some (backup_name p)),
            set_nodes w ((backup_name p, File lk c) :: nodes w))
       | _ => (Returned None, w)
       end.

(** A machine with that backup helper: as [windows] otherwise. *)
Definition copying : Env sim := {|
  os_name := "nt";
  fs_exists := fun p w => Returned (sim_exists p w);
  fs_is_dir := fun p w => Returned (sim_is_dir p w);
  fs_unlink := sim_unlink;
  fs_chmod := sim_chmod;
  fs_iterdir := sim_iterdir;
  shutil_rmtree := sim_rmtree;
  time_sleep := fun _ w => w;
  subprocess_run := sim_run;
  find_processes_using_file := sim_find_processes;
  create_backup := sim_copy2;
  json_load := sim_json_load;
  json_dump := sim_json_dump;
  get_ide_paths := fun i w => provider w i
|}.

(** A profile whose manifest is read-only and has no marked record. *)
Definition w_readonly_profile : sim :=
  Sim [ (profile_dir, Dir);
        (manifest, File ReadOnly (Returned (JList [record_A; record_C; record_E]))) ]
      [] false (fun _ => None).

(** ** Vocabulary of the properties *)

(** An error of the direct delete that sends the deleter up the ladder. *)
Definition escalates (e : exn) : bool :=
  match e with
  | OSError errno => errno_in_13_32 errno
  | _ => false
  end.

(** The actions that only the ladder performs. *)
Definition escalation_step (ev : event) : bool :=
  match ev with
  | Called (CSleep _) | Called (CRun _) | Called (CFindProcesses _)
  | Called (CChmod _ _) => true
  | _ => false
  end.

(** [after ev r]: the run [r], preceded by the events [ev]. *)
Definition after {W A} (ev : list event) (r : run W A) : run W A :=
  Run (result r) (final r) (ev ++ events r)%list.

(** The exception that ends a loop over a listing which broke off with
    [e]: the one an iteration raised, if one did, and [e] otherwise. *)
Definition ending {W A S} (xs : list A) (body : A -> S -> M W S) (acc : S)
  (w : W) (e : exn) : exn :=
  match result (try_for_in xs body acc w) with
  | Returned (_, Some e0) => e0
  | _ => e
  end.

(** The first three events of a delete of an existing file. *)
Definition direct_attempt (p : path) : list event :=
  [ Called (CExists p);
    Printed Info (Msg "尝试删除: {}" [APath p]);
    Called (CUnlink p) ].

(** The two warnings printed when the direct delete is refused. *)
Definition refusal (p : path) (e : exn) : list event :=
  [ Printed Warning (Msg "删除失败: {}" [APath p]);
    Printed Warning (Msg "错误: {}" [AExn e]) ].

(** The end of a Windows ladder on which nothing worked: the wait, the last
    attempt, the last error and the hint. *)
Definition final_failure (p : path) (e : exn) : list event :=
  [ Printed Info (Msg "等待5秒后最后一次尝试..." []);
    Called (CSleep 5);
    Called (CUnlink p);
    Printed Error (Msg "最终删除失败: {}" [APath p]);
    Printed Error (Msg "最终错误: {}" [AExn e]);
    Printed Info (Msg restart_hint []) ].

(** The marker predicate of the sanitizer, as the spec words it: a
    case-insensitive substring match against the serialized form of the
    record. *)
Definition isMarked {render : Render} (item : json) : bool :=
  contains marker (lower (if is_dict item then json_dumps item else py_str item)).

(** The first line of every run of the sanitizer. *)
Definition sanitize_banner (p : path) : event :=
  Printed Info (Msg "处理extensions.json: {}" [APath p]).

(** The line printed by the [except] clauses of the sanitizer. *)
Definition sanitize_error (e : exn) : event :=
  match e with
  | JSONDecodeError => Printed Error (Msg "extensions.json格式错误: {}" [AExn e])
  | _ => Printed Error (Msg "处理extensions.json时发生错误: {}" [AExn e])
  end.

(** The line printed when no backup could be made. *)
Definition backup_report (r : outcome (option path)) : event :=
  match r with
  | Raised e => sanitize_error e
  | Returned _ =>
      Printed Error (Msg "无法创建extensions.json备份，跳过清理" [])
  end.

(** The line printed for a manifest that cannot be read as a list. *)
Definition unreadable_report (r : outcome json) : event :=
  match r with
  | Raised e => sanitize_error e
  | Returned _ =>
      Printed Warning (Msg "extensions.json格式不是预期的数组格式" [])
  end.

(** The lines that list the removed records. *)
Definition removal_lines (removed : list json) : list event :=
  Printed Info (Msg "从extensions.json中移除了 {} 个augment相关条目:"
                  [ANum (Z.of_nat (length removed))]) ::
  List.map (fun item => Printed Info (Msg "  - {}" [AItem item])) removed.

(** The line that ends a rewrite of the manifest. *)
Definition rewrite_report (bp : path) (r : outcome unit) : event :=
  match r with
  | Returned _ =>
      Printed Success (Msg "extensions.json清理完成，备份位于: {}" [APath bp])
  | Raised e => sanitize_error e
  end.

(** A call that writes a manifest. *)
Definition is_dump (ev : event) : bool :=
  match ev with Called (CJsonDump _ _) => true | _ => false end.

(** A count. *)
Definition nonneg (n : Z) : Prop := 0 <= n.

(** The counters of the sweep over the workspaces are counts. *)
Definition sweep_ok (acc : sweep) : Prop :=
  0 <= total_deleted acc /\ 0 <= workspaces_processed acc.

(** The four zones of a cleanup summary. *)
Definition zones : gset string :=
  {[ "globalStorage"; "workspaceStorage"; "history"; "profile" ]}.

(** A well-formed summary: exactly the four zones, each with a count that
    is not negative. *)
Definition summary_ok (d : gmap string Z) : Prop :=
  dom d = zones /\ forall k v, d !! k = Some v -> 0 <= v.

(** *** Vocabulary of the further properties *)

(** Every event of every run of [m] satisfies [P]. *)
Definition always {W A} (P : event -> Prop) (m : M W A) : Prop :=
  forall w, Forall P (events (m w)).

(** The path that a call deletes, force-deletes, or changes the mode of. *)
Definition target_of (ev : event) : option path :=
  match ev with
  | Called (CUnlink q) | Called (CChmod q _) | Called (CRmtree q _)
  | Called (CRun (DelFQ q)) | Called (CRun (PSRemoveItem q))
  | Called (CRun (AttribDel q)) => Some q
  | _ => None
  end.

(** The command lines of a run, in the order they were issued. *)
Definition command_of (ev : event) : option command :=
  match ev with Called (CRun c) => Some c | _ => None end.
Definition commands (evs : list event) : list command := omap command_of evs.

(** A call that looks for processes or starts one. *)
Definition process_call (ev : event) : bool :=
  match ev with
  | Called (CRun _) | Called (CFindProcesses _) => true
  | _ => false
  end.

(** A call on a tree, a backup or a manifest. *)
Definition beyond_files (ev : event) : bool :=
  match ev with
  | Called (CRmtree _ _) | Called (CCreateBackup _) | Called (CJsonLoad _)
  | Called (CJsonDump _ _) => true
  | _ => false
  end.

(** What a run of the escalating deleter on [p] may ask of the outside, on
    Windows ([nt]) and elsewhere. *)
Definition deleter_event (nt : bool) (p : path) (ev : event) : Prop :=
  match ev with
  | Printed _ _ => True
  | Called (CExists q) | Called (CUnlink q) => q = p
  | Called (CSleep n) => n = 1 \/ (nt = true /\ (n = 2 \/ n = 5))
  | Called (CChmod q mode) => nt = false /\ q = p /\ mode = 511
  | Called (CFindProcesses q) => nt = true /\ q = p
  | Called (CRun (Taskkill _)) => nt = true
  | Called (CRun (KillKILL _)) => False
  | Called (CRun (DelFQ q)) | Called (CRun (PSRemoveItem q))
  | Called (CRun (AttribDel q)) => nt = true /\ q = p
  | Called _ => False
  end.

(** What a sweep of storage directories may ask of the outside: looks at
    directories, and the deleter on a file that [TARGET_FILES] names, directly
    inside a directory that [D] allows. *)
Definition storage_event (nt : bool) (D : path -> Prop) (ev : event) : Prop :=
  match ev with
  | Printed _ _ => True
  | Called (CIsDir _) | Called (CIterdir _) => True
  | Called (CExists _) => True
  | _ => exists d n, D d /\ In n TARGET_FILES /\ deleter_event nt (d // n) ev
  end.

(** What the removal of marked extensions may ask of the outside: beside
    looking, only [rmtree] on a directory whose lower-cased name has the
    marker, with [ignore_errors] as force mode says. *)
Definition extension_event (force_mode : bool) (ev : event) : Prop :=
  match ev with
  | Printed _ _ => True
  | Called (CExists _) | Called (CIsDir _) | Called (CIterdir _) => True
  | Called (CRmtree q ignore_errors) =>
      contains marker (lower (name q)) = true /\ ignore_errors = force_mode
  | Called _ => False
  end.

(** The kill command for a process, by platform. *)
Definition kill_command (nt : bool) (proc : process) : command :=
  if nt then Taskkill (pid proc) else KillKILL (pid proc).

Section Vocabulary.

Context {W : Type} {env : Env W}.

(** A run of the deleter on [p] that ends the way a Windows ladder ends when
    nothing worked: its last events are the five-second wait, the last
    [unlink], the two error lines with the exception [e] that this [unlink]
    raised, and the hint. *)
Definition ends_in_final_failure (p : path) (r : run W bool) : Prop :=
  exists pre e w1,
    events r = (pre ++ final_failure p e)%list /\
    fs_unlink p (time_sleep 5 w1) = (Raised e, final r).

(** A run without the five-second wait and without the hint. *)
Definition no_final_retry (r : run W bool) : Prop :=
  ~ In (Called (CSleep 5)) (events r) /\
  ~ In (Printed Info (Msg restart_hint [])) (events r).

(** The file system law used for "deleted means gone": an [unlink] of [p]
    that returns leaves no [p] behind. *)
Definition unlink_removes (p : path) : Prop :=
  forall w w', fs_unlink p w = (Returned tt, w') -> fs_exists p w' = Returned false.

(** A run that, if it answers [True], ends without [p]. *)
Definition gone_if_true (p : path) (r : run W bool) : Prop :=
  result r = Returned true -> fs_exists p (final r) = Returned false.

(** The file system law used for "what was written is what is there": a
    [json.dump] to [p] that returns leaves a file from which [json.load]
    reads the dumped list. *)
Definition dump_then_load (p : path) : Prop :=
  forall data w w',
    json_dump p data w = (Returned tt, w') -> json_load p w' = Returned (JList data).

(** Every exception that an existence check can raise satisfies [Q]. *)
Definition exists_raises (Q : exn -> Prop) : Prop :=
  forall p w e, fs_exists p w = Raised e -> Q e.

(** A machine on which no existence check raises. *)
Definition exists_never_raises : Prop := exists_raises (fun _ => False).

(** An exception that some existence check raises. *)
Definition raised_by_exists (e : exn) : Prop :=
  exists p w, fs_exists p w = Raised e.

(** The number of marked directories among [entries] whose forced removal
    returned, each looked at in the machine as the forced removals before it
    left it; the count ends at the first entry whose [is_dir()] raises. *)
Fixpoint marked_directories (entries : list path) (w : W) : Z :=
  match entries with
  | [] => 0
  | item :: rest =>
      match fs_is_dir item w with
      | Raised _ => 0
      | Returned d =>
          if d && contains marker (lower (name item)) then
            match shutil_rmtree item true w with
            | (Returned _, w1) => 1 + marked_directories rest w1
            | (Raised _, w1) => marked_directories rest w1
            end
          else marked_directories rest w
      end
  end.

End Vocabulary.

(** ** Reasoning about methods *)

(** [post P Q m]: wherever [m] is run, a value it returns satisfies [P] and
    an exception it raises satisfies [Q]. *)
Definition post {W A} (P : A -> Prop) (Q : exn -> Prop) (m : M W A) : Prop :=
  forall w,
    match result (m w) with
    | Returned a => P a
    | Raised e => Q e
    end.

(** [returns P m]: [m] always returns, never raises, and what it returns
    satisfies [P]. *)
Definition returns {W A} (P : A -> Prop) (m : M W A) : Prop :=
  post P (fun _ => False) m.

Definition anything {A} (_ : A) : Prop := True.

Lemma post_ret {W A} (P : A -> Prop) Q (a : A) :
  P a -> post (W:=W) P Q (ret a).
Proof. intros Ha w. exact Ha. Qed.

Lemma post_bind {W A B} (P1 : A -> Prop) (P : B -> Prop) Q
  (m : M W A) (k : A -> M W B) :
  post P1 Q m -> (forall a, P1 a -> post P Q (k a)) -> post P Q (bind m k).
Proof.
  intros Hm Hk w. unfold bind. specialize (Hm w).
  destruct (m w) as [[a | e] w1 ev1]; simpl in *.
  - specialize (Hk a Hm w1). destruct (k a w1) as [r w2 ev2]. exact Hk.
  - exact Hm.
Qed.

Lemma post_try_except {W A} (P : A -> Prop) (Q1 Q : exn -> Prop)
  (m : M W A) (h : exn -> M W A) :
  post P Q1 m -> (forall e, Q1 e -> post P Q (h e)) -> post P Q (try_except m h).
Proof.
  intros Hm Hh w. unfold try_except. specialize (Hm w).
  destruct (m w) as [[a | e] w1 ev1]; simpl in *.
  - exact Hm.
  - specialize (Hh e Hm w1). destruct (h e w1) as [r w2 ev2]. exact Hh.
Qed.

Lemma post_for_in {W A S} (I : S -> Prop) Q (xs : list A)
  (body : A -> S -> M W S) :
  (forall x acc, I acc -> post I Q (body x acc)) ->
  forall acc, I acc -> post I Q (for_in xs body acc).
Proof.
  intros Hbody. induction xs as [| x rest IH]; intros acc Hacc; simpl.
  - apply post_ret. exact Hacc.
  - eapply post_bind; [apply Hbody; exact Hacc | intros a Ha; apply IH; exact Ha].
Qed.

(** A loop inside a [try] hands every exception to the handler: it returns,
    with local variables that satisfy the invariant. *)
Lemma returns_try_for_in {W A S} (I : S -> Prop) (xs : list A)
  (body : A -> S -> M W S) :
  (forall x acc, I acc -> post I anything (body x acc)) ->
  forall acc, I acc -> returns (fun r => I (fst r)) (try_for_in xs body acc).
Proof.
  intros Hbody. induction xs as [| x rest IH]; intros acc Hacc w; simpl.
  - exact Hacc.
  - specialize (Hbody x acc Hacc w).
    destruct (body x acc w) as [[acc' | e] w1 ev1]; simpl in *.
    + specialize (IH acc' Hbody w1).
      destruct (try_for_in rest body acc' w1) as [r w2 ev2]. exact IH.
    + exact Hacc.
Qed.

(** Nothing is asked of a run by [anything]. *)
Lemma post_anything {W A} (m : M W A) : post anything anything m.
Proof. intros w. destruct (result (m w)); exact I. Qed.

(** What [returns] says about one run. *)
Lemma returns_run {W A} (P : A -> Prop) (m : M W A) (w : W) :
  returns P m -> exists a w' ev, m w = Run (Returned a) w' ev /\ P a.
Proof.
  intros Hm. specialize (Hm w).
  destruct (m w) as [[a | e] w' ev]; simpl in *; [eauto | contradiction].
Qed.

Create HintDb post discriminated.

#[local] Hint Resolve post_ret : post.

Section Properties.

Context {W : Type} {env : Env W} {render : Render}.

(** *** What each operation of the outside can do *)

Lemma post_print P Q lv t a : P tt -> post (W:=W) P Q (print lv t a).
Proof. intros HP w. exact HP. Qed.

Lemma exists_raises_anything : exists_raises anything.
Proof. intros p w e _. exact I. Qed.

Lemma exists_raises_itself : exists_raises raised_by_exists.
Proof. intros p w e He. exists p, w. exact He. Qed.

Lemma post_path_exists (P : bool -> Prop) Q p :
  exists_raises Q -> (forall b, P b) -> post P Q (path_exists p).
Proof.
  intros HQ HP w. unfold path_exists. simpl.
  destruct (fs_exists p w) as [b | e] eqn:He; [apply HP | exact (HQ p w e He)].
Qed.

Lemma post_is_dir (P : bool -> Prop) p :
  (forall b, P b) -> post P anything (is_dir p).
Proof.
  intros HP w. unfold is_dir. simpl.
  destruct (fs_is_dir p w) as [b | e]; [apply HP | exact I].
Qed.

Lemma post_sleep P Q n : P tt -> post P Q (sleep n).
Proof. intros HP w. exact HP. Qed.

Lemma post_find_processes (P : list process -> Prop) Q p :
  (forall l, P l) -> post P Q (find_processes p).
Proof.
  intros HP w. unfold find_processes.
  destruct (find_processes_using_file p w). apply HP.
Qed.

Lemma post_ide_paths (P : option (gmap string path) -> Prop) Q i :
  (forall o, P o) -> post P Q (ide_paths i).
Proof. intros HP w. apply HP. Qed.

Lemma post_unlink p : post anything anything (unlink p).
Proof. intros w. unfold unlink. destruct (fs_unlink p w) as [[[] | e] w']; exact I. Qed.

Lemma post_chmod p mode : post anything anything (chmod p mode).
Proof. intros w. unfold chmod. destruct (fs_chmod p mode w) as [[[] | e] w']; exact I. Qed.

Lemma post_run_command c : post anything anything (run_command c).
Proof.
  intros w. unfold run_command.
  destruct (subprocess_run c w) as [[[] | e] w']; exact I.
Qed.

Lemma post_rmtree p ignore_errors : post anything anything (rmtree p ignore_errors).
Proof.
  intros w. unfold rmtree.
  destruct (shutil_rmtree p ignore_errors w) as [[[] | e] w']; exact I.
Qed.

Lemma post_backup p : post anything anything (backup p).
Proof.
  intros w. unfold backup. destruct (create_backup p w) as [[o | e] w']; exact I.
Qed.

Lemma post_load p : post anything anything (load p).
Proof. intros w. unfold load. simpl. destruct (json_load p w); exact I. Qed.

Lemma post_dump p data : post anything anything (dump p data).
Proof.
  intros w. unfold dump. destruct (json_dump p data w) as [[[] | e] w']; exact I.
Qed.

(** *** What the methods can raise

    An exception leaves a method of the deleter only from the existence
    check that [safe_delete_file] starts with; the ladder itself raises
    nothing. *)

Ltac post_leaf :=
  lazymatch goal with
  | |- post _ _ (ret _) => apply post_ret
  | |- post _ _ (print _ _ _) => apply post_print
  | |- post _ _ (path_exists _) =>
      apply post_path_exists;
      [ first [ assumption | exact exists_raises_anything ] | intros ]
  | |- post _ _ (is_dir _) => apply post_is_dir; intros
  | |- post _ _ (sleep _) => apply post_sleep
  | |- post _ _ (find_processes _) => apply post_find_processes; intros
  | |- post _ _ (ide_paths _) => apply post_ide_paths; intros
  | |- post _ _ (unlink _) => apply post_unlink
  | |- post _ _ (chmod _ _) => apply post_chmod
  | |- post _ _ (run_command _) => apply post_run_command
  | |- post _ _ (rmtree _ _) => apply post_rmtree
  | |- post _ _ (backup _) => apply post_backup
  | |- post _ _ (load _) => apply post_load
  | |- post _ _ (dump _ _) => apply post_dump
  end; try exact I.

Ltac post_step :=
  unfold returns, print_info, print_success, print_warning, print_error;
  lazymatch goal with
  | |- post _ _ (bind ?m _) =>
      first
        [ eapply post_bind; [ solve [eauto with post] | intros ? ? ]
        | lazymatch m with
          | for_in _ _ _ => fail
          | try_for_iterdir _ _ _ => fail
          | add_if_present _ _ _ => fail
          | _ => eapply (post_bind anything); [ post_leaf | intros ? _ ]
          end
        | lazymatch m with
          | try_except _ _ => eapply (post_bind anything); [ | intros ? _ ]
          | if ?b then _ else _ => destruct b
          | match ?x with _ => _ end => destruct x
          end ]
  | |- post _ _ (try_except _ _) =>
      eapply (post_try_except _ anything); [ | intros ? _ ]
  | |- post _ _ (if ?b then _ else _) => destruct b
  | |- post _ _ (match ?x with _ => _ end) => destruct x
  | |- _ => first [ solve [eauto with post] | post_leaf ]
  end.

Ltac post_auto :=
  repeat post_step; try exact I;
  try solve [unfold nonneg, sweep_ok in *; simpl in *; repeat case_match;
             simpl in *; lia].

Lemma try_methods_post Q p methods : post anything Q (try_methods p methods).
Proof. induction methods as [| m rest IH]; simpl; post_auto. Qed.
#[local] Hint Resolve try_methods_post : post.

Lemma final_retry_post Q p : post anything Q (final_retry p).
Proof. unfold final_retry. post_auto. Qed.
#[local] Hint Resolve final_retry_post : post.

Lemma _windows_force_delete_post Q p : post anything Q (_windows_force_delete p).
Proof. unfold _windows_force_delete. post_auto. Qed.

Lemma _unix_force_delete_post Q p : post anything Q (_unix_force_delete p).
Proof. unfold _unix_force_delete. post_auto. Qed.
#[local] Hint Resolve _windows_force_delete_post _unix_force_delete_post : post.

Lemma _kill_occupying_processes_post Q l :
  post anything Q (_kill_occupying_processes l).
Proof.
  unfold _kill_occupying_processes.
  apply (post_for_in anything); [| exact I]. intros proc [] _. post_auto.
Qed.
#[local] Hint Resolve _kill_occupying_processes_post : post.

Lemma unlink_or_pass_post Q p t : post anything Q (unlink_or_pass p t).
Proof. unfold unlink_or_pass. post_auto. Qed.
#[local] Hint Resolve unlink_or_pass_post : post.

Lemma print_each_post {A} Q (l : list A) (f : A -> list arg) t :
  post (W:=W) anything Q (for_in l (fun x _ => print_info t (f x)) tt).
Proof. apply (post_for_in anything); [| exact I]. intros x [] _. post_auto. Qed.
#[local] Hint Resolve print_each_post : post.

Lemma kill_holders_and_retry_post Q p : post anything Q (kill_holders_and_retry p).
Proof. unfold kill_holders_and_retry. post_auto. Qed.
#[local] Hint Resolve kill_holders_and_retry_post : post.

Lemma _force_delete_file_post Q p : post anything Q (_force_delete_file p).
Proof. unfold _force_delete_file. post_auto. Qed.
#[local] Hint Resolve _force_delete_file_post : post.

Lemma safe_delete_file_post Q p force_mode :
  exists_raises Q -> post anything Q (safe_delete_file p force_mode).
Proof. intros HQ. unfold safe_delete_file, on_delete_error. post_auto. Qed.
#[local] Hint Resolve safe_delete_file_post exists_raises_anything : post.

(** *** The escalating deleter, run by run *)

Ltac unfold_ops :=
  unfold print_info, print_success, print_warning, print_error, print, called,
    path_exists, is_dir, unlink, chmod, sleep, run_command, rmtree,
    find_processes, backup, load, dump, ide_paths in *.

Ltac unfold_monad := unfold bind, try_except, ret, raise in *.

Lemma bind_after {A B} (m : M W A) (k : A -> M W B) w a w1 ev1 :
  m w = Run (Returned a) w1 ev1 ->
  bind m k w = after ev1 (k a w1).
Proof. intros Hm. unfold bind, after. rewrite Hm. destruct (k a w1). reflexivity. Qed.

(** An existence check that returns, in front of the rest of a method. *)
Lemma path_exists_returned p w b :
  fs_exists p w = Returned b ->
  path_exists p w = Run (Returned b) w [Called (CExists p)].
Proof. intros Hp. unfold path_exists. rewrite Hp. reflexivity. Qed.

(** The existence check and what follows it. *)
Lemma bind_path_exists {B} p (k : bool -> M W B) w :
  bind (path_exists p) k w =
  match fs_exists p w with
  | Returned b => after [Called (CExists p)] (k b w)
  | Raised e => Run (Raised e) w [Called (CExists p)]
  end.
Proof.
  unfold bind, path_exists, after.
  destruct (fs_exists p w) as [b | e]; [| reflexivity].
  destruct (k b w). reflexivity.
Qed.

(** The direct delete of an existing file that the system refuses. *)
Lemma safe_delete_file_refused p force_mode w e w1 :
  fs_exists p w = Returned true ->
  fs_unlink p w = (Raised e, w1) ->
  safe_delete_file p force_mode w =
  after (direct_attempt p) (on_delete_error p force_mode e w1).
Proof.
  intros Hp Hu. unfold safe_delete_file, after, direct_attempt.
  unfold_ops. unfold_monad. rewrite Hp. simpl. rewrite Hu. simpl.
  destruct (on_delete_error p force_mode e w1). reflexivity.
Qed.

(** The direct delete that goes through. *)
Lemma safe_delete_file_direct p force_mode w w1 :
  fs_exists p w = Returned true ->
  fs_unlink p w = (Returned tt, w1) ->
  safe_delete_file p force_mode w =
  Run (Returned true) w1
    (direct_attempt p ++ [Printed Success (Msg "已删除: {}" [APath p])]).
Proof.
  intros Hp Hu. unfold safe_delete_file, direct_attempt.
  unfold_ops. unfold_monad. rewrite Hp. simpl. rewrite Hu. reflexivity.
Qed.

(** A path that is not there: one look, nothing else. *)
Lemma safe_delete_file_missing p force_mode w :
  fs_exists p w = Returned false ->
  safe_delete_file p force_mode w = Run (Returned false) w [Called (CExists p)].
Proof.
  intros Hp. unfold safe_delete_file. unfold_ops. unfold_monad.
  rewrite Hp. reflexivity.
Qed.

(** A path whose existence check raises: the exception leaves the method. *)
Lemma safe_delete_file_denied p force_mode w e :
  fs_exists p w = Raised e ->
  safe_delete_file p force_mode w = Run (Raised e) w [Called (CExists p)].
Proof.
  intros Hp. unfold safe_delete_file. unfold_ops. unfold_monad.
  rewrite Hp. reflexivity.
Qed.

(** C1 (as amended).  For every path that does not exist, [safe_delete_file]
    returns [False], the value it also returns for a delete that failed, and
    does so silently: it prints nothing, leaves the machine as it was, and
    takes no escalation step; looking whether the path exists is its only
    action. *)
Theorem safe_delete_file_absent (p : path) (force_mode : bool) (w : W) :
  fs_exists p w = Returned false ->
  safe_delete_file p force_mode w = Run (Returned false) w [Called (CExists p)].
Proof. apply safe_delete_file_missing. Qed.

(** C4.  The ladder is entered only when the direct delete fails with errno
    13 or 32 and force mode is on.  Any other error of the direct delete ends
    the call at once, with one error line and no further action; with force
    mode off a refusal ends the call after the two warnings and the line
    that says force mode can be tried. *)
Theorem escalation_gate (p : path) (force_mode : bool) (w : W) :
  (Exists (fun ev => escalation_step ev = true)
     (events (safe_delete_file p force_mode w)) ->
   force_mode = true /\ fs_exists p w = Returned true /\
   exists e, fst (fs_unlink p w) = Raised e /\ escalates e = true) /\
  (forall e w1,
     fs_exists p w = Returned true ->
     fs_unlink p w = (Raised e, w1) ->
     (escalates e = false ->
      safe_delete_file p force_mode w =
      Run (Returned false) w1
        (direct_attempt p ++
         [Printed Error (Msg "删除失败: {} - {}" [APath p; AExn e])])) /\
     (escalates e = true -> force_mode = false ->
      safe_delete_file p force_mode w =
      Run (Returned false) w1
        (direct_attempt p ++ refusal p e ++
         [Printed Info (Msg force_mode_hint [])])) /\
     (escalates e = true -> force_mode = true ->
      safe_delete_file p force_mode w =
      after (direct_attempt p ++ refusal p e ++
             [Printed Info (Msg "启用强制模式，等待后重试..." [])])
        (_force_delete_file p w1))).
Proof.
  assert (Hcases : forall e w1,
     fs_exists p w = Returned true ->
     fs_unlink p w = (Raised e, w1) ->
     (escalates e = false ->
      safe_delete_file p force_mode w =
      Run (Returned false) w1
        (direct_attempt p ++
         [Printed Error (Msg "删除失败: {} - {}" [APath p; AExn e])])) /\
     (escalates e = true -> force_mode = false ->
      safe_delete_file p force_mode w =
      Run (Returned false) w1
        (direct_attempt p ++ refusal p e ++
         [Printed Info (Msg force_mode_hint [])])) /\
     (escalates e = true -> force_mode = true ->
      safe_delete_file p force_mode w =
      after (direct_attempt p ++ refusal p e ++
             [Printed Info (Msg "启用强制模式，等待后重试..." [])])
        (_force_delete_file p w1))).
  { intros e w1 Hp Hu.
    rewrite (safe_delete_file_refused p force_mode w e w1 Hp Hu).
    unfold on_delete_error. repeat split.
    - intros He. destruct e as [errno | |]; simpl in He;
        [rewrite He |..]; reflexivity.
    - intros He ->. destruct e as [errno | |]; simpl in He; try discriminate.
      rewrite He. reflexivity.
    - intros He ->. destruct e as [errno | |]; simpl in He; try discriminate.
      rewrite He. unfold_ops. unfold_monad. unfold after. simpl.
      destruct (_force_delete_file p w1). reflexivity. }
  split; [| exact Hcases].
  intros Hex.
  destruct (fs_exists p w) as [[|] | e0] eqn:Hp.
  2:{ rewrite (safe_delete_file_missing p force_mode w Hp) in Hex.
      apply Exists_cons in Hex as [Hd | Hn]; [discriminate | inversion Hn]. }
  2:{ rewrite (safe_delete_file_denied p force_mode w e0 Hp) in Hex.
      apply Exists_cons in Hex as [Hd | Hn]; [discriminate | inversion Hn]. }
  destruct (fs_unlink p w) as [[[] | e] w1] eqn:Hu.
  { rewrite (safe_delete_file_direct p force_mode w w1 Hp Hu) in Hex.
    simpl in Hex.
    repeat (apply Exists_cons in Hex as [Hd | Hex]; [discriminate |]).
    inversion Hex. }
  destruct (Hcases e w1 eq_refl eq_refl) as (Hother & Hoff & _).
  destruct (escalates e) eqn:He.
  - destruct force_mode.
    + repeat split; try reflexivity. exists e. split; [reflexivity | exact He].
    + rewrite (Hoff eq_refl eq_refl) in Hex. simpl in Hex.
      repeat (apply Exists_cons in Hex as [Hd | Hex]; [discriminate |]).
      inversion Hex.
  - rewrite (Hother eq_refl) in Hex. simpl in Hex.
    repeat (apply Exists_cons in Hex as [Hd | Hex]; [discriminate |]).
    inversion Hex.
Qed.

(** *** The end of the ladder *)

Lemma ends_in_final_failure_after p ev (r : run W bool) :
  ends_in_final_failure p r -> ends_in_final_failure p (after ev r).
Proof.
  intros (pre & e & w1 & Hev & Hu). exists (ev ++ pre)%list, e, w1.
  unfold after. simpl. rewrite Hev, app_assoc. split; [reflexivity | exact Hu].
Qed.

Lemma final_retry_fails p w e w2 :
  fs_unlink p (time_sleep 5 w) = (Raised e, w2) ->
  final_retry p w = Run (Returned false) w2 (final_failure p e).
Proof.
  intros Hu. unfold final_retry, final_failure. unfold_ops. unfold_monad.
  simpl. rewrite Hu. reflexivity.
Qed.

Lemma final_retry_false p w :
  result (final_retry p w) = Returned false ->
  ends_in_final_failure p (final_retry p w).
Proof.
  destruct (fs_unlink p (time_sleep 5 w)) as [[[] | e] w2] eqn:Hu.
  - unfold final_retry. unfold_ops. unfold_monad. simpl. rewrite Hu. simpl.
    discriminate.
  - intros _. rewrite (final_retry_fails p w e w2 Hu).
    exists [], e, w. split; [reflexivity | exact Hu].
Qed.

Lemma _windows_force_delete_false p w :
  result (_windows_force_delete p w) = Returned false ->
  ends_in_final_failure p (_windows_force_delete p w).
Proof.
  unfold _windows_force_delete.
  destruct (try_methods p (windows_methods p) w) as [[b | e] w1 ev1] eqn:Hm.
  - rewrite (bind_after _ _ _ _ _ _ Hm). destruct b.
    + discriminate.
    + intros Hr. apply ends_in_final_failure_after, final_retry_false. exact Hr.
  - unfold bind. rewrite Hm. discriminate.
Qed.

Lemma _force_delete_file_false p w :
  on_windows = true ->
  result (_force_delete_file p w) = Returned false ->
  ends_in_final_failure p (_force_delete_file p w).
Proof.
  intros Hnt. unfold _force_delete_file. rewrite Hnt.
  rewrite (bind_after (sleep 1) _ w tt (time_sleep 1 w) [Called (CSleep 1)] eq_refl).
  set (w1 := time_sleep 1 w).
  destruct (unlink_or_pass p "延迟删除成功: {}" w1) as [[b | e] w2 ev2] eqn:H1.
  2:{ unfold bind at 1. rewrite H1. discriminate. }
  rewrite (bind_after _ _ _ _ _ _ H1). destruct b; [discriminate |].
  rewrite (bind_after (print_info _ _) _ w2 tt w2 _ eq_refl).
  destruct (kill_holders_and_retry p w2) as [[b | e] w3 ev3] eqn:H2.
  2:{ unfold bind at 1. rewrite H2. discriminate. }
  rewrite (bind_after _ _ _ _ _ _ H2). destruct b; [discriminate |].
  intros Hr. do 4 apply ends_in_final_failure_after.
  apply _windows_force_delete_false. exact Hr.
Qed.

Lemma _force_delete_file_elsewhere p w :
  on_windows = false -> no_final_retry (_force_delete_file p w).
Proof.
  intros Hnt. unfold no_final_retry, _force_delete_file, kill_holders_and_retry,
    _unix_force_delete, unlink_or_pass.
  rewrite Hnt. unfold_ops. unfold_monad. simpl.
  destruct (fs_unlink p (time_sleep 1 w)) as [[[] | e1] w1]; simpl.
  - split; intros Hin; simpl in Hin; intuition discriminate.
  - destruct (fs_chmod p 511 w1) as [[[] | e2] w2]; simpl.
    + destruct (fs_unlink p w2) as [[[] | e3] w3]; simpl;
        split; intros Hin; simpl in Hin; intuition discriminate.
    + split; intros Hin; simpl in Hin; intuition discriminate.
Qed.

(** C2 (as amended).  On Windows, whenever the ladder fails its run ends
    with the five-second wait, one last [unlink], and, that [unlink] having
    raised, the two error lines carrying its exception followed by the restart
    hint.  On every other platform the ladder has no such end: no five-second
    wait is made and no restart hint is printed; the ladder is one
    [chmod]-and-[unlink] attempt whose failure is printed with its
    exception. *)
Theorem final_retry_on_windows_only (p : path) (w : W) :
  (on_windows = true ->
   result (_force_delete_file p w) = Returned false ->
   ends_in_final_failure p (_force_delete_file p w)) /\
  (forall w1 ev e w2,
     try_methods p (windows_methods p) w = Run (Returned false) w1 ev ->
     fs_unlink p (time_sleep 5 w1) = (Raised e, w2) ->
     _windows_force_delete p w =
     Run (Returned false) w2 (ev ++ final_failure p e)) /\
  (on_windows = false -> no_final_retry (_force_delete_file p w)) /\
  (forall e w1 w2,
     fs_chmod p 511 w = (Returned tt, w1) ->
     fs_unlink p w1 = (Raised e, w2) ->
     _unix_force_delete p w =
     Run (Returned false) w2
       [ Called (CChmod p 511); Called (CUnlink p);
         Printed Error (Msg "强制删除失败: {} - {}" [APath p; AExn e]) ]).
Proof.
  split; [| split; [| split]].
  - apply _force_delete_file_false.
  - intros w1 ev e w2 Hm Hu. unfold _windows_force_delete.
    rewrite (bind_after _ _ _ _ _ _ Hm), (final_retry_fails p w1 e w2 Hu).
    reflexivity.
  - apply _force_delete_file_elsewhere.
  - intros e w1 w2 Hc Hu. unfold _unix_force_delete. unfold_ops. unfold_monad.
    rewrite Hc. simpl. rewrite Hu. reflexivity.
Qed.

(** *** Every count is at least zero, and an exception leaves a method of
    the tree cleaner only from an existence check *)

Lemma try_for_iterdir_post {S} (I : S -> Prop) Q p
  (body : path -> S -> M W S) acc :
  (forall x a, I a -> post I anything (body x a)) ->
  I acc ->
  post (fun r => I (fst r)) Q (try_for_iterdir p body acc).
Proof.
  intros Hbody Hacc w. unfold try_for_iterdir.
  destruct (fs_iterdir p w) as [entries err].
  pose proof (returns_try_for_in I entries body Hbody acc Hacc w) as Hloop.
  unfold bind, called. simpl.
  destruct (try_for_in entries body acc w) as [[[acc' o] | e] w1 ev1];
    simpl in Hloop; [| contradiction].
  destruct o; simpl; exact Hloop.
Qed.

Lemma _clean_global_storage_post Q p force_mode :
  exists_raises Q -> post nonneg Q (_clean_global_storage p force_mode).
Proof.
  intros HQ. unfold _clean_global_storage. post_auto.
  eapply (post_bind nonneg).
  - apply (post_for_in nonneg); [| unfold nonneg; lia].
    intros x acc Hacc. post_auto.
  - intros ? Hs. post_auto.
Qed.
#[local] Hint Resolve _clean_global_storage_post : post.

Lemma sweep_workspace_post force_mode dir acc :
  sweep_ok acc -> post sweep_ok anything (sweep_workspace force_mode dir acc).
Proof.
  intros Hacc. unfold sweep_workspace. post_auto.
  eapply (post_bind (fun c : Z * Z => 0 <= fst c /\ 0 <= snd c)).
  - apply (post_for_in (fun c : Z * Z => 0 <= fst c /\ 0 <= snd c));
      [| unfold sweep_ok in Hacc; simpl; lia].
    intros x c Hc. post_auto.
  - intros c Hc. post_auto.
Qed.

Lemma _clean_workspace_storage_post Q p force_mode :
  exists_raises Q -> post nonneg Q (_clean_workspace_storage p force_mode).
Proof.
  intros HQ. unfold _clean_workspace_storage. post_auto.
  eapply (post_bind (fun r => sweep_ok (fst r))).
  - apply try_for_iterdir_post.
    + intros ? ? Hs. apply sweep_workspace_post. exact Hs.
    + split; simpl; lia.
  - intros [? ?] Hs. post_auto.
Qed.
#[local] Hint Resolve _clean_workspace_storage_post : post.

Lemma _clean_history_folder_post Q p force_mode :
  exists_raises Q -> post nonneg Q (_clean_history_folder p force_mode).
Proof. intros HQ. unfold _clean_history_folder. post_auto. Qed.
#[local] Hint Resolve _clean_history_folder_post : post.

Lemma _clean_extensions_json_post Q p force_mode :
  post nonneg Q (_clean_extensions_json p force_mode).
Proof. unfold _clean_extensions_json. post_auto. Qed.
#[local] Hint Resolve _clean_extensions_json_post : post.

Lemma remove_extension_post force_mode item n :
  nonneg n -> post nonneg anything (remove_extension force_mode item n).
Proof. intros Hn. unfold remove_extension. post_auto. Qed.

Lemma _clean_profile_extensions_post Q p force_mode :
  exists_raises Q -> post nonneg Q (_clean_profile_extensions p force_mode).
Proof.
  intros HQ. unfold _clean_profile_extensions. post_auto.
  eapply (post_bind (fun r => nonneg (fst r))).
  - apply try_for_iterdir_post.
    + intros ? ? Hs. apply remove_extension_post. exact Hs.
    + unfold nonneg; lia.
  - intros ? Hs. post_auto.
Qed.
#[local] Hint Resolve _clean_profile_extensions_post : post.

Lemma add_if_present_post Q entry (f : path -> M W Z) n :
  exists_raises Q ->
  (forall p, post nonneg Q (f p)) -> nonneg n ->
  post nonneg Q (add_if_present entry f n).
Proof.
  intros HQ Hf Hn. unfold add_if_present. destruct entry as [p |]; post_auto.
Qed.

Lemma _clean_profile_directory_post Q paths force_mode :
  exists_raises Q -> post nonneg Q (_clean_profile_directory paths force_mode).
Proof.
  intros HQ. unfold _clean_profile_directory. post_auto.
  eapply post_bind.
  - apply add_if_present_post; [exact HQ | | unfold nonneg; lia].
    intros q. apply _clean_extensions_json_post.
  - intros ? Hs. apply add_if_present_post; [exact HQ | | exact Hs].
    intros q. apply _clean_profile_extensions_post. exact HQ.
Qed.
#[local] Hint Resolve _clean_profile_directory_post : post.

(** *** The sweep over the workspaces *)

(** A listing that breaks off hands an exception to the handler, whatever
    the iterations before it did: the exception of the iteration that raised,
    or else its own. *)
Lemma try_for_iterdir_broken {S} p (body : path -> S -> M W S) acc w entries e :
  fs_iterdir p w = (entries, Some e) ->
  exists acc' w' ev,
    try_for_iterdir p body acc w =
    Run (Returned (acc', Some (ending entries body acc w e))) w' ev.
Proof.
  intros Hit. unfold try_for_iterdir, ending. rewrite Hit.
  pose proof (returns_try_for_in anything entries body
                (fun x a _ => post_anything (body x a)) acc I w) as Hq.
  unfold bind, called. simpl.
  destruct (try_for_in entries body acc w) as [[[acc' o] | e'] w1 ev1];
    simpl in Hq; [| contradiction].
  destruct o; simpl; eauto.
Qed.

(** C6.  When the listing of the workspace-storage root -- reached once the
    existence check of the root has returned -- ends with an exception,
    [_clean_workspace_storage] returns zero, whatever was deleted in the
    workspaces listed before the exception; and its last console line reports
    the exception that ended the sweep: the one of the listing, unless an
    iteration before it raised one of its own. *)
Theorem workspace_listing_failure (p : path) (force_mode : bool) (w : W)
  (entries : list path) (e : exn) (present : bool) :
  fs_exists p w = Returned present ->
  fs_iterdir p w = (entries, Some e) ->
  result (_clean_workspace_storage p force_mode w) = Returned 0 /\
  (present = true ->
   exists ev,
     events (_clean_workspace_storage p force_mode w) =
     (ev ++ [Printed Error
               (Msg "读取 workspaceStorage 目录失败: {}"
                  [AExn (ending entries (sweep_workspace force_mode) (Sweep 0 0)
                           w e)])])%list).
Proof.
  intros Hp Hit. unfold _clean_workspace_storage.
  rewrite (bind_after (print_info _ _) _ w tt w _ eq_refl).
  rewrite bind_path_exists, Hp.
  destruct present; simpl.
  - destruct (try_for_iterdir_broken p (sweep_workspace force_mode) (Sweep 0 0)
                w entries e Hit)
      as (acc' & w' & ev & Hrun).
    rewrite (bind_after _ _ _ _ _ _ Hrun). split; [reflexivity |].
    intros _. unfold_ops. unfold_monad. simpl.
    exists ([Printed Info (Msg "清理 workspaceStorage..." []); Called (CExists p)]
              ++ ev)%list.
    rewrite <- !app_assoc. reflexivity.
  - split; [reflexivity | discriminate].
Qed.

(** *** The manifest sanitizer, run by run *)

(** C7.  When [create_backup] gives no backup -- it returns [None] or it
    raises -- the sanitizer stops there: it neither reads nor writes the
    manifest, makes no other call, leaves the machine as [create_backup]
    left it, prints one error line and returns zero. *)
Theorem backup_failure_aborts (p : path) (force_mode : bool) (w w1 : W)
  (r : outcome (option path)) :
  create_backup p w = (r, w1) ->
  (r = Returned None \/ exists e, r = Raised e) ->
  _clean_extensions_json p force_mode w =
  Run (Returned 0) w1
    [sanitize_banner p; Called (CCreateBackup p); backup_report r].
Proof.
  intros Hb Hr. unfold _clean_extensions_json. unfold_ops. unfold_monad.
  simpl. rewrite Hb. destruct Hr as [-> | [e ->]]; simpl.
  - reflexivity.
  - destruct e; reflexivity.
Qed.

(** C9.  When the backup was made but the manifest cannot be read as a
    list -- reading it raises, or it holds something that is not a list --
    the sanitizer returns zero after one more console line.  It makes no call
    after the read: the manifest is not written and the backup is not
    unlinked, so the machine, backup included, stays as [create_backup] left
    it. *)
Theorem unreadable_manifest_keeps_backup (p : path) (force_mode : bool)
  (w w1 : W) (bp : path) (r : outcome json) :
  create_backup p w = (Returned (Some bp), w1) ->
  json_load p w1 = r ->
  match r with
  | Raised _ => True
  | Returned data => is_list data = false
  end ->
  _clean_extensions_json p force_mode w =
  Run (Returned 0) w1
    [sanitize_banner p; Called (CCreateBackup p); Called (CJsonLoad p);
     unreadable_report r].
Proof.
  intros Hb Hl Hr. unfold _clean_extensions_json. unfold_ops. unfold_monad.
  simpl. rewrite Hb. simpl. rewrite Hl. destruct r as [data | e]; simpl.
  - destruct data; try discriminate; reflexivity.
  - destruct e; reflexivity.
Qed.

(** The loop of the sanitizer is a stable partition by the marker
    predicate. *)
Lemma partition_items_filter data filtered removed :
  partition_items data filtered removed =
  ((filtered ++ List.filter (fun item => negb (isMarked item)) data)%list,
   (removed ++ List.filter isMarked data)%list).
Proof.
  revert filtered removed.
  induction data as [| item rest IH]; intros filtered removed; simpl.
  - rewrite !app_nil_r. reflexivity.
  - destruct (is_dict item) eqn:Hd;
      [ destruct (contains marker (lower (json_dumps item))) eqn:Hc
      | destruct (contains marker (lower (py_str item))) eqn:Hc ];
      simpl; rewrite IH;
      (assert (Hm : isMarked item = _) by (unfold isMarked; rewrite Hd; exact Hc));
      rewrite Hm; simpl; rewrite <- ?app_assoc; reflexivity.
Qed.

Lemma filter_none {A} (f : A -> bool) l :
  Forall (fun x => f x = false) l -> List.filter f l = [].
Proof.
  induction 1 as [| x l Hx _ IH]; simpl; [reflexivity |].
  rewrite Hx. exact IH.
Qed.

Lemma print_each_run {A} (l : list A) (t : string) (f : A -> list arg) (w : W) :
  for_in l (fun x _ => print_info t (f x)) tt w =
  Run (Returned tt) w (List.map (fun x => Printed Info (Msg t (f x))) l).
Proof.
  induction l as [| x rest IH]; simpl; [reflexivity |].
  unfold bind at 1. unfold print_info at 1, print at 1. rewrite IH. reflexivity.
Qed.

(** C3 (as amended).  When the manifest is a list in which no record is
    marked, the sanitizer does not write the manifest: after the backup and
    the read its only call is one [unlink] of the backup it has just made, and
    it returns zero.  When this [unlink] returns, the run ends there and --
    granted that an [unlink] that returns leaves no file behind -- no backup
    remains.  When this [unlink] raises, the exception is caught: the error
    line is printed, zero is returned all the same, nothing more is tried, and
    the run ends in the machine as the failed [unlink] left it. *)
Theorem unmarked_manifest_is_not_rewritten (p : path) (force_mode : bool)
  (w w1 : W) (bp : path) (items : list json) :
  create_backup p w = (Returned (Some bp), w1) ->
  json_load p w1 = Returned (JList items) ->
  Forall (fun item => isMarked item = false) items ->
  (forall w2,
     fs_unlink bp w1 = (Returned tt, w2) ->
     _clean_extensions_json p force_mode w =
     Run (Returned 0) w2
       [sanitize_banner p; Called (CCreateBackup p); Called (CJsonLoad p);
        Printed Info (Msg "extensions.json中未找到augment相关条目" []);
        Called (CUnlink bp)] /\
     (unlink_removes bp ->
      fs_exists bp (final (_clean_extensions_json p force_mode w)) =
      Returned false)) /\
  (forall e w2,
     fs_unlink bp w1 = (Raised e, w2) ->
     _clean_extensions_json p force_mode w =
     Run (Returned 0) w2
       [sanitize_banner p; Called (CCreateBackup p); Called (CJsonLoad p);
        Printed Info (Msg "extensions.json中未找到augment相关条目" []);
        Called (CUnlink bp); sanitize_error e]) /\
  result (_clean_extensions_json p force_mode w) = Returned 0 /\
  final (_clean_extensions_json p force_mode w) = snd (fs_unlink bp w1) /\
  In (Called (CUnlink bp)) (events (_clean_extensions_json p force_mode w)) /\
  Forall (fun ev => is_dump ev = false)
    (events (_clean_extensions_json p force_mode w)).
Proof.
  intros Hb Hl Hnone.
  assert (Hparts : partition_items items [] [] =
                   (List.filter (fun item => negb (isMarked item)) items, [])).
  { rewrite partition_items_filter, (filter_none _ _ Hnone). reflexivity. }
  unfold _clean_extensions_json. unfold_ops. unfold_monad.
  simpl. rewrite Hb. simpl. rewrite Hl. simpl. rewrite Hparts. simpl.
  destruct (fs_unlink bp w1) as [[[] | e] w2] eqn:Hu; simpl.
  - split; [| split; [| split; [| split; [| split]]]].
    + intros w3 [= <-]. split; [reflexivity |].
      intros Hlaw. exact (Hlaw w1 w2 Hu).
    + intros e w3 [=].
    + reflexivity.
    + reflexivity.
    + auto 10.
    + repeat constructor.
  - split; [| split; [| split; [| split; [| split]]]].
    + intros w3 [=].
    + intros e0 w3 [= <- <-]. destruct e; reflexivity.
    + destruct e; reflexivity.
    + destruct e; reflexivity.
    + destruct e; simpl; auto 10.
    + destruct e; repeat constructor.
Qed.

(** What the sanitizer does with a manifest that has marked records. *)
Lemma sanitize_rewrites p force_mode w w1 bp items r w2 :
  create_backup p w = (Returned (Some bp), w1) ->
  json_load p w1 = Returned (JList items) ->
  existsb isMarked items = true ->
  json_dump p (List.filter (fun item => negb (isMarked item)) items) w1 = (r, w2) ->
  _clean_extensions_json p force_mode w =
  Run (Returned (match r with Returned _ => 1 | Raised _ => 0 end)) w2
    ([sanitize_banner p; Called (CCreateBackup p); Called (CJsonLoad p)] ++
     removal_lines (List.filter isMarked items) ++
     [Called (CJsonDump p (List.filter (fun item => negb (isMarked item)) items));
      rewrite_report bp r]).
Proof.
  intros Hb Hl Hsome Hd.
  assert (Hremoved : exists item rest, List.filter isMarked items = item :: rest).
  { destruct (List.filter isMarked items) as [| item rest] eqn:Hf; [| eauto].
    apply existsb_exists in Hsome as (x & Hin & Hx).
    assert (Hin' : In x (List.filter isMarked items))
      by (apply filter_In; split; assumption).
    rewrite Hf in Hin'. destruct Hin'. }
  destruct Hremoved as (item & rest & Hf).
  unfold _clean_extensions_json.
  rewrite (bind_after (print_info _ _) _ w tt w _ eq_refl).
  unfold try_except, backup, load. unfold bind at 1. rewrite Hb. simpl.
  unfold bind at 1. rewrite Hl. simpl.
  rewrite partition_items_filter. cbn [fst snd app].
  unfold removal_lines. rewrite !Hf. cbv beta iota.
  unfold bind at 1. unfold print_info at 1, print at 1. cbv beta iota.
  unfold bind at 1. rewrite print_each_run. cbv beta iota.
  unfold bind at 1. unfold dump. rewrite Hd.
  destruct r as [[] | e].
  - unfold after, sanitize_banner. simpl. rewrite <- ?app_assoc. reflexivity.
  - unfold after, sanitize_banner. simpl.
    destruct e; simpl; rewrite <- ?app_assoc; reflexivity.
Qed.

Lemma removal_lines_printed removed c : ~ In (Called c) (removal_lines removed).
Proof.
  unfold removal_lines. intros [Hd | Hin]; [discriminate |].
  apply in_map_iff in Hin as (x & Hx & _). discriminate.
Qed.

(** C5.  The sanitizer keeps the unmarked records in their order: its loop
    computes the list without the marked records and the list of the marked
    records, each in the order of the manifest; for records [A; B; C; D; E]
    of which exactly [B] and [D] are marked the kept list is [A; C; E]; and
    when something is marked, the one list the sanitizer writes to the
    manifest is the kept list, the run ends in the machine that this write
    left, and -- granted that what [json.dump] has written is what
    [json.load] reads -- the manifest read after the run is the kept list. *)
Theorem sanitize_preserves_order :
  (forall items,
     partition_items items [] [] =
     (List.filter (fun item => negb (isMarked item)) items,
      List.filter isMarked items)) /\
  (forall A B C D E,
     isMarked A = false -> isMarked B = true -> isMarked C = false ->
     isMarked D = true -> isMarked E = false ->
     fst (partition_items [A; B; C; D; E] [] []) = [A; C; E]) /\
  (forall p force_mode (w w1 : W) bp items,
     create_backup p w = (Returned (Some bp), w1) ->
     json_load p w1 = Returned (JList items) ->
     existsb isMarked items = true ->
     let kept := List.filter (fun item => negb (isMarked item)) items in
     In (Called (CJsonDump p kept)) (events (_clean_extensions_json p force_mode w)) /\
     (forall q data,
        In (Called (CJsonDump q data)) (events (_clean_extensions_json p force_mode w)) ->
        q = p /\ data = kept) /\
     final (_clean_extensions_json p force_mode w) = snd (json_dump p kept w1) /\
     (dump_then_load p ->
      fst (json_dump p kept w1) = Returned tt ->
      json_load p (final (_clean_extensions_json p force_mode w)) =
      Returned (JList kept))).
Proof.
  split; [| split].
  - intros items. rewrite partition_items_filter. reflexivity.
  - intros A B C D E HA HB HC HD HE. rewrite partition_items_filter. simpl.
    rewrite HA, HB, HC, HD, HE. reflexivity.
  - intros p force_mode w w1 bp items Hb Hl Hsome kept.
    destruct (json_dump p kept w1) as [r w2] eqn:Hd.
    rewrite (sanitize_rewrites p force_mode w w1 bp items r w2 Hb Hl Hsome Hd).
    cbn [events final fst snd]. split; [| split; [| split]].
    + apply in_or_app. right. apply in_or_app. right. left. reflexivity.
    + intros q data Hin.
      apply in_app_or in Hin as [Hin | Hin].
      { simpl in Hin. unfold sanitize_banner in Hin.
        intuition discriminate. }
      apply in_app_or in Hin as [Hin | Hin].
      { exfalso. exact (removal_lines_printed _ _ Hin). }
      destruct Hin as [Heq | [Heq | []]].
      * injection Heq as <- <-. split; reflexivity.
      * destruct r as [[] | e]; simpl in Heq; [discriminate |].
        destruct e; discriminate.
    + reflexivity.
    + intros Hlaw ->. exact (Hlaw kept w1 w2 Hd).
Qed.

(** *** Removing a tree *)

(** Once its existence check has returned, neither method of the tree
    removal raises. *)
Lemma _clean_history_folder_returns dir force_mode w present :
  fs_exists dir w = Returned present ->
  exists k, result (_clean_history_folder dir force_mode w) = Returned k /\ 0 <= k.
Proof.
  intros Hp. unfold _clean_history_folder.
  rewrite (bind_after (print_info _ _) _ w tt w _ eq_refl).
  rewrite bind_path_exists, Hp. unfold after. cbn [result].
  destruct present; cbn [negb]; [| exists 0; split; [reflexivity | lia]].
  match goal with
  | |- exists k, result (?m w) = _ /\ _ =>
      assert (Hm : returns nonneg m) by post_auto;
      destruct (returns_run nonneg m w Hm) as (k & w' & ev & Hrun & Hk)
  end.
  exists k. rewrite Hrun. split; [reflexivity | exact Hk].
Qed.

Lemma _clean_profile_extensions_returns dir force_mode w present :
  fs_exists dir w = Returned present ->
  exists k,
    result (_clean_profile_extensions dir force_mode w) = Returned k /\ 0 <= k.
Proof.
  intros Hp. unfold _clean_profile_extensions.
  rewrite (bind_after (print_info _ _) _ w tt w _ eq_refl).
  rewrite bind_path_exists, Hp. unfold after. cbn [result].
  destruct present; cbn [negb]; [| exists 0; split; [reflexivity | lia]].
  match goal with
  | |- exists k, result (?m w) = _ /\ _ =>
      assert (Hm : returns nonneg m);
      [| destruct (returns_run nonneg m w Hm) as (k & w' & ev & Hrun & Hk)]
  end.
  { eapply (post_bind (fun r => nonneg (fst r))).
    - apply try_for_iterdir_post.
      + intros ? ? Hs. apply remove_extension_post. exact Hs.
      + unfold nonneg; lia.
    - intros ? Hs. post_auto. }
  exists k. rewrite Hrun. split; [reflexivity | exact Hk].
Qed.

(** An exception of the existence check leaves the method. *)
Lemma _clean_history_folder_denied dir force_mode w e :
  fs_exists dir w = Raised e ->
  _clean_history_folder dir force_mode w =
  Run (Raised e) w
    [ Printed Info (Msg "清理History文件夹: {}" [APath dir]); Called (CExists dir) ].
Proof.
  intros Hp. unfold _clean_history_folder.
  rewrite (bind_after (print_info _ _) _ w tt w _ eq_refl).
  rewrite bind_path_exists, Hp. reflexivity.
Qed.

Lemma _clean_profile_extensions_denied dir force_mode w e :
  fs_exists dir w = Raised e ->
  _clean_profile_extensions dir force_mode w =
  Run (Raised e) w
    [ Printed Info (Msg "清理扩展目录: {}" [APath dir]); Called (CExists dir) ].
Proof.
  intros Hp. unfold _clean_profile_extensions.
  rewrite (bind_after (print_info _ _) _ w tt w _ eq_refl).
  rewrite bind_path_exists, Hp. reflexivity.
Qed.

(** C8 (as amended).  For a tree whose existence check has returned true:
    with force mode on, the removal is counted whenever
    [shutil.rmtree(ignore_errors=True)] returns, whatever is left of the tree
    -- the History folder counts one, a marked extension directory adds one;
    should that call itself raise, the exception is caught and nothing is
    counted -- the History folder counts zero after an error line, the
    extension directory is not added after a warning.  With force mode off,
    a removal that raises is not propagated: the History folder counts zero,
    the extension directory is not added, and in both cases the line that
    says force mode can be tried is printed.  Neither method raises once its
    existence check has returned; an exception of that check, which stands
    before the [try], leaves the method in either mode. *)
Theorem remove_tree_reports (history_path item : path) (n : Z) (w : W) :
  fs_exists history_path w = Returned true ->
  fs_is_dir item w = Returned true ->
  contains marker (lower (name item)) = true ->
  (forall w1,
     shutil_rmtree history_path true w = (Returned tt, w1) ->
     _clean_history_folder history_path true w =
     Run (Returned 1) w1
       [ Printed Info (Msg "清理History文件夹: {}" [APath history_path]);
         Called (CExists history_path);
         Called (CRmtree history_path true);
         Printed Success (Msg "已强制删除History文件夹: {}" [APath history_path]) ]) /\
  (forall e w1,
     shutil_rmtree history_path true w = (Raised e, w1) ->
     _clean_history_folder history_path true w =
     Run (Returned 0) w1
       [ Printed Info (Msg "清理History文件夹: {}" [APath history_path]);
         Called (CExists history_path);
         Called (CRmtree history_path true);
         Printed Error (Msg "清理History文件夹时发生错误: {}" [AExn e]) ]) /\
  (forall w1,
     shutil_rmtree item true w = (Returned tt, w1) ->
     remove_extension true item n w =
     Run (Returned (n + 1)) w1
       [ Called (CIsDir item);
         Printed Info (Msg "找到augment扩展: {}" [AStr (name item)]);
         Called (CRmtree item true);
         Printed Success (Msg "已强制删除扩展: {}" [AStr (name item)]) ]) /\
  (forall e w1,
     shutil_rmtree item true w = (Raised e, w1) ->
     remove_extension true item n w =
     Run (Returned n) w1
       [ Called (CIsDir item);
         Printed Info (Msg "找到augment扩展: {}" [AStr (name item)]);
         Called (CRmtree item true);
         Printed Warning (Msg "删除扩展失败 {}: {}" [AStr (name item); AExn e]) ]) /\
  (forall e w1,
     shutil_rmtree history_path false w = (Raised e, w1) ->
     _clean_history_folder history_path false w =
     Run (Returned 0) w1
       [ Printed Info (Msg "清理History文件夹: {}" [APath history_path]);
         Called (CExists history_path);
         Called (CRmtree history_path false);
         Printed Warning (Msg "删除History文件夹失败: {}" [AExn e]);
         Printed Info (Msg force_mode_hint []) ]) /\
  (forall e w1,
     shutil_rmtree item false w = (Raised e, w1) ->
     remove_extension false item n w =
     Run (Returned n) w1
       [ Called (CIsDir item);
         Printed Info (Msg "找到augment扩展: {}" [AStr (name item)]);
         Called (CRmtree item false);
         Printed Warning (Msg "删除扩展失败 {}: {}" [AStr (name item); AExn e]);
         Printed Info (Msg force_mode_hint []) ]) /\
  (forall dir force_mode w0 present,
     fs_exists dir w0 = Returned present ->
     (exists k, result (_clean_history_folder dir force_mode w0) = Returned k /\
                0 <= k) /\
     (exists k, result (_clean_profile_extensions dir force_mode w0) = Returned k /\
                0 <= k)) /\
  (forall dir force_mode w0 e,
     fs_exists dir w0 = Raised e ->
     result (_clean_history_folder dir force_mode w0) = Raised e /\
     result (_clean_profile_extensions dir force_mode w0) = Raised e).
Proof.
  intros Hp Hd Hm.
  split; [| split; [| split; [| split; [| split; [| split; [| split]]]]]].
  - intros w1 Hr. unfold _clean_history_folder. unfold_ops. unfold_monad.
    rewrite Hp. simpl. rewrite Hr. reflexivity.
  - intros e w1 Hr. unfold _clean_history_folder. unfold_ops. unfold_monad.
    rewrite Hp. simpl. rewrite Hr. reflexivity.
  - intros w1 Hr. unfold remove_extension. unfold_ops. unfold_monad.
    rewrite Hd, Hm. simpl. rewrite Hr. reflexivity.
  - intros e w1 Hr. unfold remove_extension. unfold_ops. unfold_monad.
    rewrite Hd, Hm. simpl. rewrite Hr. reflexivity.
  - intros e w1 Hr. unfold _clean_history_folder. unfold_ops. unfold_monad.
    rewrite Hp. simpl. rewrite Hr. reflexivity.
  - intros e w1 Hr. unfold remove_extension. unfold_ops. unfold_monad.
    rewrite Hd, Hm. simpl. rewrite Hr. reflexivity.
  - intros dir force_mode w0 present Hdir. split.
    + exact (_clean_history_folder_returns dir force_mode w0 present Hdir).
    + exact (_clean_profile_extensions_returns dir force_mode w0 present Hdir).
  - intros dir force_mode w0 e Hdir. split.
    + rewrite (_clean_history_folder_denied dir force_mode w0 e Hdir). reflexivity.
    + rewrite (_clean_profile_extensions_denied dir force_mode w0 e Hdir).
      reflexivity.
Qed.

(** *** The summary of a cleanup *)

Lemma summary_ok_zero : summary_ok zero_results.
Proof.
  split.
  - unfold zero_results, zones. rewrite !dom_insert_L, dom_empty_L. set_solver.
  - intros k v Hk. unfold zero_results in Hk.
    repeat (apply lookup_insert_Some in Hk as [[_ <-] | [_ Hk]]; [lia |]).
    rewrite lookup_empty in Hk. discriminate.
Qed.

Lemma summary_ok_insert d k n :
  summary_ok d -> k ∈ zones -> 0 <= n -> summary_ok (<[k := n]> d).
Proof.
  intros [Hdom Hval] Hk Hn. split.
  - rewrite dom_insert_L, Hdom. apply subseteq_union_1_L.
    apply singleton_subseteq_l. exact Hk.
  - intros k' v Hv. apply lookup_insert_Some in Hv as [[_ <-] | [_ Hv]].
    + exact Hn.
    + exact (Hval k' v Hv).
Qed.

Lemma zones_members :
  "globalStorage" ∈ zones /\ "workspaceStorage" ∈ zones /\
  "history" ∈ zones /\ "profile" ∈ zones.
Proof. unfold zones. repeat split; set_solver. Qed.

Lemma clean_history_and_profile_post Q paths force_mode d :
  exists_raises Q ->
  summary_ok d ->
  post summary_ok Q (clean_history_and_profile paths force_mode d).
Proof.
  intros HQ Hd. destruct zones_members as (_ & _ & Hh & Hp).
  unfold clean_history_and_profile.
  eapply (post_bind summary_ok).
  - post_auto; try exact Hd. apply summary_ok_insert; assumption.
  - intros d' Hd'. post_auto; try exact Hd'.
    apply summary_ok_insert; assumption.
Qed.

Lemma clean_ide_files_post Q ide_type force_mode :
  exists_raises Q ->
  post summary_ok Q (clean_ide_files ide_type force_mode).
Proof.
  intros HQ. destruct zones_members as (Hg & Hw & _ & _).
  unfold clean_ide_files.
  eapply (post_bind anything); [post_auto | intros _ _].
  eapply (post_bind anything); [post_auto | intros paths _].
  destruct paths as [paths |]; [| post_auto; apply summary_ok_zero].
  destruct (decide (paths = ∅)); [post_auto; apply summary_ok_zero |].
  eapply (post_bind (fun r => summary_ok (snd r))).
  { destruct (paths !! "state_db"); post_auto; simpl; [| apply summary_ok_zero].
    apply summary_ok_insert; [apply summary_ok_zero | assumption | assumption]. }
  intros r Hr.
  eapply (post_bind summary_ok).
  { destruct (fst r); post_auto; try exact Hr.
    apply summary_ok_insert; assumption. }
  intros d1 Hd1.
  eapply (post_bind summary_ok).
  { destruct (is_VSCODE_INSIDERS ide_type);
      [apply clean_history_and_profile_post | apply post_ret]; assumption. }
  intros d2 Hd2.
  eapply (post_bind summary_ok).
  { destruct (is_VSCODE ide_type);
      [apply clean_history_and_profile_post | apply post_ret]; assumption. }
  intros d3 Hd3. apply post_ret. exact Hd3.
Qed.

(** The cleanup of an IDE for which the provider has no paths. *)
Lemma clean_ide_files_no_paths ide_type force_mode w :
  get_ide_paths ide_type w = None \/ get_ide_paths ide_type w = Some ∅ ->
  clean_ide_files ide_type force_mode w =
  Run (Returned zero_results) w
    [ Printed Info (Msg "开始清理 {} 状态文件..." [AIde ide_type]);
      Called (CGetIdePaths ide_type);
      Printed Error (Msg "无法获取 {} 路径" [AIde ide_type]) ].
Proof.
  intros Hnone. unfold clean_ide_files. unfold_ops. unfold_monad. simpl.
  destruct Hnone as [-> | ->]; simpl; [reflexivity |].
  destruct (decide ((∅ : gmap string path) = ∅)) as [_ | Hne];
    [reflexivity | contradiction].
Qed.


(** *** What a run asks of the outside: the rules *)

Lemma always_ret {A} P (a : A) : always (W:=W) P (ret a).
Proof. intros w. constructor. Qed.

Lemma always_bind {A B} P (m : M W A) (k : A -> M W B) :
  always P m -> (forall a, always P (k a)) -> always P (bind m k).
Proof.
  intros Hm Hk w. unfold bind. specialize (Hm w).
  destruct (m w) as [[a | e] w1 ev1]; simpl in *; [| exact Hm].
  specialize (Hk a w1). destruct (k a w1) as [r w2 ev2]. simpl in *.
  apply Forall_app. split; assumption.
Qed.

Lemma always_try_except {A} P (m : M W A) (h : exn -> M W A) :
  always P m -> (forall e, always P (h e)) -> always P (try_except m h).
Proof.
  intros Hm Hh w. unfold try_except. specialize (Hm w).
  destruct (m w) as [[a | e] w1 ev1]; simpl in *; [exact Hm |].
  specialize (Hh e w1). destruct (h e w1) as [r w2 ev2]. simpl in *.
  apply Forall_app. split; assumption.
Qed.

Lemma always_for_in {A S} P (xs : list A) (body : A -> S -> M W S) acc :
  (forall x a, always P (body x a)) -> always P (for_in xs body acc).
Proof.
  intros Hbody. revert acc. induction xs as [| x rest IH]; intros acc; simpl.
  - apply always_ret.
  - apply always_bind; [apply Hbody | intros a; apply IH].
Qed.

Lemma always_try_for_in {A S} P (xs : list A) (body : A -> S -> M W S) acc :
  (forall x a, always P (body x a)) -> always P (try_for_in xs body acc).
Proof.
  intros Hbody. revert acc. induction xs as [| x rest IH]; intros acc w; simpl.
  - constructor.
  - pose proof (Hbody x acc w) as Hx.
    destruct (body x acc w) as [[acc' | e] w1 ev1]; simpl in *; [| exact Hx].
    specialize (IH acc' w1).
    destruct (try_for_in rest body acc' w1) as [r w2 ev2]. simpl in *.
    apply Forall_app. split; assumption.
Qed.

Lemma always_try_for_iterdir {S} P p (body : path -> S -> M W S) acc :
  P (Called (CIterdir p)) ->
  (forall x a, always P (body x a)) ->
  always P (try_for_iterdir p body acc).
Proof.
  intros Hp Hbody w. unfold try_for_iterdir.
  destruct (fs_iterdir p w) as [entries err].
  pose proof (always_try_for_in P entries body acc Hbody w) as Hloop.
  unfold bind, called. simpl.
  destruct (try_for_in entries body acc w) as [[[acc' o] | e] w1 ev1];
    simpl in *.
  - destruct o; simpl; constructor; try assumption;
      rewrite app_nil_r; assumption.
  - constructor; assumption.
Qed.

Lemma always_weaken {A} (P Q : event -> Prop) (m : M W A) :
  always P m -> (forall ev, P ev -> Q ev) -> always Q m.
Proof. intros Hm HPQ w. eapply Forall_impl; [apply Hm | exact HPQ]. Qed.

Lemma always_print P lv t a : P (Printed lv (Msg t a)) -> always (W:=W) P (print lv t a).
Proof. intros HP w. repeat constructor. exact HP. Qed.

Lemma always_path_exists P p : P (Called (CExists p)) -> always P (path_exists p).
Proof. intros HP w. repeat constructor. exact HP. Qed.

Lemma always_is_dir P p : P (Called (CIsDir p)) -> always P (is_dir p).
Proof. intros HP w. repeat constructor. exact HP. Qed.

Lemma always_sleep P n : P (Called (CSleep n)) -> always P (sleep n).
Proof. intros HP w. repeat constructor. exact HP. Qed.

Lemma always_unlink P p : P (Called (CUnlink p)) -> always P (unlink p).
Proof.
  intros HP w. unfold unlink. destruct (fs_unlink p w). repeat constructor. exact HP.
Qed.

Lemma always_chmod P p mode : P (Called (CChmod p mode)) -> always P (chmod p mode).
Proof.
  intros HP w. unfold chmod. destruct (fs_chmod p mode w).
  repeat constructor. exact HP.
Qed.

Lemma always_run_command P c : P (Called (CRun c)) -> always P (run_command c).
Proof.
  intros HP w. unfold run_command. destruct (subprocess_run c w).
  repeat constructor. exact HP.
Qed.

Lemma always_rmtree P p b : P (Called (CRmtree p b)) -> always P (rmtree p b).
Proof.
  intros HP w. unfold rmtree. destruct (shutil_rmtree p b w).
  repeat constructor. exact HP.
Qed.

Lemma always_find_processes P p :
  P (Called (CFindProcesses p)) -> always P (find_processes p).
Proof.
  intros HP w. unfold find_processes. destruct (find_processes_using_file p w).
  repeat constructor. exact HP.
Qed.

Lemma always_backup P p : P (Called (CCreateBackup p)) -> always P (backup p).
Proof.
  intros HP w. unfold backup. destruct (create_backup p w).
  repeat constructor. exact HP.
Qed.

Lemma always_load P p : P (Called (CJsonLoad p)) -> always P (load p).
Proof. intros HP w. repeat constructor. exact HP. Qed.

Lemma always_dump P p data : P (Called (CJsonDump p data)) -> always P (dump p data).
Proof.
  intros HP w. unfold dump. destruct (json_dump p data w).
  repeat constructor. exact HP.
Qed.

Lemma always_ide_paths P i : P (Called (CGetIdePaths i)) -> always P (ide_paths i).
Proof. intros HP w. repeat constructor. exact HP. Qed.

Create HintDb always discriminated.

Ltac always_step :=
  unfold print_info, print_success, print_warning, print_error;
  lazymatch goal with
  | |- always _ (bind _ _) => apply always_bind; [ | intros ? ]
  | |- always _ (try_except _ _) => apply always_try_except; [ | intros ? ]
  | |- always _ (for_in _ _ _) => apply always_for_in; intros ? ?
  | |- always _ (if ?b then _ else _) => destruct b
  | |- always _ (match ?x with _ => _ end) => destruct x
  | |- always _ (ret _) => apply always_ret
  | |- always _ (print _ _ _) => apply always_print
  | |- always _ (path_exists _) => apply always_path_exists
  | |- always _ (is_dir _) => apply always_is_dir
  | |- always _ (sleep _) => apply always_sleep
  | |- always _ (unlink _) => apply always_unlink
  | |- always _ (chmod _ _) => apply always_chmod
  | |- always _ (run_command _) => apply always_run_command
  | |- always _ (rmtree _ _) => apply always_rmtree
  | |- always _ (find_processes _) => apply always_find_processes
  | |- always _ (backup _) => apply always_backup
  | |- always _ (load _) => apply always_load
  | |- always _ (dump _ _) => apply always_dump
  | |- always _ (ide_paths _) => apply always_ide_paths
  | |- always _ _ => solve [eauto with always]
  end.

Ltac always_auto := repeat always_step; simpl; try solve [intuition (auto; lia)].

(** *** What the escalating deleter asks of the outside *)

Lemma try_methods_calls p methods :
  Forall (fun m => method_command m = DelFQ p \/ method_command m = PSRemoveItem p \/
                   method_command m = AttribDel p) methods ->
  always (deleter_event true p) (try_methods p methods).
Proof.
  induction 1 as [| m rest Hm _ IH]; simpl.
  - apply always_ret.
  - always_auto. destruct Hm as [-> | [-> | ->]]; simpl; split; reflexivity.
Qed.

Lemma _windows_force_delete_calls p :
  always (deleter_event true p) (_windows_force_delete p).
Proof.
  unfold _windows_force_delete, final_retry.
  apply always_bind.
  - apply try_methods_calls. unfold windows_methods.
    repeat (constructor; [simpl; auto |]). constructor.
  - intros deleted. always_auto.
Qed.

Lemma _unix_force_delete_calls p :
  always (deleter_event false p) (_unix_force_delete p).
Proof. unfold _unix_force_delete. always_auto. Qed.

Lemma kill_holders_and_retry_calls p :
  always (deleter_event on_windows p) (kill_holders_and_retry p).
Proof.
  unfold kill_holders_and_retry, _kill_occupying_processes, unlink_or_pass.
  destruct on_windows; always_auto.
Qed.

Lemma _force_delete_file_calls p :
  always (deleter_event on_windows p) (_force_delete_file p).
Proof.
  unfold _force_delete_file.
  pose proof (kill_holders_and_retry_calls p) as Hk.
  pose proof (_windows_force_delete_calls p) as Hw.
  pose proof (_unix_force_delete_calls p) as Hu.
  unfold unlink_or_pass.
  destruct on_windows; always_auto; assumption.
Qed.

Lemma safe_delete_file_calls p force_mode :
  always (deleter_event on_windows p) (safe_delete_file p force_mode).
Proof.
  pose proof (_force_delete_file_calls p) as Hf.
  unfold safe_delete_file, on_delete_error. always_auto; assumption.
Qed.

(** X1.  Whatever [safe_delete_file] deletes, force-deletes or changes the
    mode of is the file it was given: no other path is ever the target of
    an [unlink], a [chmod] or a forced command, and no tree is removed, no
    backup made and no manifest read or written. *)
Theorem safe_delete_file_touches_only_its_path (p : path) (force_mode : bool)
  (w : W) :
  Forall (fun ev => beyond_files ev = false /\
                    forall q, target_of ev = Some q -> q = p)
    (events (safe_delete_file p force_mode w)).
Proof.
  eapply Forall_impl; [apply (safe_delete_file_calls p force_mode w) |].
  intros [c | lv m] Hev; simpl in *; [| split; [reflexivity | discriminate]].
  destruct c as [| | | | | | | c | | | | |]; simpl in *;
    try contradiction; try (split; [reflexivity | discriminate]);
    try (split; [reflexivity | intros q [= <-]; intuition congruence]).
  destruct c; simpl in *; try contradiction;
    split; try reflexivity; try discriminate;
    intros q [= <-]; intuition congruence.
Qed.

(** X2.  Away from Windows the deleter never looks for a process and never
    starts a subprocess, and it never sleeps longer than one second; on
    every platform the [kill -KILL] command line is never issued by
    [safe_delete_file]. *)
Theorem safe_delete_file_process_calls (p : path) (force_mode : bool) (w : W) :
  (on_windows = false ->
   Forall (fun ev => process_call ev = false /\
                     forall n, ev = Called (CSleep n) -> n = 1)
     (events (safe_delete_file p force_mode w))) /\
  (forall n, ~ In (Called (CRun (KillKILL n)))
               (events (safe_delete_file p force_mode w))).
Proof.
  pose proof (safe_delete_file_calls p force_mode w) as Hall. split.
  - intros Hnt. rewrite Hnt in Hall.
    eapply Forall_impl; [exact Hall |].
    intros [c | lv m] Hev; simpl in *; [| split; [reflexivity | discriminate]].
    destruct c as [| | | | | | | c | | | | |]; simpl in *;
      try contradiction; try (split; [reflexivity | discriminate]).
    + split; [reflexivity |]. intros n [= <-].
      destruct Hev as [-> | [Hf _]]; [reflexivity | discriminate].
    + destruct c; simpl in *; intuition discriminate.
    + intuition discriminate.
  - intros n Hin. rewrite Forall_forall in Hall.
    apply list_elem_of_In in Hin. exact (Hall _ Hin).
Qed.

(** *** Deleted means gone *)

Lemma gone_bind {A} p (m : M W A) (k : A -> M W bool) w :
  (forall a w1, gone_if_true p (k a w1)) -> gone_if_true p (bind m k w).
Proof.
  intros Hk. unfold gone_if_true, bind.
  destruct (m w) as [[a | e] w1 ev1]; simpl; [| discriminate].
  specialize (Hk a w1). unfold gone_if_true in Hk.
  destruct (k a w1) as [r w2 ev2]. exact Hk.
Qed.

Lemma gone_try_except p (m : M W bool) (h : exn -> M W bool) w :
  gone_if_true p (m w) -> (forall e w1, gone_if_true p (h e w1)) ->
  gone_if_true p (try_except m h w).
Proof.
  intros Hm Hh. unfold gone_if_true, try_except in *.
  destruct (m w) as [[a | e] w1 ev1]; simpl in *; [exact Hm |].
  specialize (Hh e w1). destruct (h e w1) as [r w2 ev2]. exact Hh.
Qed.

Lemma gone_ret_false p w : gone_if_true p (ret (W:=W) false w).
Proof. intros Hr. discriminate. Qed.

(** [file_path.unlink(); print_success(...); return True] *)
Lemma gone_unlink_block p t a w :
  unlink_removes p ->
  gone_if_true p ((unlink p ;; print_success t a ;; ret true) w).
Proof.
  intros Hlaw. unfold gone_if_true. unfold_ops. unfold_monad.
  destruct (fs_unlink p w) as [[[] | e] w1] eqn:Hu; simpl; [| discriminate].
  intros _. exact (Hlaw w w1 Hu).
Qed.

Lemma gone_unlink_or_pass p t w :
  unlink_removes p -> gone_if_true p (unlink_or_pass p t w).
Proof.
  intros Hlaw. unfold unlink_or_pass. apply gone_try_except.
  - apply gone_unlink_block. exact Hlaw.
  - intros e w1. apply gone_ret_false.
Qed.

(** [deleted = m(); if deleted: return True; ...k] *)
Lemma gone_or_else p (m k : M W bool) w :
  gone_if_true p (m w) -> (forall w1, gone_if_true p (k w1)) ->
  gone_if_true p ((let* deleted := m in if deleted then ret true else k) w).
Proof.
  intros Hm Hk. unfold gone_if_true, bind in *.
  destruct (m w) as [[deleted | e] w1 ev1]; simpl in *; [| discriminate].
  destruct deleted; simpl; [exact Hm |].
  specialize (Hk w1). destruct (k w1) as [r w2 ev2]. exact Hk.
Qed.

(** A forced command counts only when the path is seen to be gone. *)
Lemma gone_seen_absent p t a w :
  gone_if_true p
    ((let* present := path_exists p in
      if negb present then print_success t a ;; ret true else ret false) w).
Proof.
  unfold gone_if_true. rewrite bind_path_exists.
  destruct (fs_exists p w) as [[|] | e] eqn:Hp; simpl;
    [discriminate | intros _; exact Hp | discriminate].
Qed.

Lemma gone_try_methods p methods w : gone_if_true p (try_methods p methods w).
Proof.
  revert w. induction methods as [| m rest IH]; intros w; simpl.
  - apply gone_ret_false.
  - apply gone_or_else; [| exact IH].
    apply gone_try_except.
    + apply gone_bind. intros _ w1. apply gone_bind. intros _ w2.
      apply gone_seen_absent.
    + intros e w1. apply gone_bind. intros _ w2. apply gone_ret_false.
Qed.

Lemma gone_final_retry p w : unlink_removes p -> gone_if_true p (final_retry p w).
Proof.
  intros Hlaw. unfold final_retry.
  apply gone_bind. intros _ w1. apply gone_bind. intros _ w2.
  apply gone_try_except.
  - apply gone_unlink_block. exact Hlaw.
  - intros e w3. repeat (apply gone_bind; intros _ ?). apply gone_ret_false.
Qed.

Lemma gone__windows_force_delete p w :
  unlink_removes p -> gone_if_true p (_windows_force_delete p w).
Proof.
  intros Hlaw. unfold _windows_force_delete. apply gone_or_else.
  - apply gone_try_methods.
  - intros w1. apply gone_final_retry. exact Hlaw.
Qed.

Lemma gone__unix_force_delete p w :
  unlink_removes p -> gone_if_true p (_unix_force_delete p w).
Proof.
  intros Hlaw. unfold _unix_force_delete. apply gone_try_except.
  - apply gone_bind. intros _ w1. apply gone_unlink_block. exact Hlaw.
  - intros e w1. apply gone_bind. intros _ w2. apply gone_ret_false.
Qed.

Lemma gone_kill_holders_and_retry p w :
  unlink_removes p -> gone_if_true p (kill_holders_and_retry p w).
Proof.
  intros Hlaw. unfold kill_holders_and_retry.
  destruct on_windows; [| apply gone_ret_false].
  apply gone_bind. intros l w1. destruct l; [apply gone_ret_false |].
  repeat (apply gone_bind; intros _ ?). apply gone_unlink_or_pass. exact Hlaw.
Qed.

Lemma gone__force_delete_file p w :
  unlink_removes p -> gone_if_true p (_force_delete_file p w).
Proof.
  intros Hlaw. unfold _force_delete_file.
  apply gone_bind. intros _ w1. apply gone_or_else.
  - apply gone_unlink_or_pass. exact Hlaw.
  - intros w2. apply gone_bind. intros _ w3. apply gone_or_else.
    + apply gone_kill_holders_and_retry. exact Hlaw.
    + intros w4. destruct on_windows;
        [apply gone__windows_force_delete | apply gone__unix_force_delete];
        exact Hlaw.
Qed.

(** X3.  [safe_delete_file] answers [True] only for a file that was there
    when it was called, and -- granted that an [unlink] that returns leaves
    no file behind -- the file is gone when it answers [True], whichever
    step of the ladder removed it. *)
Theorem safe_delete_file_true_means_gone (p : path) (force_mode : bool) (w : W) :
  unlink_removes p ->
  result (safe_delete_file p force_mode w) = Returned true ->
  fs_exists p w = Returned true /\
  fs_exists p (final (safe_delete_file p force_mode w)) = Returned false.
Proof.
  intros Hlaw Hr. split.
  - destruct (fs_exists p w) as [[|] | e] eqn:Hp; [reflexivity | |].
    + rewrite (safe_delete_file_missing p force_mode w Hp) in Hr. discriminate.
    + rewrite (safe_delete_file_denied p force_mode w e Hp) in Hr. discriminate.
  - revert Hr. change (gone_if_true p (safe_delete_file p force_mode w)).
    unfold safe_delete_file. apply gone_bind. intros present w1.
    destruct present; simpl; [| apply gone_ret_false].
    apply gone_bind. intros _ w2. apply gone_try_except.
    + apply gone_unlink_block. exact Hlaw.
    + intros e w3. unfold on_delete_error.
      assert (Hother : forall w',
                gone_if_true p
                  ((print_error "删除失败: {} - {}" [APath p; AExn e] ;;
                    ret false) w')).
      { intros w'. apply gone_bind. intros _ w4. apply gone_ret_false. }
      destruct e as [errno | |]; try apply Hother.
      destruct (errno_in_13_32 errno); [| apply Hother].
      do 2 (apply gone_bind; intros _ ?).
      destruct force_mode; apply gone_bind; intros _ ?.
      * apply gone__force_delete_file. exact Hlaw.
      * apply gone_ret_false.
Qed.

(** *** The command lines of a run *)

Lemma commands_app ev1 ev2 : commands (ev1 ++ ev2) = (commands ev1 ++ commands ev2)%list.
Proof. apply omap_app. Qed.

Lemma commands_printed {A} (f : A -> event) (l : list A) :
  (forall x, command_of (f x) = None) -> commands (List.map f l) = [].
Proof.
  intros Hf. induction l as [| x rest IH]; simpl; [reflexivity |].
  unfold commands in *. simpl. rewrite Hf. exact IH.
Qed.

(** A loop whose iterations return and issue known command lines. *)
Lemma commands_for_in {A} (xs : list A) (body : A -> unit -> M W unit)
  (c : A -> command) :
  (forall x w, result (body x tt w) = Returned tt /\
               commands (events (body x tt w)) = [c x]) ->
  forall w, result (for_in xs body tt w) = Returned tt /\
            commands (events (for_in xs body tt w)) = List.map c xs.
Proof.
  intros Hbody. induction xs as [| x rest IH]; intros w; simpl.
  - split; reflexivity.
  - unfold bind. destruct (Hbody x w) as [Hr Hc].
    destruct (body x tt w) as [[[] | e] w1 ev1]; simpl in *; [| discriminate].
    destruct (IH w1) as [Hr' Hc'].
    destruct (for_in rest body tt w1) as [r w2 ev2]. simpl in *.
    rewrite commands_app, Hc, Hc'. split; [exact Hr' | reflexivity].
Qed.

Lemma kill_run processes w :
  result (_kill_occupying_processes processes w) = Returned tt /\
  commands (events (_kill_occupying_processes processes w)) =
  List.map (kill_command on_windows) processes.
Proof.
  unfold _kill_occupying_processes. apply commands_for_in.
  intros proc w0. unfold kill_command.
  unfold try_except, bind, run_command, print_info, print_warning, print.
  destruct on_windows.
  - destruct (subprocess_run (Taskkill (pid proc)) w0) as [[[] | e] w1];
      split; reflexivity.
  - destruct (subprocess_run (KillKILL (pid proc)) w0) as [[[] | e] w1];
      split; reflexivity.
Qed.

(** X4.  [_kill_occupying_processes] issues one kill command for each
    process of its list, in the order of the list, whether or not the
    commands before it could be started, and it never raises. *)
Theorem kill_every_holder (processes : list process) (w : W) :
  result (_kill_occupying_processes processes w) = Returned tt /\
  commands (events (_kill_occupying_processes processes w)) =
  List.map (kill_command on_windows) processes.
Proof. apply kill_run. Qed.

Lemma unlink_or_pass_commands p t w :
  commands (events (unlink_or_pass p t w)) = [].
Proof.
  unfold unlink_or_pass, try_except, bind, unlink, print_success, print, ret.
  destruct (fs_unlink p w) as [[[] | e] w1]; reflexivity.
Qed.

(** X5.  The third step of the ladder kills exactly the processes that
    holder discovery reported for the file, in the reported order, and only
    on Windows; when no holder is reported nothing is killed, no two-second
    wait is made and no retry is attempted. *)
Theorem only_reported_holders_are_killed (p : path) (w : W) :
  (on_windows = true ->
   commands (events (kill_holders_and_retry p w)) =
   List.map (fun proc => Taskkill (pid proc))
     (fst (find_processes_using_file p w))) /\
  (on_windows = true -> fst (find_processes_using_file p w) = [] ->
   kill_holders_and_retry p w =
   Run (Returned false) (snd (find_processes_using_file p w))
     [Called (CFindProcesses p)]) /\
  (on_windows = false ->
   kill_holders_and_retry p w = Run (Returned false) w []).
Proof.
  unfold kill_holders_and_retry. split; [| split]; intros Hnt; rewrite Hnt.
  - unfold bind at 1, find_processes.
    destruct (find_processes_using_file p w) as [l w1]. simpl.
    destruct l as [| proc rest]; [reflexivity |].
    unfold bind at 1. unfold print_info at 1, print at 1.
    unfold bind at 1. rewrite print_each_run.
    unfold bind at 1.
    destruct (kill_run (proc :: rest) w1) as [Hr Hc]. rewrite Hnt in Hc.
    destruct (_kill_occupying_processes (proc :: rest) w1)
      as [[[] | e] w2 ev2]; simpl in Hr; [| discriminate].
    unfold bind at 1, sleep.
    pose proof (unlink_or_pass_commands p "终止占用进程后删除成功: {}"
                  (time_sleep 2 w2)) as Hu.
    destruct (unlink_or_pass p _ (time_sleep 2 w2)) as [r w3 ev3].
    simpl in *.
    change (Called (CSleep 2) :: ev3) with ([Called (CSleep 2)] ++ ev3)%list.
    rewrite !commands_app, Hc, Hu.
    rewrite commands_printed by reflexivity.
    simpl. rewrite app_nil_r. reflexivity.
  - intros Hnone. unfold bind, find_processes.
    destruct (find_processes_using_file p w) as [l w1]. simpl in *.
    subst l. reflexivity.
  - reflexivity.
Qed.

(** *** The forced commands *)

(** One turn of the loop over the methods: the command line is issued once,
    and nothing is raised, the existence check being inside the [try]. *)
Lemma method_step p (m : method) w :
  exists deleted w1 ev1,
    try_except
      (print_info "尝试使用 {} 删除文件..." [AStr (method_name m)] ;;
       run_command (method_command m) ;;
       let* present := path_exists p in
       if negb present then
         print_success "使用 {} 强制删除成功: {}" [AStr (method_name m); APath p] ;;
         ret true
       else ret false)
      (fun e =>
         print_warning "{} 失败: {}" [AStr (method_name m); AExn e] ;;
         ret false) w = Run (Returned deleted) w1 ev1 /\
    commands ev1 = [method_command m].
Proof.
  unfold_ops. unfold_monad. simpl.
  destruct (subprocess_run (method_command m) w) as [[[] | e] w1]; simpl.
  - destruct (fs_exists p w1) as [[|] | e]; simpl; eauto 10.
  - eauto 10.
Qed.

Lemma try_methods_commands p methods w :
  exists deleted,
    result (try_methods p methods w) = Returned deleted /\
    commands (events (try_methods p methods w))
      `prefix_of` List.map method_command methods /\
    (deleted = false ->
     commands (events (try_methods p methods w)) = List.map method_command methods).
Proof.
  revert w. induction methods as [| m rest IH]; intros w; simpl.
  - exists false. repeat split; reflexivity.
  - destruct (method_step p m w) as (deleted & w1 & ev1 & Hstep & Hc).
    rewrite (bind_after _ _ _ _ _ _ Hstep). destruct deleted.
    + exists true. unfold after. simpl. rewrite app_nil_r, Hc.
      repeat split; [| discriminate].
      exists (List.map method_command rest). reflexivity.
    + destruct (IH w1) as (deleted & Hr & Hpre & Hall).
      exists deleted. unfold after. simpl. rewrite commands_app, Hc. simpl.
      repeat split.
      * exact Hr.
      * apply prefix_cons. exact Hpre.
      * intros Hd. rewrite (Hall Hd). reflexivity.
Qed.

Lemma try_methods_never_sleeps p methods :
  always (fun ev => forall n, ev <> Called (CSleep n)) (try_methods p methods).
Proof.
  induction methods as [| m rest IH]; simpl; always_auto;
    intros; discriminate.
Qed.


(** *** What the tree cleaner asks of the outside *)

Lemma forall_bind {A B} P (m : M W A) (k : A -> M W B) w :
  Forall P (events (m w)) -> (forall a w1, Forall P (events (k a w1))) ->
  Forall P (events (bind m k w)).
Proof.
  intros Hm Hk. unfold bind.
  destruct (m w) as [[a | e] w1 ev1]; simpl in *; [| exact Hm].
  specialize (Hk a w1). destruct (k a w1) as [r w2 ev2]. simpl in *.
  apply Forall_app. split; assumption.
Qed.

Lemma always_for_in_mem {A S} P (xs : list A) (body : A -> S -> M W S) acc :
  (forall x a, In x xs -> always P (body x a)) -> always P (for_in xs body acc).
Proof.
  revert acc. induction xs as [| x rest IH]; intros acc Hbody; simpl.
  - apply always_ret.
  - apply always_bind; [apply Hbody; left; reflexivity |].
    intros a. apply IH. intros y b Hy. apply Hbody. right. exact Hy.
Qed.

Lemma always_try_for_in_mem {A S} P (xs : list A) (body : A -> S -> M W S) acc :
  (forall x a, In x xs -> always P (body x a)) ->
  always P (try_for_in xs body acc).
Proof.
  revert acc. induction xs as [| x rest IH]; intros acc Hbody w; simpl.
  - constructor.
  - pose proof (Hbody x acc (or_introl eq_refl) w) as Hx.
    destruct (body x acc w) as [[acc' | e] w1 ev1]; simpl in *; [| exact Hx].
    assert (Hrest : forall y b, In y rest -> always P (body y b))
      by (intros y b Hy; apply Hbody; right; exact Hy).
    specialize (IH acc' Hrest w1).
    destruct (try_for_in rest body acc' w1) as [r w2 ev2]. simpl in *.
    apply Forall_app. split; assumption.
Qed.

Lemma try_for_iterdir_events {S} P p (body : path -> S -> M W S) acc w entries err :
  fs_iterdir p w = (entries, err) ->
  P (Called (CIterdir p)) ->
  (forall x a, In x entries -> always P (body x a)) ->
  Forall P (events (try_for_iterdir p body acc w)).
Proof.
  intros Hit Hp Hbody. unfold try_for_iterdir. rewrite Hit.
  pose proof (always_try_for_in_mem P entries body acc Hbody w) as Hloop.
  unfold bind, called. simpl.
  destruct (try_for_in entries body acc w) as [[[acc' o] | e] w1 ev1];
    simpl in *.
  - destruct o; simpl; constructor; try assumption;
      rewrite app_nil_r; assumption.
  - constructor; assumption.
Qed.

Lemma name_joinpath d n : name (d // n) = n.
Proof. unfold name, joinpath. apply last_last. Qed.

Lemma parent_joinpath d n : parent (d // n) = d.
Proof. unfold parent, joinpath. apply removelast_last. Qed.

Lemma storage_of_deleter nt (D : path -> Prop) d n ev :
  D d -> In n TARGET_FILES ->
  deleter_event nt (d // n) ev -> storage_event nt D ev.
Proof.
  intros Hd Hn Hev. destruct ev as [c | lv m]; [| exact I].
  destruct c; simpl in *; try exact I; try contradiction;
    exists d, n; (split; [| split]); assumption.
Qed.

Lemma delete_targets_calls (D : path -> Prop) d force_mode {S}
  (update : bool -> S -> S) acc :
  D d ->
  always (storage_event on_windows D)
    (for_in TARGET_FILES
       (fun file_name a =>
          let file_path := d // file_name in
          let* deleted := safe_delete_file file_path force_mode in
          ret (update deleted a)) acc).
Proof.
  intros Hd. apply always_for_in_mem. intros n a Hn. cbv zeta.
  apply always_bind; [| intros b; apply always_ret].
  eapply always_weaken; [apply safe_delete_file_calls |].
  intros ev. apply storage_of_deleter; assumption.
Qed.

Lemma _clean_global_storage_calls dir force_mode :
  always (storage_event on_windows (eq dir)) (_clean_global_storage dir force_mode).
Proof.
  unfold _clean_global_storage.
  apply always_bind; [apply always_print; exact I | intros _].
  apply always_bind; [apply always_path_exists; exact I | intros present].
  destruct (negb present); [always_auto |].
  apply always_bind; [| intros n; always_auto].
  apply (delete_targets_calls (eq dir) dir force_mode
           (fun (deleted : bool) n => if deleted then n + 1 else n)).
  reflexivity.
Qed.

Lemma sweep_workspace_calls (D : path -> Prop) force_mode dir acc :
  D dir -> always (storage_event on_windows D) (sweep_workspace force_mode dir acc).
Proof.
  intros Hd. unfold sweep_workspace.
  apply always_bind; [apply always_is_dir; exact I | intros d].
  destruct d; [| apply always_ret].
  apply always_bind; [apply always_print; exact I | intros _].
  apply always_bind; [| intros c; always_auto].
  apply (delete_targets_calls D dir force_mode
           (fun (deleted : bool) (counts : Z * Z) =>
              if deleted then (fst counts + 1, snd counts + 1) else counts)).
  exact Hd.
Qed.

Lemma storage_event_targets nt (D : path -> Prop) ev :
  storage_event nt D ev ->
  beyond_files ev = false /\
  forall q, target_of ev = Some q ->
            exists d n, D d /\ In n TARGET_FILES /\ q = d // n.
Proof.
  intros Hev. destruct ev as [c | lv m]; [| split; [reflexivity | discriminate]].
  destruct c as [| | | | | | | [] | | | | |]; simpl in Hev |- *;
    try (split; [reflexivity | discriminate]);
    destruct Hev as (d & n & Hd & Hn & Hev); simpl in Hev;
    try contradiction;
    (split; [reflexivity |]); try discriminate;
    intros q Hq; injection Hq as <-; exists d, n;
    intuition (subst; auto).
Qed.

(** X7.  The sweep of the global storage directory deletes, force-deletes
    or changes the mode of nothing but the files [state.vscdb] and
    [state.vscdb.backup] directly inside that directory; it removes no tree
    and touches no backup or manifest. *)
Theorem global_storage_touches_only_target_files (dir : path)
  (force_mode : bool) (w : W) :
  Forall (fun ev => beyond_files ev = false /\
                    forall q, target_of ev = Some q ->
                              q = dir // "state.vscdb" \/
                              q = dir // "state.vscdb.backup")
    (events (_clean_global_storage dir force_mode w)).
Proof.
  eapply Forall_impl; [apply (_clean_global_storage_calls dir force_mode w) |].
  intros ev Hev. apply storage_event_targets in Hev as [Hb Ht].
  split; [exact Hb |]. intros q Hq.
  destruct (Ht q Hq) as (d & n & <- & Hn & ->).
  destruct Hn as [<- | [<- | []]]; auto.
Qed.

(** X8.  The sweep of the workspaces touches only files named
    [state.vscdb] or [state.vscdb.backup] that lie directly inside an entry
    the listing of the workspace-storage root yielded: nothing in the root
    itself, nothing deeper, and no tree, backup or manifest. *)
Theorem workspace_sweep_touches_only_target_files (p : path) (force_mode : bool)
  (w : W) (entries : list path) (err : option exn) :
  fs_iterdir p w = (entries, err) ->
  Forall (fun ev => beyond_files ev = false /\
                    forall q, target_of ev = Some q ->
                              exists d n, In d entries /\ In n TARGET_FILES /\
                                          q = d // n)
    (events (_clean_workspace_storage p force_mode w)).
Proof.
  intros Hit.
  eapply Forall_impl;
    [| intros ev Hev;
       exact (storage_event_targets on_windows (fun d => In d entries) ev Hev)].
  unfold _clean_workspace_storage.
  rewrite (bind_after (print_info _ _) _ w tt w _ eq_refl).
  rewrite bind_path_exists.
  destruct (fs_exists p w) as [present | e0]; unfold after; simpl;
    do 2 (constructor; [exact I |]); [| constructor].
  destruct present; simpl; [| repeat constructor].
  apply forall_bind.
  - apply (try_for_iterdir_events _ p _ _ w entries err Hit); [exact I |].
    intros x a Hx. apply sweep_workspace_calls. exact Hx.
  - intros [acc o] w1. destruct o; unfold_ops; unfold_monad; simpl;
      repeat constructor.
Qed.

(** *** How much a sweep can count *)

Lemma post_consequence {A} (P P' : A -> Prop) (Q Q' : exn -> Prop) (m : M W A) :
  post P Q m -> (forall a, P a -> P' a) -> (forall e, Q e -> Q' e) ->
  post P' Q' m.
Proof.
  intros Hm HP HQ w. specialize (Hm w). destruct (result (m w)); auto.
Qed.

(** A loop whose iterations each add between zero and [c] to a measure of
    the local variables. *)
Lemma post_for_in_measure {A S} (f : S -> Z) (c : Z) Q (xs : list A)
  (body : A -> S -> M W S) :
  0 <= c ->
  (forall x acc, post (fun acc' => f acc <= f acc' <= f acc + c) Q (body x acc)) ->
  forall acc,
    post (fun acc' => f acc <= f acc' <= f acc + c * Z.of_nat (length xs)) Q
      (for_in xs body acc).
Proof.
  intros Hc Hbody. induction xs as [| x rest IH]; intros acc; simpl length.
  - apply post_ret. simpl. lia.
  - simpl for_in. eapply post_bind; [apply Hbody |].
    intros a Ha. eapply post_consequence; [apply IH | | auto].
    intros a' Ha'. cbv beta in *. rewrite Nat2Z.inj_succ. nia.
Qed.

Lemma returns_try_for_in_measure {A S} (f : S -> Z) (c : Z) (xs : list A)
  (body : A -> S -> M W S) :
  0 <= c ->
  (forall x acc,
     post (fun acc' => f acc <= f acc' <= f acc + c) anything (body x acc)) ->
  forall acc,
    returns (fun r => f acc <= f (fst r) <= f acc + c * Z.of_nat (length xs))
      (try_for_in xs body acc).
Proof.
  intros Hc Hbody. induction xs as [| x rest IH]; intros acc w; simpl length.
  - simpl. lia.
  - simpl try_for_in. specialize (Hbody x acc w). rewrite Nat2Z.inj_succ.
    destruct (body x acc w) as [[acc' | e] w1 ev1]; simpl in *.
    + specialize (IH acc' w1).
      destruct (try_for_in rest body acc' w1) as [[r | e] w2 ev2]; simpl in *;
        [nia | contradiction].
    + nia.
Qed.

Lemma delete_targets_count {S} (f : S -> Z) Q d force_mode
  (update : bool -> S -> S) acc :
  exists_raises Q ->
  (forall b a, f a <= f (update b a) <= f a + 1) ->
  post (fun acc' => f acc <= f acc' <= f acc + 2) Q
    (for_in TARGET_FILES
       (fun file_name a =>
          let file_path := d // file_name in
          let* deleted := safe_delete_file file_path force_mode in
          ret (update deleted a)) acc).
Proof.
  intros HQ Hupdate.
  eapply post_consequence;
    [apply (post_for_in_measure f 1 Q TARGET_FILES); [lia |] | | auto].
  - intros n a. cbv zeta. eapply (post_bind anything).
    + apply safe_delete_file_post. exact HQ.
    + intros b _. apply post_ret. apply Hupdate.
  - intros a Ha. simpl in Ha. lia.
Qed.

Lemma sweep_workspace_count force_mode dir acc :
  post (fun acc' => total_deleted acc <= total_deleted acc'
                    <= total_deleted acc + 2) anything
    (sweep_workspace force_mode dir acc).
Proof.
  unfold sweep_workspace.
  eapply (post_bind anything); [apply post_is_dir; intros; exact I |].
  intros d _. destruct d; [| apply post_ret; lia].
  eapply (post_bind anything); [apply post_print; exact I |]. intros _ _.
  eapply post_bind.
  - apply (delete_targets_count (fun counts : Z * Z => snd counts) anything dir
             force_mode
             (fun (deleted : bool) (counts : Z * Z) =>
                if deleted then (fst counts + 1, snd counts + 1) else counts));
      [exact exists_raises_anything |].
    intros [] a; simpl; lia.
  - intros counts Hcounts. apply post_ret. simpl in *. exact Hcounts.
Qed.

Lemma _clean_global_storage_count Q dir force_mode :
  exists_raises Q ->
  post (fun n => 0 <= n <= 2) Q (_clean_global_storage dir force_mode).
Proof.
  intros HQ. unfold _clean_global_storage.
  eapply (post_bind anything); [apply post_print; exact I | intros _ _].
  eapply (post_bind anything);
    [apply post_path_exists; [exact HQ | intros; exact I] | intros present _].
  destruct present; cbn [negb].
  - eapply post_bind.
    + apply (delete_targets_count (fun n : Z => n) Q dir force_mode
               (fun (deleted : bool) n => if deleted then n + 1 else n) 0 HQ).
      intros [] a; lia.
    + intros n Hn. cbv beta in Hn.
      eapply (post_bind anything); [apply post_print; exact I | intros _ _].
      apply post_ret. lia.
  - eapply (post_bind anything); [apply post_print; exact I | intros _ _].
    apply post_ret. lia.
Qed.

Lemma _clean_global_storage_missing dir force_mode w :
  fs_exists dir w = Returned false ->
  _clean_global_storage dir force_mode w =
  Run (Returned 0) w
    [ Printed Info (Msg "清理 globalStorage..." []); Called (CExists dir);
      Printed Error (Msg "globalStorage 目录不存在: {}" [APath dir]) ].
Proof.
  intros Hp. unfold _clean_global_storage.
  rewrite (bind_after (print_info _ _) _ w tt w _ eq_refl).
  rewrite bind_path_exists, Hp. reflexivity.
Qed.

Lemma _clean_global_storage_denied dir force_mode w e :
  fs_exists dir w = Raised e ->
  _clean_global_storage dir force_mode w =
  Run (Raised e) w
    [ Printed Info (Msg "清理 globalStorage..." []); Called (CExists dir) ].
Proof.
  intros Hp. unfold _clean_global_storage.
  rewrite (bind_after (print_info _ _) _ w tt w _ eq_refl).
  rewrite bind_path_exists, Hp. reflexivity.
Qed.


Lemma try_for_iterdir_measure {S} (f : S -> Z) (c : Z) p
  (body : path -> S -> M W S) acc w entries err :
  fs_iterdir p w = (entries, err) ->
  0 <= c ->
  (forall x a, post (fun a' => f a <= f a' <= f a + c) anything (body x a)) ->
  exists acc' o w1 ev,
    try_for_iterdir p body acc w = Run (Returned (acc', o)) w1 ev /\
    f acc <= f acc' <= f acc + c * Z.of_nat (length entries).
Proof.
  intros Hit Hc Hbody. unfold try_for_iterdir. rewrite Hit.
  pose proof (returns_try_for_in_measure f c entries body Hc Hbody acc w) as Hloop.
  unfold bind, called. simpl in *.
  destruct (try_for_in entries body acc w) as [[[acc' o] | e] w1 ev1];
    simpl in *; [| contradiction].
  destruct o; simpl; eauto 10.
Qed.

(** X10.  A sweep of the workspaces whose root has been looked for and
    whose listing yields [entries] returns at most two for each entry, and
    never less than zero -- also when an iteration raises: no file is counted
    twice and nothing outside the listed entries is counted. *)
Theorem workspace_sweep_count (p : path) (force_mode : bool) (w : W)
  (entries : list path) (err : option exn) (present : bool) :
  fs_exists p w = Returned present ->
  fs_iterdir p w = (entries, err) ->
  exists n,
    result (_clean_workspace_storage p force_mode w) = Returned n /\
    0 <= n <= 2 * Z.of_nat (length entries).
Proof.
  intros Hp Hit. unfold _clean_workspace_storage.
  rewrite (bind_after (print_info _ _) _ w tt w _ eq_refl).
  rewrite bind_path_exists, Hp.
  destruct present; simpl; [| exists 0; split; [reflexivity | lia]].
  destruct (try_for_iterdir_measure total_deleted 2 p
              (sweep_workspace force_mode) (Sweep 0 0) w entries err Hit
              ltac:(lia)
              (fun x acc => sweep_workspace_count force_mode x acc))
    as (acc & o & w1 & ev & Hrun & Hbound).
  rewrite (bind_after _ _ _ _ _ _ Hrun). simpl in Hbound.
  destruct o as [e |].
  - exists 0. split; [reflexivity | lia].
  - exists (total_deleted acc). split; [reflexivity | lia].
Qed.

(** *** The removal of marked extensions *)

Lemma remove_extension_calls force_mode item n :
  always (fun ev => extension_event force_mode ev /\
                    forall q b, ev = Called (CRmtree q b) -> q = item)
    (remove_extension force_mode item n).
Proof.
  unfold remove_extension.
  apply always_bind;
    [apply always_is_dir; split; [exact I | discriminate] | intros d].
  destruct (d && contains marker (lower (name item))) eqn:Hc;
    [| apply always_ret].
  apply andb_true_iff in Hc as [_ Hm].
  destruct force_mode; always_auto;
    (split; [simpl; auto | intros; congruence]).
Qed.

(** X11.  The cleaner of the extensions directory removes nothing but
    directories that its listing yielded and whose lower-cased name contains
    the marker; it removes them with [shutil.rmtree], ignoring errors exactly
    in force mode, and makes no other change: no [unlink], no command line,
    no backup, no manifest access. *)
Theorem only_marked_extensions_are_removed (p : path) (force_mode : bool)
  (w : W) (entries : list path) (err : option exn) :
  fs_iterdir p w = (entries, err) ->
  Forall (fun ev => extension_event force_mode ev /\
                    forall q b, ev = Called (CRmtree q b) -> In q entries)
    (events (_clean_profile_extensions p force_mode w)).
Proof.
  intros Hit. unfold _clean_profile_extensions.
  rewrite (bind_after (print_info _ _) _ w tt w _ eq_refl).
  rewrite bind_path_exists.
  destruct (fs_exists p w) as [present | e0]; unfold after; simpl;
    do 2 (constructor; [split; [exact I | discriminate] |]); [| constructor].
  destruct present; simpl;
    [| repeat constructor; discriminate].
  apply forall_bind.
  - apply (try_for_iterdir_events _ p _ _ w entries err Hit);
      [split; [exact I | discriminate] |].
    intros x n Hx.
    eapply always_weaken; [apply remove_extension_calls |].
    intros ev [Hev Hq]. split; [exact Hev |].
    intros q b Heq. rewrite (Hq q b Heq). exact Hx.
  - intros r w1. destruct (snd r); unfold_ops; unfold_monad; simpl;
      destruct (0 <? fst r); simpl; repeat constructor; discriminate.
Qed.

Lemma remove_extension_forced item n w :
  exists ev,
    remove_extension true item n w =
    match fs_is_dir item w with
    | Raised e => Run (Raised e) w ev
    | Returned d =>
        if d && contains marker (lower (name item)) then
          match shutil_rmtree item true w with
          | (Returned _, w1) => Run (Returned (n + 1)) w1 ev
          | (Raised _, w1) => Run (Returned n) w1 ev
          end
        else Run (Returned n) w ev
    end.
Proof.
  unfold remove_extension. unfold_ops. unfold_monad.
  destruct (fs_is_dir item w) as [d | e]; [| eauto].
  destruct (d && contains marker (lower (name item))); simpl; [| eauto].
  destruct (shutil_rmtree item true w) as [[[] | e] w1]; simpl; eauto.
Qed.

Lemma forced_loop_count entries n w :
  exists o w1 ev,
    try_for_in entries (remove_extension true) n w =
    Run (Returned (n + marked_directories entries w, o)) w1 ev.
Proof.
  revert n w. induction entries as [| item rest IH]; intros n w; simpl.
  - rewrite Z.add_0_r. unfold ret. eauto.
  - destruct (remove_extension_forced item n w) as [ev Hstep]. rewrite Hstep.
    destruct (fs_is_dir item w) as [d | e].
    2:{ rewrite Z.add_0_r. eauto. }
    destruct (d && contains marker (lower (name item))).
    + destruct (shutil_rmtree item true w) as [[[] | e] w0].
      * destruct (IH (n + 1) w0) as (o & w1 & ev1 & Hrest). rewrite Hrest.
        replace (n + 1 + marked_directories rest w0)
          with (n + (1 + marked_directories rest w0)) by lia.
        eauto.
      * destruct (IH n w0) as (o & w1 & ev1 & Hrest). rewrite Hrest. eauto.
    + destruct (IH n w) as (o & w1 & ev1 & Hrest). rewrite Hrest. eauto.
Qed.

(** The listing and its loop: an exception of an iteration goes before the
    one the listing ended with. *)
Lemma try_for_iterdir_loop {S} p (body : path -> S -> M W S) acc w entries err
  acc' o w1 ev :
  fs_iterdir p w = (entries, err) ->
  try_for_in entries body acc w = Run (Returned (acc', o)) w1 ev ->
  try_for_iterdir p body acc w =
  Run (Returned (acc', match o with Some e => Some e | None => err end)) w1
    (Called (CIterdir p) :: ev).
Proof.
  intros Hit Hloop. unfold try_for_iterdir. rewrite Hit.
  unfold bind, called. simpl. rewrite Hloop.
  destruct o; simpl; rewrite app_nil_r; reflexivity.
Qed.

(** X12.  In force mode the cleaner of an extensions directory that is
    there returns the number of listed directories with the marker in their
    name whose [shutil.rmtree] returned, whether or not the removal left
    anything behind.  A removal that raises is passed over without being
    counted; an [is_dir()] that raises ends the count; and when the listing
    or an iteration ended with an exception the count of the entries seen so
    far is kept, not reset to zero. *)
Theorem forced_extension_count (p : path) (w : W) (entries : list path)
  (err : option exn) :
  fs_exists p w = Returned true ->
  fs_iterdir p w = (entries, err) ->
  result (_clean_profile_extensions p true w) =
  Returned (marked_directories entries w).
Proof.
  intros Hp Hit. unfold _clean_profile_extensions.
  rewrite (bind_after (print_info _ _) _ w tt w _ eq_refl).
  rewrite bind_path_exists, Hp. cbn [negb].
  destruct (forced_loop_count entries 0 w) as (o & w1 & ev & Hloop).
  rewrite Z.add_0_l in Hloop.
  rewrite (bind_after _ _ _ _ _ _
             (try_for_iterdir_loop p _ 0 w entries err _ o w1 ev Hit Hloop)).
  simpl. unfold_ops. unfold_monad.
  destruct (match o with Some e => Some e | None => err end); simpl;
    destruct (0 <? marked_directories entries w); reflexivity.
Qed.

(** *** The records of a manifest *)

Lemma filter_partition_permutation {A} (f : A -> bool) (l : list A) :
  Permutation l (List.filter (fun x => negb (f x)) l ++ List.filter f l).
Proof.
  induction l as [| x rest IH]; simpl; [constructor |].
  destruct (f x); simpl.
  - apply Permutation_cons_app. exact IH.
  - constructor. exact IH.
Qed.

Lemma filter_all {A} (f : A -> bool) l :
  Forall (fun x => f x = true) l -> List.filter f l = l.
Proof.
  induction 1 as [| x l Hx _ IH]; simpl; [reflexivity |].
  rewrite Hx, IH. reflexivity.
Qed.

Lemma filter_holds {A} (f : A -> bool) l :
  Forall (fun x => f x = true) (List.filter f l).
Proof.
  induction l as [| x rest IH]; simpl; [constructor |].
  destruct (f x) eqn:Hx; [constructor; assumption | exact IH].
Qed.

(** X13.  The loop of the sanitizer loses and invents no record: the kept
    and the removed records together are a rearrangement of the manifest, no
    kept record is marked and every removed one is.  Sanitizing the kept
    list again keeps all of it and removes nothing. *)
Theorem partition_items_conserves (items : list json) :
  let kept := fst (partition_items items [] []) in
  let removed := snd (partition_items items [] []) in
  Permutation items (kept ++ removed) /\
  Forall (fun item => isMarked item = false) kept /\
  Forall (fun item => isMarked item = true) removed /\
  partition_items kept [] [] = (kept, []).
Proof.
  cbv zeta. rewrite partition_items_filter. simpl.
  assert (Hkept : Forall (fun item => isMarked item = false)
                    (List.filter (fun item => negb (isMarked item)) items)).
  { eapply Forall_impl; [apply filter_holds |].
    intros item Hitem. simpl in Hitem. apply negb_true_iff. exact Hitem. }
  repeat split.
  - apply filter_partition_permutation.
  - exact Hkept.
  - apply filter_holds.
  - rewrite partition_items_filter. simpl.
    rewrite (filter_none _ _ Hkept). f_equal. apply filter_all.
    eapply Forall_impl; [exact Hkept |].
    intros item Hitem. simpl in Hitem. rewrite Hitem. reflexivity.
Qed.

(** X14.  When the manifest has marked records, the answer of the
    sanitizer depends on the write alone: it is one when [json.dump] returns,
    however many records were removed, and zero when [json.dump] raises.  In
    the second case the run ends with the error line and never unlinks
    anything: the backup made before the write is left in place. *)
Theorem sanitizer_answer_follows_the_write (p : path) (force_mode : bool)
  (w w1 w2 : W) (bp : path) (items : list json) (r : outcome unit) :
  create_backup p w = (Returned (Some bp), w1) ->
  json_load p w1 = Returned (JList items) ->
  existsb isMarked items = true ->
  json_dump p (List.filter (fun item => negb (isMarked item)) items) w1 = (r, w2) ->
  final (_clean_extensions_json p force_mode w) = w2 /\
  (r = Returned tt -> result (_clean_extensions_json p force_mode w) = Returned 1) /\
  (forall e, r = Raised e ->
     result (_clean_extensions_json p force_mode w) = Returned 0 /\
     List.last (events (_clean_extensions_json p force_mode w)) (sanitize_banner p)
       = sanitize_error e /\
     Forall (fun ev => forall q, ev <> Called (CUnlink q))
       (events (_clean_extensions_json p force_mode w))).
Proof.
  intros Hb Hl Hsome Hd.
  rewrite (sanitize_rewrites p force_mode w w1 bp items r w2 Hb Hl Hsome Hd).
  cbn [result final events]. split; [reflexivity |]. split.
  - intros ->. reflexivity.
  - intros e ->. split; [reflexivity |]. split.
    + match goal with
      | |- List.last (?a ++ ?b ++ [?x; ?y])%list _ = _ =>
          change (a ++ b ++ [x; y])%list with (a ++ b ++ [x] ++ [y])%list
      end.
      rewrite !app_assoc. apply last_last.
    + apply Forall_app. split; [repeat constructor; discriminate |].
      apply Forall_app. split.
      * apply Forall_forall. intros ev Hev q ->.
        apply list_elem_of_In in Hev.
        exact (removal_lines_printed _ _ Hev).
      * repeat constructor; try discriminate.
        destruct e; discriminate.
Qed.

(** *** The orchestrator *)

Lemma bind_ret_l {A B} (a : A) (k : A -> M W B) w : bind (ret a) k w = k a w.
Proof. unfold bind, ret. destruct (k a w). reflexivity. Qed.

Lemma bind_ret_r {A} (m : M W A) w : bind m ret w = m w.
Proof.
  unfold bind, ret. destruct (m w) as [[a | e] w1 ev1]; [| reflexivity].
  rewrite app_nil_r. reflexivity.
Qed.

Lemma bind_ext {A B} (m : M W A) (k1 k2 : A -> M W B) w :
  (forall a w1, k1 a w1 = k2 a w1) -> bind m k1 w = bind m k2 w.
Proof.
  intros Hk. unfold bind. destruct (m w) as [[a | e] w1 ev1]; [| reflexivity].
  rewrite Hk. reflexivity.
Qed.

Lemma storage_event_files nt D ev :
  storage_event nt D ev -> beyond_files ev = false.
Proof. intros Hev. exact (proj1 (storage_event_targets nt D ev Hev)). Qed.

Lemma _clean_global_storage_files dir force_mode :
  always (fun ev => beyond_files ev = false) (_clean_global_storage dir force_mode).
Proof.
  eapply always_weaken; [apply _clean_global_storage_calls |].
  intros ev. apply storage_event_files.
Qed.

Lemma _clean_workspace_storage_files p force_mode :
  always (fun ev => beyond_files ev = false) (_clean_workspace_storage p force_mode).
Proof.
  eapply (always_weaken (storage_event on_windows (fun _ => True)));
    [| intros ev; apply storage_event_files].
  unfold _clean_workspace_storage.
  apply always_bind; [apply always_print; exact I | intros _].
  apply always_bind; [apply always_path_exists; exact I | intros present].
  destruct (negb present); [always_auto |].
  apply always_bind.
  - apply always_try_for_iterdir; [exact I |].
    intros x a. apply sweep_workspace_calls. exact I.
  - intros [acc o]. destruct o; always_auto.
Qed.

Lemma clean_ide_files_elsewhere_files ide_type force_mode :
  is_VSCODE ide_type = false -> is_VSCODE_INSIDERS ide_type = false ->
  always (fun ev => beyond_files ev = false) (clean_ide_files ide_type force_mode).
Proof.
  intros Hv Hi. unfold clean_ide_files. rewrite Hv, Hi.
  apply always_bind; [apply always_print; reflexivity | intros _].
  apply always_bind; [apply always_ide_paths; reflexivity | intros paths].
  destruct paths as [paths |]; [| always_auto].
  destruct (decide (paths = ∅)); [always_auto |].
  apply always_bind.
  { destruct (paths !! "state_db"); [| apply always_ret].
    apply always_bind; [apply _clean_global_storage_files |].
    intros ?. apply always_ret. }
  intros r. apply always_bind.
  { destruct (fst r); [| apply always_ret].
    apply always_bind; [apply always_path_exists; reflexivity |].
    intros present. destruct present; [| apply always_ret].
    apply always_bind; [apply _clean_workspace_storage_files |].
    intros ?. apply always_ret. }
  intros d1. always_auto.
Qed.

Lemma clean_ide_files_elsewhere_post Q ide_type force_mode :
  exists_raises Q ->
  is_VSCODE ide_type = false -> is_VSCODE_INSIDERS ide_type = false ->
  post (fun d => d !! "history" = Some 0 /\ d !! "profile" = Some 0) Q
    (clean_ide_files ide_type force_mode).
Proof.
  intros HQ Hv Hi. unfold clean_ide_files. rewrite Hv, Hi.
  assert (Hzero : zero_results !! "history" = Some 0 /\
                  zero_results !! "profile" = Some 0) by (split; reflexivity).
  eapply (post_bind anything); [post_auto | intros _ _].
  eapply (post_bind anything); [post_auto | intros paths _].
  destruct paths as [paths |]; [| post_auto; exact Hzero].
  destruct (decide (paths = ∅)); [post_auto; exact Hzero |].
  eapply (post_bind (fun r : option path * gmap string Z =>
                       snd r !! "history" = Some 0 /\
                       snd r !! "profile" = Some 0)).
  { destruct (paths !! "state_db"); [| apply post_ret; exact Hzero].
    eapply (post_bind anything).
    - eapply post_consequence;
        [apply (_clean_global_storage_post Q); exact HQ | intros; exact I | auto].
    - intros ? _. apply post_ret. simpl.
      rewrite !lookup_insert_ne by discriminate. exact Hzero. }
  intros r Hr.
  eapply (post_bind (fun d : gmap string Z =>
                       d !! "history" = Some 0 /\ d !! "profile" = Some 0)).
  { destruct (fst r); [| apply post_ret; exact Hr].
    eapply (post_bind anything);
      [apply post_path_exists; [exact HQ | intros; exact I] |].
    intros present _. destruct present; [| apply post_ret; exact Hr].
    eapply (post_bind anything).
    - eapply post_consequence;
        [apply (_clean_workspace_storage_post Q); exact HQ | intros; exact I
        | auto].
    - intros ? _. apply post_ret.
      rewrite !lookup_insert_ne by discriminate. exact Hr. }
  intros d1 Hd1.
  eapply (post_bind (fun d : gmap string Z =>
                       d !! "history" = Some 0 /\ d !! "profile" = Some 0));
    [apply post_ret; exact Hd1 |]. intros d2 Hd2.
  eapply (post_bind (fun d : gmap string Z =>
                       d !! "history" = Some 0 /\ d !! "profile" = Some 0));
    [apply post_ret; exact Hd2 |]. intros d3 Hd3.
  apply post_ret. exact Hd3.
Qed.


(** X16.  [VSCODE] and [VSCODE_INSIDERS] are cleaned alike: when the
    provider gives the same paths for both, the two cleanups return the same
    summary and leave the machine in the same state. *)
Theorem vscode_and_insiders_alike (force_mode : bool) (w : W) :
  get_ide_paths VSCODE w = get_ide_paths VSCODE_INSIDERS w ->
  result (clean_ide_files VSCODE force_mode w) =
  result (clean_ide_files VSCODE_INSIDERS force_mode w) /\
  final (clean_ide_files VSCODE force_mode w) =
  final (clean_ide_files VSCODE_INSIDERS force_mode w).
Proof.
  intros Hpaths. unfold clean_ide_files.
  rewrite !(bind_after (print_info _ _) _ w tt w _ eq_refl).
  rewrite (bind_after (ide_paths VSCODE) _ w (get_ide_paths VSCODE w) w _ eq_refl).
  rewrite (bind_after (ide_paths VSCODE_INSIDERS) _ w
             (get_ide_paths VSCODE_INSIDERS w) w _ eq_refl).
  rewrite Hpaths. unfold after. cbn [result final].
  destruct (get_ide_paths VSCODE_INSIDERS w) as [paths |]; [| split; reflexivity].
  destruct (decide (paths = ∅)); [split; reflexivity |].
  cbn [is_VSCODE is_VSCODE_INSIDERS].
  match goal with
  | |- result (bind ?m ?k1 w) = result (bind ?m ?k2 w) /\ _ =>
      assert (Hk : bind m k1 w = bind m k2 w)
  end.
  { apply bind_ext. intros r w1. apply bind_ext. intros d1 w2.
    rewrite bind_ret_l. rewrite bind_ret_r.
    transitivity (bind (clean_history_and_profile paths force_mode d1) ret w2).
    - rewrite bind_ret_r. reflexivity.
    - apply bind_ext. intros d2 w3. rewrite bind_ret_l. reflexivity. }
  rewrite Hk. split; reflexivity.
Qed.

Lemma clean_history_and_profile_keeps Q paths force_mode d k v :
  exists_raises Q ->
  k <> "history" -> k <> "profile" -> d !! k = Some v ->
  post (fun d' => d' !! k = Some v) Q
    (clean_history_and_profile paths force_mode d).
Proof.
  intros HQ Hh Hp Hd. unfold clean_history_and_profile.
  eapply (post_bind (fun d' : gmap string Z => d' !! k = Some v)).
  - destruct (paths !! "history") as [history |]; [| apply post_ret; exact Hd].
    eapply (post_bind anything);
      [apply post_path_exists; [exact HQ | intros; exact I] |].
    intros present _. destruct present; [| apply post_ret; exact Hd].
    eapply (post_bind anything).
    + eapply post_consequence;
        [apply (_clean_history_folder_post Q); exact HQ | intros; exact I | auto].
    + intros ? _. apply post_ret.
      rewrite lookup_insert_ne by congruence. exact Hd.
  - intros d' Hd'.
    destruct (paths !! "profile_dir"); [| apply post_ret; exact Hd'].
    eapply (post_bind anything).
    + eapply post_consequence;
        [apply (_clean_profile_directory_post Q); exact HQ | intros; exact I
        | auto].
    + intros ? _. apply post_ret.
      rewrite lookup_insert_ne by congruence. exact Hd'.
Qed.

Lemma clean_ide_files_without_state_db Q ide_type force_mode w paths :
  exists_raises Q ->
  get_ide_paths ide_type w = Some paths ->
  paths !! "state_db" = None ->
  match result (clean_ide_files ide_type force_mode w) with
  | Returned d => d !! "globalStorage" = Some 0 /\ d !! "workspaceStorage" = Some 0
  | Raised e => Q e
  end.
Proof.
  intros HQ Hpaths Hnone. unfold clean_ide_files.
  rewrite (bind_after (print_info _ _) _ w tt w _ eq_refl).
  rewrite (bind_after (ide_paths ide_type) _ w (get_ide_paths ide_type w) w _ eq_refl).
  rewrite Hpaths. unfold after. cbn [result].
  destruct (decide (paths = ∅)).
  { split; reflexivity. }
  rewrite Hnone. rewrite bind_ret_l. cbn [fst snd]. rewrite bind_ret_l.
  assert (Hzero : zero_results !! "globalStorage" = Some 0 /\
                  zero_results !! "workspaceStorage" = Some 0)
    by (split; reflexivity).
  assert (Hblock : forall d : gmap string Z,
            d !! "globalStorage" = Some 0 /\ d !! "workspaceStorage" = Some 0 ->
            forall b : bool,
              post (fun d' : gmap string Z =>
                      d' !! "globalStorage" = Some 0 /\
                      d' !! "workspaceStorage" = Some 0) Q
                (if b then clean_history_and_profile paths force_mode d
                 else ret d)).
  { intros d [Hg Hw] b. destruct b; [| apply post_ret; split; assumption].
    intros w1.
    pose proof (clean_history_and_profile_keeps Q paths force_mode
                  d "globalStorage" 0 HQ ltac:(discriminate) ltac:(discriminate)
                  Hg w1) as H1.
    pose proof (clean_history_and_profile_keeps Q paths force_mode
                  d "workspaceStorage" 0 HQ ltac:(discriminate) ltac:(discriminate)
                  Hw w1) as H2.
    destruct (result (clean_history_and_profile paths force_mode d w1));
      [split; assumption | assumption]. }
  match goal with
  | |- match result (?m w) with _ => _ end =>
      assert (Hm : post (fun d' : gmap string Z =>
                           d' !! "globalStorage" = Some 0 /\
                           d' !! "workspaceStorage" = Some 0) Q m)
  end.
  { eapply post_bind; [apply Hblock; exact Hzero |]. intros d1 Hd1.
    eapply post_bind; [apply Hblock; exact Hd1 |]. intros d2 Hd2.
    apply post_ret. exact Hd2. }
  exact (Hm w).
Qed.


(** *** The marker in a name *)

Lemma lower_app a b :
  lower (String.append a b) = String.append (lower a) (lower b).
Proof.
  induction a as [| c a IH]; simpl; [reflexivity |]. rewrite IH. reflexivity.
Qed.

Lemma prefix_app n b : String.prefix n (String.append n b) = true.
Proof.
  induction n as [| c n IH]; simpl.
  - destruct b; reflexivity.
  - destruct (Ascii.ascii_dec c c) as [_ | Hne]; [exact IH | contradiction].
Qed.

Lemma contains_app n a b :
  contains n (String.append a (String.append n b)) = true.
Proof.
  induction a as [| c a IH].
  - change (contains n (String.append n b) = true).
    pose proof (prefix_app n b) as Hp.
    destruct (String.append n b); cbn [contains]; rewrite Hp; reflexivity.
  - change (contains n (String c (String.append a (String.append n b))) = true).
    cbn [contains]. rewrite IH. apply orb_true_r.
Qed.

(** X18.  The marker is looked for without regard to letter case and
    anywhere in the name: a directory whose name contains the letters of
    [augment] in any mix of upper and lower case is removed. *)
Theorem marker_matches_any_case (force_mode : bool) (item : path) (n : Z)
  (w : W) (a s b : string) :
  fs_is_dir item w = Returned true ->
  name item = String.append a (String.append s b) ->
  lower s = marker ->
  In (Called (CRmtree item force_mode))
    (events (remove_extension force_mode item n w)).
Proof.
  intros Hd Hname Hs.
  assert (Hm : contains marker (lower (name item)) = true).
  { rewrite Hname, !lower_app, Hs. apply contains_app. }
  unfold remove_extension. unfold_ops. unfold_monad. rewrite Hd, Hm. simpl.
  destruct force_mode.
  - destruct (shutil_rmtree item true w) as [[[] | e] w1]; simpl; auto.
  - destruct (shutil_rmtree item false w) as [[[] | e] w1]; simpl; auto.
Qed.

End Properties.

(** ** The cleaner on the simulated machines *)

(** *** The laws of the simulated file system *)

Lemma path_eqb_refl p : path_eqb p p = true.
Proof.
  induction p as [| a p IH]; simpl; [reflexivity |].
  rewrite String.eqb_refl. exact IH.
Qed.

Lemma assoc_remove_node p l : assoc p (remove_node p l) = None.
Proof.
  unfold remove_node. induction l as [| [q a] rest IH]; simpl; [reflexivity |].
  destruct (path_eqb p q) eqn:Hq; simpl; [exact IH |].
  rewrite Hq. exact IH.
Qed.

(** On the simulated machines an [unlink] that returns leaves no file
    behind. *)
Lemma sim_unlink_removes os p : unlink_removes (env:=sim_env os) p.
Proof.
  intros w w' Hu. simpl in *. unfold sim_unlink in Hu. unfold sim_exists.
  destruct (assoc p (nodes w)) as [[lk c |] |] eqn:Hp; try discriminate.
  destruct lk as [| | [| pid0 pids] |]; try discriminate;
    injection Hu as <-; simpl; rewrite assoc_remove_node; reflexivity.
Qed.

(** On the simulated machines a manifest that was written is read back as
    it was written. *)
Lemma sim_dump_then_load os p : dump_then_load (env:=sim_env os) p.
Proof.
  intros data w w' Hd. simpl in *. unfold sim_json_dump in Hd.
  unfold sim_json_load.
  destruct (assoc p (nodes w)) as [[lk c |] |]; try discriminate;
    injection Hd as <-; simpl; rewrite path_eqb_refl; reflexivity.
Qed.

(** On the simulated machines [windows] and [posix] no existence check
    raises. *)
Lemma sim_exists_never_raises os : exists_never_raises (env:=sim_env os).
Proof. intros p w e He. simpl in He. discriminate He. Qed.

(** *** The claims on the simulated machines *)

(** C1, counterexample to the claim as stated.  The backup of the state
    database does not exist on [w_stuck].  [safe_delete_file] answers
    [False] for it, not [True]: the very answer it gives, on the same
    machine, for the state database that it fails to delete. *)
Lemma absent_path_is_answered_like_a_failure :
  fs_exists (Env:=windows) state_db_backup w_stuck = Returned false /\
  result (safe_delete_file (env:=windows) state_db_backup true w_stuck)
    = Returned false /\
  result (safe_delete_file (env:=windows) state_db_backup true w_stuck)
    <> Returned true /\
  fs_exists (Env:=windows) state_db
    (final (safe_delete_file (env:=windows) state_db false w_stuck))
    = Returned true /\
  result (safe_delete_file (env:=windows) state_db_backup true w_stuck)
    = result (safe_delete_file (env:=windows) state_db false w_stuck).
Proof. repeat split; try reflexivity. vm_compute. discriminate. Qed.

Lemma safe_delete_file_absent_witness :
  fs_exists (Env:=windows) state_db_backup w_stuck = Returned false /\
  safe_delete_file (env:=windows) state_db_backup true w_stuck
    = Run (Returned false) w_stuck [Called (CExists state_db_backup)].
Proof.
  split; [reflexivity |].
  apply (safe_delete_file_absent (env:=windows) state_db_backup true w_stuck).
  reflexivity.
Defined.

(** C2, counterexample to the claim as stated.  On a platform other than
    Windows the state database of [w_stuck] survives the whole ladder, and
    the run has no five-second wait, no attempt after the [chmod] one, and no
    restart hint. *)
Lemma unix_ladder_has_no_final_retry :
  on_windows (env:=posix) = false /\
  result (safe_delete_file (env:=posix) state_db true w_stuck) = Returned false /\
  fs_exists (Env:=posix) state_db
    (final (safe_delete_file (env:=posix) state_db true w_stuck))
    = Returned true /\
  events (safe_delete_file (env:=posix) state_db true w_stuck) =
    (direct_attempt state_db ++ refusal state_db (OSError (Some 13)) ++
     [ Printed Info (Msg "启用强制模式，等待后重试..." []);
       Called (CSleep 1);
       Called (CUnlink state_db);
       Printed Info (Msg "正常删除仍然失败，尝试查找并终止占用进程..." []);
       Called (CChmod state_db 511);
       Called (CUnlink state_db);
       Printed Error (Msg "强制删除失败: {} - {}"
                        [APath state_db; AExn (OSError (Some 13))]) ])%list /\
  ~ In (Called (CSleep 5))
      (events (safe_delete_file (env:=posix) state_db true w_stuck)) /\
  ~ In (Printed Info (Msg restart_hint []))
      (events (safe_delete_file (env:=posix) state_db true w_stuck)).
Proof.
  repeat split; try reflexivity;
    intros Hin; vm_compute in Hin; intuition discriminate.
Qed.

Lemma final_retry_on_windows_only_witness :
  ends_in_final_failure (env:=windows) state_db
    (_force_delete_file (env:=windows) state_db w_stuck) /\
  no_final_retry (_force_delete_file (env:=posix) state_db w_stuck).
Proof.
  split.
  - apply (proj1 (final_retry_on_windows_only (env:=windows) state_db w_stuck));
      reflexivity.
  - apply (proj1 (proj2 (proj2
             (final_retry_on_windows_only (env:=posix) state_db w_stuck)))).
    reflexivity.
Defined.

Lemma escalation_gate_witness :
  safe_delete_file (env:=windows) state_db false w_held =
    Run (Returned false) w_held
      (direct_attempt state_db ++ refusal state_db (OSError (Some 13)) ++
       [Printed Info (Msg force_mode_hint [])]) /\
  safe_delete_file (env:=windows) state_db true w_broken =
    Run (Returned false) w_broken
      (direct_attempt state_db ++
       [Printed Error (Msg "删除失败: {} - {}"
                         [APath state_db; AExn (OSError (Some 5))])]).
Proof.
  split.
  - apply (proj2 (escalation_gate (env:=windows) state_db false w_held)
             (OSError (Some 13)) w_held); reflexivity.
  - apply (proj2 (escalation_gate (env:=windows) state_db true w_broken)
             (OSError (Some 5)) w_broken); reflexivity.
Defined.

Lemma workspace_listing_failure_witness :
  fs_exists (Env:=windows) (workspace_a // "state.vscdb") w_sweep
    = Returned true /\
  fs_exists (Env:=windows) (workspace_a // "state.vscdb")
    (final (_clean_workspace_storage (env:=windows) workspace_storage false w_sweep))
    = Returned false /\
  result (_clean_workspace_storage (env:=windows) workspace_storage false w_sweep)
    = Returned 0 /\
  exists ev,
    events (_clean_workspace_storage (env:=windows) workspace_storage false w_sweep)
    = (ev ++ [Printed Error (Msg "读取 workspaceStorage 目录失败: {}"
                               [AExn (OSError (Some 5))])])%list.
Proof.
  split; [reflexivity |]. split; [reflexivity |].
  destruct (workspace_listing_failure (env:=windows) workspace_storage false
              w_sweep [workspace_a] (OSError (Some 5)) true eq_refl eq_refl)
    as [Hzero Hline].
  split; [exact Hzero | exact (Hline eq_refl)].
Defined.

Lemma backup_failure_aborts_witness :
  _clean_extensions_json (env:=windows) (render:=sim_render) manifest false
    (w_profile (Returned (JList [record_A; record_B])) true) =
  Run (Returned 0) (w_profile (Returned (JList [record_A; record_B])) true)
    [ sanitize_banner manifest; Called (CCreateBackup manifest);
      backup_report (Returned None) ].
Proof.
  apply (backup_failure_aborts (env:=windows) (render:=sim_render) manifest false
           (w_profile (Returned (JList [record_A; record_B])) true)).
  - reflexivity.
  - left. reflexivity.
Defined.

Lemma unreadable_manifest_keeps_backup_witness :
  fs_exists (Env:=windows) (backup_name manifest)
    (final (_clean_extensions_json (env:=windows) (render:=sim_render) manifest
              false (w_profile not_json false))) = Returned true /\
  fs_exists (Env:=windows) (backup_name manifest)
    (final (_clean_extensions_json (env:=windows) (render:=sim_render) manifest
              false (w_profile (Returned record_A) false))) = Returned true /\
  events (_clean_extensions_json (env:=windows) (render:=sim_render) manifest
            false (w_profile not_json false)) =
    [ sanitize_banner manifest; Called (CCreateBackup manifest);
      Called (CJsonLoad manifest); unreadable_report not_json ].
Proof.
  split; [| split].
  - rewrite (unreadable_manifest_keeps_backup (env:=windows) (render:=sim_render)
               manifest false (w_profile not_json false)
               (snd (create_backup (Env:=windows) manifest (w_profile not_json false)))
               (backup_name manifest) not_json);
      [reflexivity | reflexivity | reflexivity | exact I].
  - rewrite (unreadable_manifest_keeps_backup (env:=windows) (render:=sim_render)
               manifest false (w_profile (Returned record_A) false)
               (snd (create_backup (Env:=windows) manifest
                       (w_profile (Returned record_A) false)))
               (backup_name manifest) (Returned record_A));
      reflexivity.
  - rewrite (unreadable_manifest_keeps_backup (env:=windows) (render:=sim_render)
               manifest false (w_profile not_json false)
               (snd (create_backup (Env:=windows) manifest (w_profile not_json false)))
               (backup_name manifest) not_json);
      [reflexivity | reflexivity | reflexivity | exact I].
Defined.

(** C3, counterexample to the claim as stated.  On [copying] the backup of
    the read-only manifest of [w_readonly_profile] is read-only.  No record
    of the manifest is marked; the one [unlink] of the backup raises errno
    13, the exception is caught, zero is returned -- and the backup is still
    there when the run ends, in either force mode. *)
Lemma unremovable_backup_is_left_behind :
  fst (create_backup (Env:=copying) manifest w_readonly_profile)
    = Returned (Some (backup_name manifest)) /\
  json_load (Env:=copying) manifest
    (snd (create_backup (Env:=copying) manifest w_readonly_profile))
    = Returned (JList [record_A; record_C; record_E]) /\
  Forall (fun item => isMarked (render:=sim_render) item = false)
    [record_A; record_C; record_E] /\
  result (_clean_extensions_json (env:=copying) (render:=sim_render) manifest false
            w_readonly_profile) = Returned 0 /\
  fs_exists (Env:=copying) (backup_name manifest)
    (final (_clean_extensions_json (env:=copying) (render:=sim_render) manifest
              false w_readonly_profile)) = Returned true /\
  fs_exists (Env:=copying) (backup_name manifest)
    (final (_clean_extensions_json (env:=copying) (render:=sim_render) manifest
              true w_readonly_profile)) = Returned true /\
  events (_clean_extensions_json (env:=copying) (render:=sim_render) manifest false
            w_readonly_profile) =
    [ sanitize_banner manifest; Called (CCreateBackup manifest);
      Called (CJsonLoad manifest);
      Printed Info (Msg "extensions.json中未找到augment相关条目" []);
      Called (CUnlink (backup_name manifest));
      sanitize_error (OSError (Some 13)) ].
Proof. repeat split; try reflexivity; repeat constructor. Qed.

Lemma unmarked_manifest_is_not_rewritten_witness :
  result (_clean_extensions_json (env:=windows) (render:=sim_render) manifest false
            (w_profile (Returned (JList [record_A; record_C; record_E])) false))
    = Returned 0 /\
  fs_exists (Env:=windows) (backup_name manifest)
    (final (_clean_extensions_json (env:=windows) (render:=sim_render) manifest
              false (w_profile (Returned (JList [record_A; record_C; record_E])) false)))
    = Returned false /\
  final (_clean_extensions_json (env:=windows) (render:=sim_render) manifest
           false (w_profile (Returned (JList [record_A; record_C; record_E])) false))
    = w_profile (Returned (JList [record_A; record_C; record_E])) false /\
  events (_clean_extensions_json (env:=copying) (render:=sim_render) manifest false
            w_readonly_profile) =
    [ sanitize_banner manifest; Called (CCreateBackup manifest);
      Called (CJsonLoad manifest);
      Printed Info (Msg "extensions.json中未找到augment相关条目" []);
      Called (CUnlink (backup_name manifest));
      sanitize_error (OSError (Some 13)) ].
Proof.
  destruct (proj1 (unmarked_manifest_is_not_rewritten (env:=windows)
                     (render:=sim_render) manifest false
                     (w_profile (Returned (JList [record_A; record_C; record_E])) false)
                     (snd (create_backup (Env:=windows) manifest
                        (w_profile (Returned (JList [record_A; record_C; record_E])) false)))
                     (backup_name manifest) [record_A; record_C; record_E]
                     eq_refl eq_refl
                     ltac:(repeat constructor))
              (w_profile (Returned (JList [record_A; record_C; record_E])) false)
              eq_refl) as [Hrun Hgone].
  split; [rewrite Hrun; reflexivity |].
  split; [apply Hgone; apply sim_unlink_removes |].
  split; [rewrite Hrun; reflexivity |].
  rewrite (proj1 (proj2 (unmarked_manifest_is_not_rewritten (env:=copying)
                           (render:=sim_render) manifest false
                           w_readonly_profile
                           (snd (create_backup (Env:=copying) manifest
                                   w_readonly_profile))
                           (backup_name manifest) [record_A; record_C; record_E]
                           eq_refl eq_refl
                           ltac:(repeat constructor)))
             (OSError (Some 13))
             (snd (create_backup (Env:=copying) manifest w_readonly_profile))
             eq_refl).
  reflexivity.
Defined.

Lemma sanitize_preserves_order_witness :
  fst (partition_items (render:=sim_render)
         [record_A; record_B; record_C; record_D; record_E] [] [])
    = [record_A; record_C; record_E] /\
  In (Called (CJsonDump manifest [record_A; record_C; record_E]))
    (events (_clean_extensions_json (env:=windows) (render:=sim_render) manifest
               false
               (w_profile
                  (Returned (JList [record_A; record_B; record_C; record_D; record_E]))
                  false))) /\
  json_load (Env:=windows) manifest
    (final (_clean_extensions_json (env:=windows) (render:=sim_render) manifest
              false
              (w_profile
                 (Returned (JList [record_A; record_B; record_C; record_D; record_E]))
                 false)))
    = Returned (JList [record_A; record_C; record_E]).
Proof.
  split.
  - apply (proj1 (proj2 (sanitize_preserves_order (W:=sim) (env:=windows)
                           (render:=sim_render)))); reflexivity.
  - destruct (proj2 (proj2 (sanitize_preserves_order (env:=windows)
                              (render:=sim_render)))
                manifest false
                (w_profile
                   (Returned (JList [record_A; record_B; record_C; record_D; record_E]))
                   false)
                (snd (create_backup (Env:=windows) manifest
                        (w_profile
                           (Returned
                              (JList [record_A; record_B; record_C; record_D; record_E]))
                           false)))
                (backup_name manifest)
                [record_A; record_B; record_C; record_D; record_E]
                eq_refl eq_refl eq_refl) as (Hin & _ & _ & Hread).
    split; [exact Hin |].
    apply Hread; [apply sim_dump_then_load | reflexivity].
Defined.

(** C8, counterexample to the claim as stated.  On [deep] the forced
    removal of the History folder of [w_trees] raises: the exception is
    caught by the outer handler and the folder counts zero, not one; the
    marked extension directory is not added either.  On a machine on which
    the parent directory may not be searched the existence check, which
    stands before the [try], raises, and the exception leaves the method in
    either mode. *)
Lemma forced_removal_can_count_nothing :
  fs_exists (Env:=deep) history_dir w_trees = Returned true /\
  _clean_history_folder (env:=deep) history_dir true w_trees =
    Run (Returned 0) w_trees
      [ Printed Info (Msg "清理History文件夹: {}" [APath history_dir]);
        Called (CExists history_dir);
        Called (CRmtree history_dir true);
        Printed Error (Msg "清理History文件夹时发生错误: {}" [AExn OtherException]) ] /\
  result (remove_extension (env:=deep) true augment_extension 0 w_trees)
    = Returned 0 /\
  result (_clean_history_folder (env:=guarded user_dir) history_dir true w_trees)
    = Raised (OSError (Some 13)) /\
  result (_clean_history_folder (env:=guarded user_dir) history_dir false w_trees)
    = Raised (OSError (Some 13)) /\
  result (_clean_profile_extensions (env:=guarded profile_dir) extensions_dir
            false w_trees)
    = Raised (OSError (Some 13)).
Proof. repeat split. Qed.

Lemma remove_tree_reports_witness :
  result (_clean_history_folder (env:=windows) history_dir true w_trees)
    = Returned 1 /\
  fs_exists (Env:=windows) history_dir
    (final (_clean_history_folder (env:=windows) history_dir true w_trees))
    = Returned true /\
  result (_clean_history_folder (env:=windows) history_dir false w_trees)
    = Returned 0 /\
  final (_clean_history_folder (env:=windows) history_dir false w_trees) = w_trees /\
  result (remove_extension (env:=windows) true augment_extension 0 w_trees)
    = Returned 1 /\
  result (remove_extension (env:=windows) false augment_extension 0 w_trees)
    = Returned 0 /\
  result (_clean_history_folder (env:=deep) history_dir true w_trees)
    = Returned 0 /\
  result (remove_extension (env:=deep) true augment_extension 0 w_trees)
    = Returned 0.
Proof.
  pose proof (remove_tree_reports (env:=windows)
                history_dir augment_extension 0 w_trees
                eq_refl eq_refl eq_refl) as (Hh & _ & Hx & _ & Hh' & Hx' & _).
  pose proof (remove_tree_reports (env:=deep)
                history_dir augment_extension 0 w_trees
                eq_refl eq_refl eq_refl) as (_ & Hd & _ & Hdx & _).
  rewrite (Hh (snd (shutil_rmtree (Env:=windows) history_dir true w_trees)) eq_refl).
  rewrite (Hx (snd (shutil_rmtree (Env:=windows) augment_extension true w_trees))
             eq_refl).
  rewrite (Hh' (OSError (Some 13)) w_trees eq_refl).
  rewrite (Hx' (OSError (Some 13)) w_trees eq_refl).
  rewrite (Hd OtherException w_trees eq_refl).
  rewrite (Hdx OtherException w_trees eq_refl).
  repeat split.
Defined.



(** *** Two whole runs *)

(** A state database held open by one process is deleted once that process
    has been killed. *)
Example held_file_is_deleted_after_the_kill :
  result (safe_delete_file (env:=windows) state_db true w_held) = Returned true /\
  fs_exists (Env:=windows) state_db
    (final (safe_delete_file (env:=windows) state_db true w_held))
    = Returned false /\
  events (safe_delete_file (env:=windows) state_db true w_held) =
    (direct_attempt state_db ++ refusal state_db (OSError (Some 13)) ++
     [ Printed Info (Msg "启用强制模式，等待后重试..." []);
       Called (CSleep 1);
       Called (CUnlink state_db);
       Printed Info (Msg "正常删除仍然失败，尝试查找并终止占用进程..." []);
       Called (CFindProcesses state_db);
       Printed Info (Msg "找到 {} 个占用文件的进程" [ANum 1]);
       Printed Info (Msg "  {}" [AProc (Process 4242 None)]);
       Called (CRun (Taskkill 4242));
       Printed Info (Msg "已终止占用进程 PID: {}" [ANum 4242]);
       Called (CSleep 2);
       Called (CUnlink state_db);
       Printed Success (Msg "终止占用进程后删除成功: {}" [APath state_db]) ])%list.
Proof. repeat split. Qed.

(** A cleanup of VS Code in force mode on [w_full]. *)
Example vscode_cleanup_summary :
  match result (clean_ide_files (env:=windows) (render:=sim_render) VSCODE true w_full) with
  | Returned d =>
      d !! "globalStorage" = Some 2 /\ d !! "workspaceStorage" = Some 1 /\
      d !! "history" = Some 1 /\ d !! "profile" = Some 2
  | Raised _ => False
  end.
Proof. vm_compute. repeat split. Qed.

(** *** The further properties on the simulated machines *)

Lemma safe_delete_file_touches_only_its_path_witness :
  Forall (fun ev => beyond_files ev = false /\
                    forall q, target_of ev = Some q -> q = state_db)
    (events (safe_delete_file (env:=windows) state_db true w_held)).
Proof.
  apply (safe_delete_file_touches_only_its_path (env:=windows) state_db true w_held).
Defined.

Lemma safe_delete_file_process_calls_witness :
  Forall (fun ev => process_call ev = false /\
                    forall n, ev = Called (CSleep n) -> n = 1)
    (events (safe_delete_file (env:=posix) state_db true w_held)).
Proof.
  apply (proj1 (safe_delete_file_process_calls (env:=posix) state_db true w_held)).
  reflexivity.
Defined.

Lemma safe_delete_file_true_means_gone_witness :
  fs_exists (Env:=windows) state_db w_held = Returned true /\
  fs_exists (Env:=windows) state_db
    (final (safe_delete_file (env:=windows) state_db true w_held))
    = Returned false.
Proof.
  apply (safe_delete_file_true_means_gone (env:=windows) state_db true w_held).
  - apply sim_unlink_removes.
  - reflexivity.
Defined.

Lemma kill_every_holder_witness :
  commands (events (_kill_occupying_processes (env:=windows)
                      [Process 7 None; Process 4242 None] w_held)) =
  [Taskkill 7; Taskkill 4242].
Proof.
  apply (proj2 (kill_every_holder (env:=windows)
                  [Process 7 None; Process 4242 None] w_held)).
Defined.

Lemma only_reported_holders_are_killed_witness :
  commands (events (kill_holders_and_retry (env:=windows) state_db w_held)) =
  [Taskkill 4242] /\
  kill_holders_and_retry (env:=windows) state_db w_stuck =
  Run (Returned false) w_stuck [Called (CFindProcesses state_db)] /\
  kill_holders_and_retry (env:=posix) state_db w_held = Run (Returned false) w_held [].
Proof.
  pose proof (only_reported_holders_are_killed (env:=windows) state_db w_held)
    as (Hkill & _ & _).
  pose proof (only_reported_holders_are_killed (env:=windows) state_db w_stuck)
    as (_ & Hnone & _).
  pose proof (only_reported_holders_are_killed (env:=posix) state_db w_held)
    as (_ & _ & Hposix).
  split; [exact (Hkill eq_refl) |].
  split; [exact (Hnone eq_refl eq_refl) | exact (Hposix eq_refl)].
Defined.


Lemma global_storage_touches_only_target_files_witness :
  Forall (fun ev => beyond_files ev = false /\
                    forall q, target_of ev = Some q ->
                              q = global_storage // "state.vscdb" \/
                              q = global_storage // "state.vscdb.backup")
    (events (_clean_global_storage (env:=windows) global_storage true w_full)).
Proof.
  apply (global_storage_touches_only_target_files (env:=windows)
           global_storage true w_full).
Defined.

Lemma workspace_sweep_touches_only_target_files_witness :
  Forall (fun ev => beyond_files ev = false /\
                    forall q, target_of ev = Some q ->
                              exists d n, In d [workspace_a] /\
                                          In n TARGET_FILES /\ q = d // n)
    (events (_clean_workspace_storage (env:=windows) workspace_storage true w_sweep)).
Proof.
  apply (workspace_sweep_touches_only_target_files (env:=windows)
           workspace_storage true w_sweep [workspace_a] (Some (OSError (Some 5)))).
  reflexivity.
Defined.


Lemma workspace_sweep_count_witness :
  exists n,
    result (_clean_workspace_storage (env:=windows) workspace_storage true w_full)
      = Returned n /\
    0 <= n <= 2 * 1.
Proof.
  apply (workspace_sweep_count (env:=windows) workspace_storage true w_full
           [workspace_a] None true);
    reflexivity.
Defined.

Lemma only_marked_extensions_are_removed_witness :
  Forall (fun ev => extension_event false ev /\
                    forall q b, ev = Called (CRmtree q b) ->
                                In q [ augment_extension;
                                       extensions_dir // "ms-python.python-1.0";
                                       extensions_dir // "augment-notes.txt" ])
    (events (_clean_profile_extensions (env:=windows) extensions_dir false
               w_extensions)).
Proof.
  apply (only_marked_extensions_are_removed (env:=windows) extensions_dir false
           w_extensions _ (Some (OSError (Some 5)))).
  reflexivity.
Defined.

Lemma forced_extension_count_witness :
  result (_clean_profile_extensions (env:=windows) extensions_dir true w_extensions)
    = Returned 1 /\
  fs_exists (Env:=windows) augment_extension
    (final (_clean_profile_extensions (env:=windows) extensions_dir true
              w_extensions)) = Returned true.
Proof.
  split; [| reflexivity].
  apply (forced_extension_count (env:=windows) extensions_dir w_extensions
           [ augment_extension; extensions_dir // "ms-python.python-1.0";
             extensions_dir // "augment-notes.txt" ]
           (Some (OSError (Some 5))));
    reflexivity.
Defined.

Lemma partition_items_conserves_witness :
  Permutation [record_A; record_B; record_C; record_D; record_E]
    ([record_A; record_C; record_E] ++ [record_B; record_D]) /\
  partition_items (render:=sim_render) [record_A; record_C; record_E] [] [] =
  ([record_A; record_C; record_E], []).
Proof.
  pose proof (partition_items_conserves (render:=sim_render)
                [record_A; record_B; record_C; record_D; record_E])
    as (Hperm & _ & _ & Hagain).
  split; [exact Hperm | exact Hagain].
Defined.

Lemma sanitizer_answer_follows_the_write_witness :
  result (_clean_extensions_json (env:=sealed) (render:=sim_render) manifest false
            (w_profile (Returned (JList [record_A; record_B])) false))
    = Returned 0 /\
  fs_exists (Env:=sealed) (backup_name manifest)
    (final (_clean_extensions_json (env:=sealed) (render:=sim_render) manifest
              false (w_profile (Returned (JList [record_A; record_B])) false)))
    = Returned true /\
  result (_clean_extensions_json (env:=windows) (render:=sim_render) manifest false
            (w_profile
               (Returned (JList [record_A; record_B; record_C; record_D; record_E]))
               false))
    = Returned 1.
Proof.
  split; [| split].
  - apply (proj2 (proj2 (sanitizer_answer_follows_the_write (env:=sealed)
                           (render:=sim_render) manifest false
                           (w_profile (Returned (JList [record_A; record_B])) false)
                           _ _ (backup_name manifest) [record_A; record_B]
                           (Raised (OSError (Some 13)))
                           eq_refl eq_refl eq_refl eq_refl))
             (OSError (Some 13)) eq_refl).
  - reflexivity.
  - apply (proj1 (proj2 (sanitizer_answer_follows_the_write (env:=windows)
                           (render:=sim_render) manifest false
                           (w_profile
                              (Returned
                                 (JList [record_A; record_B; record_C; record_D; record_E]))
                              false)
                           _ _ (backup_name manifest)
                           [record_A; record_B; record_C; record_D; record_E]
                           (Returned tt)
                           eq_refl eq_refl eq_refl eq_refl))
             eq_refl).
Defined.


Lemma vscode_and_insiders_alike_witness :
  result (clean_ide_files (env:=windows) (render:=sim_render) VSCODE true w_any_ide) =
  result (clean_ide_files (env:=windows) (render:=sim_render) VSCODE_INSIDERS true
            w_any_ide) /\
  final (clean_ide_files (env:=windows) (render:=sim_render) VSCODE true w_any_ide) =
  final (clean_ide_files (env:=windows) (render:=sim_render) VSCODE_INSIDERS true
           w_any_ide).
Proof.
  apply (vscode_and_insiders_alike (env:=windows) (render:=sim_render) true
           w_any_ide).
  reflexivity.
Defined.


Lemma marker_matches_any_case_witness :
  In (Called (CRmtree augment_extension true))
    (events (remove_extension (env:=windows) true augment_extension 0 w_trees)).
Proof.
  apply (marker_matches_any_case (env:=windows) true augment_extension 0 w_trees
           EmptyString "Augment" ".vscode-augment-0.1");
    reflexivity.
Defined.
